(** * The order pipeline of food-delivery-api ([server.js])

    A shallow embedding of the request handlers of the first server
    snapshot in [src/server.js] (lines 1-2307): order creation
    ([POST /orders]) with its pricing loop, its persist path and its
    synthetic fallback, the Telegram notification, the two status-update
    endpoints, the two dish mutation endpoints and the order history;
    then the account endpoints (registration, login, password change
    and reset), the bot's dish endpoints, the Telegram test endpoint
    and the liveness probe, and the identity function as the later
    snapshot rewrites it (lines 3332-3361).

    - JavaScript values are an inductive type; numbers are IEEE binary64
      (Rocq's primitive floats), so [+] and [*] are the operations the
      program runs. Texts are held as UTF-8; where the program counts
      or visits characters, code units and code points are computed
      from the bytes.
    - A conversion to text or to a number can throw (an object with an
      own [toString] property, which JSON can deliver, has no primitive
      value), so the conversions return an outcome, and so does every
      template that interpolates a value of the request, the log lines
      included.
    - The store, the token verifier, the HTTP client and the clock are
      collaborators of the program: they are fields of an environment
      record. The general theorems quantify over them; closed runs use
      the reference environment of [Demo].
    - Handlers run in a state-and-exception monad whose state records
      the storage calls, the outbound HTTP calls and the dispatcher
      invocations made so far. *)

From Stdlib Require Import ZArith List String Ascii Bool Lia.
From Stdlib Require Import PrimFloat FloatOps SpecFloat.
From Stdlib Require DecimalString.
Import ListNotations.
Local Open Scope string_scope.

Set Warnings "-register-all".

(* ================================================================== *)
(** * ECMAScript numbers and their text forms *)
(* ================================================================== *)

Module Num.

(** [m * 10^e] rounded once, to nearest even: the value a decimal
    numeral denotes as a Number. *)
Definition dec2float (neg : bool) (m e : Z) : float :=
  match m with
  | Zpos p =>
      if (0 <=? e)%Z
      then SF2Prim (binary_normalize prec emax
                      (cond_Zopp neg (Zpos p * 10 ^ e)) 0 false)
      else SF2Prim (SFdiv prec emax
                      (S754_finite neg p 0)
                      (S754_finite false (Z.to_pos (10 ^ (- e))) 0))
  | _ => if neg then neg_zero else zero
  end.

(** ToBoolean on a Number: [NaN], [+0] and [-0] are falsy. *)
Definition truthy (x : float) : bool := negb (is_nan x || is_zero x).

(** A text is held as its UTF-8 bytes. [ws_tail s] is the text after
    one white-space character at the head of [s], if one is there.
    White space is what StrWhiteSpaceChar covers: TAB, LF, VT, FF, CR,
    SP, U+00A0, U+1680, U+2000 to U+200A, U+2028, U+2029, U+202F,
    U+205F, U+3000 and U+FEFF. *)
Definition ws_tail (s : string) : option string :=
  match s with
  | String c r =>
      let n := nat_of_ascii c in
      if ((n =? 32) || ((9 <=? n) && (n <=? 13)))%nat then Some r
      else
        match r with
        | String c2 (String c3 r3) =>
            let n2 := nat_of_ascii c2 in
            let n3 := nat_of_ascii c3 in
            if ((n =? 194) && (n2 =? 160))%nat then Some (String c3 r3)
            else if (((n =? 225) && (n2 =? 154) && (n3 =? 128))
                     || ((n =? 226) && (n2 =? 128)
                         && (((128 <=? n3) && (n3 <=? 138))
                             || (n3 =? 168) || (n3 =? 169) || (n3 =? 175)))
                     || ((n =? 226) && (n2 =? 129) && (n3 =? 159))
                     || ((n =? 227) && (n2 =? 128) && (n3 =? 128))
                     || ((n =? 239) && (n2 =? 187) && (n3 =? 191)))%nat
                 then Some r3 else None
        | String c2 EmptyString =>
            if ((n =? 194) && (nat_of_ascii c2 =? 160))%nat
            then Some EmptyString else None
        | EmptyString => None
        end
  | EmptyString => None
  end.

Fixpoint skip_ws_fuel (fuel : nat) (s : string) : string :=
  match fuel with
  | O => s
  | S k =>
      match ws_tail s with
      | Some r => skip_ws_fuel k r
      | None => s
      end
  end.

(** Leading white space removed. *)
Definition skip_ws (s : string) : string := skip_ws_fuel (String.length s) s.

Definition digit_val (c : ascii) : option Z :=
  let n := Z.of_nat (nat_of_ascii c) in
  if ((48 <=? n) && (n <=? 57))%Z then Some (n - 48)%Z else None.

Definition hex_val (c : ascii) : option Z :=
  let n := Z.of_nat (nat_of_ascii c) in
  if ((48 <=? n) && (n <=? 57))%Z then Some (n - 48)%Z
  else if ((97 <=? n) && (n <=? 102))%Z then Some (n - 87)%Z
  else if ((65 <=? n) && (n <=? 70))%Z then Some (n - 55)%Z
  else None.

(** Reads the longest run of digits: the accumulated value, how many
    digits were read, and the rest of the text. *)
Fixpoint read_digits (val : ascii -> option Z) (radix : Z)
         (s : string) (acc : Z) (n : nat) : Z * nat * string :=
  match s with
  | String c r =>
      match val c with
      | Some d => read_digits val radix r (acc * radix + d)%Z (S n)
      | None => (acc, n, s)
      end
  | EmptyString => (acc, n, s)
  end.

Definition read_sign (s : string) : bool * string :=
  match s with
  | String "-" r => (true, r)
  | String "+" r => (false, r)
  | _ => (false, s)
  end.

(** The exponent part of a decimal literal, if one is there: its
    value and the rest of the text. *)
Definition read_exponent (s : string) : option (Z * string) :=
  match s with
  | String c r =>
      if (Ascii.eqb c "e" || Ascii.eqb c "E")%bool then
        let '(eneg, r1) := read_sign r in
        let '(ev, ne, r2) := read_digits digit_val 10 r1 0 0 in
        match ne with
        | O => None
        | S _ => Some (if eneg then (- ev)%Z else ev, r2)
        end
      else None
  | EmptyString => None
  end.

(** An unsigned decimal literal at the head of [s]: mantissa digits as
    an integer, the decimal exponent, and the rest; [None] when no
    digit is there. *)
Definition read_decimal (s : string) : option (Z * Z * string) :=
  let '(ip, ni, r1) := read_digits digit_val 10 s 0 0 in
  let '(fp, nf, r2) :=
    match r1 with
    | String "." r => read_digits digit_val 10 r ip 0
    | _ => (ip, O, r1)
    end in
  match (ni + nf)%nat with
  | O => None
  | S _ =>
      match read_exponent r2 with
      | Some (ex, r3) => Some (fp, (ex - Z.of_nat nf)%Z, r3)
      | None => Some (fp, (- Z.of_nat nf)%Z, r2)
      end
  end.

(** [parseFloat] on a String: leading white space is skipped, then the
    longest prefix that is a decimal literal is read; [NaN] when there
    is none. *)
Definition parseFloat_string (s : string) : float :=
  let '(neg, s1) := read_sign (skip_ws s) in
  if String.prefix "Infinity" s1
  then (if neg then neg_infinity else infinity)
  else match read_decimal s1 with
       | Some (m, e, _) => dec2float neg m e
       | None => nan
       end.

(** [parseInt] on a String with no radix argument: radix 16 after a
    [0x] prefix, 10 otherwise; [NaN] when no digit follows. *)
Definition parseInt_string (s : string) : float :=
  let '(neg, s1) := read_sign (skip_ws s) in
  let '(v, n, _) :=
    match s1 with
    | String "0" (String c r) =>
        if (Ascii.eqb c "x" || Ascii.eqb c "X")%bool
        then read_digits hex_val 16 r 0 0
        else read_digits digit_val 10 s1 0 0
    | _ => read_digits digit_val 10 s1 0 0
    end in
  match n with
  | O => nan
  | S _ => dec2float neg v 0
  end.

(** [acc] is what was kept so far, [pending] the white space met since
    the last character that is not white space. *)
Fixpoint trim_end_fuel (fuel : nat) (s pending acc : string) : string :=
  match fuel with
  | O => acc
  | S k =>
      match ws_tail s with
      | Some r =>
          trim_end_fuel k r
            (pending ++ substring 0 (String.length s - String.length r) s) acc
      | None =>
          match s with
          | String c r =>
              trim_end_fuel k r EmptyString
                            (acc ++ pending ++ String c EmptyString)
          | EmptyString => acc
          end
      end
  end.

(** Both ends trimmed of white space. *)
Definition trim (s : string) : string :=
  let t := skip_ws s in
  trim_end_fuel (String.length t) t EmptyString EmptyString.

(** StringToNumber: the whole trimmed text must be a numeric literal;
    the empty text is [+0]. *)
Definition string_to_number (s : string) : float :=
  let t := trim s in
  match t with
  | EmptyString => zero
  | String "0" (String c r) =>
      let radix_digits (val : ascii -> option Z) (radix : Z) :=
        match read_digits val radix r 0 0 with
        | (v, S _, EmptyString) => dec2float false v 0
        | _ => nan
        end in
      if (Ascii.eqb c "x" || Ascii.eqb c "X")%bool then radix_digits hex_val 16%Z
      else if (Ascii.eqb c "o" || Ascii.eqb c "O")%bool then
        radix_digits (fun a => match digit_val a with
                               | Some d => if (d <? 8)%Z then Some d else None
                               | None => None end) 8%Z
      else if (Ascii.eqb c "b" || Ascii.eqb c "B")%bool then
        radix_digits (fun a => match digit_val a with
                               | Some d => if (d <? 2)%Z then Some d else None
                               | None => None end) 2%Z
      else match read_decimal t with
           | Some (m, e, EmptyString) => dec2float false m e
           | _ => nan
           end
  | _ =>
      let '(neg, t1) := read_sign t in
      if String.eqb t1 "Infinity"
      then (if neg then neg_infinity else infinity)
      else match read_decimal t1 with
           | Some (m, e, EmptyString) => dec2float neg m e
           | _ => nan
           end
  end.

(** ** Number::toString (radix 10) *)

Definition string_of_Z (z : Z) : string :=
  match z with
  | Zneg p => "-" ++ DecimalString.NilZero.string_of_uint (Pos.to_uint p)
  | _ => DecimalString.NilZero.string_of_uint (N.to_uint (Z.to_N z))
  end.

Fixpoint zeros (n : nat) : string :=
  match n with
  | O => EmptyString
  | S k => String "0" (zeros k)
  end.

(** [x = num / den] exactly, for a positive finite [x]. *)
Definition exact_ratio (m : positive) (e : Z) : Z * Z :=
  if (0 <=? e)%Z then (Zpos m * 2 ^ e, 1)%Z else (Zpos m, 2 ^ (- e))%Z.

(** [num / den < 10 ^ n]. *)
Definition below_pow10 (num den n : Z) : bool :=
  if (0 <=? n)%Z then (num <? den * 10 ^ n)%Z
  else (num * 10 ^ (- n) <? den)%Z.

Fixpoint first_below (fuel : nat) (num den n : Z) : Z :=
  match fuel with
  | O => n
  | S k => if below_pow10 num den n then n else first_below k num den (n + 1)
  end.

(** The least [n] with [num / den < 10 ^ n]. *)
Definition decimal_exponent (num den : Z) : Z :=
  let est := (((Z.log2 num - Z.log2 den) * 30103) / 100000 - 2)%Z in
  first_below 8 num den est.

(** The shortest digit string [s] (of [k] digits) and exponent [n]
    with [s * 10 ^ (n - k)] reading back as [x]; among the candidates
    of that length the one nearest to [x], the even one on a tie. *)
Fixpoint shortest_digits (fuel : nat) (x : float) (num den n0 : Z) (k : Z)
  : Z * Z * Z :=
  match fuel with
  | O => (0, k, n0)%Z
  | S f =>
      let sh := (k - n0)%Z in
      let '(snum, sden) :=
        if (0 <=? sh)%Z then (num * 10 ^ sh, den)%Z
        else (num, den * 10 ^ (- sh))%Z in
      let lo := (snum / sden)%Z in
      let hi := (lo + 1)%Z in
      let rem2 := (2 * (snum - lo * sden))%Z in
      let back (s : Z) := Leibniz.eqb (dec2float false s (n0 - k)) x in
      let lo_ok := back lo in
      let hi_ok := back hi in
      let pick_hi :=
        hi_ok && (negb lo_ok || (sden <? rem2)%Z
                  || ((sden =? rem2)%Z && Z.odd lo)) in
      if pick_hi then
        if (hi =? 10 ^ k)%Z then (10 ^ (k - 1), k, n0 + 1)%Z else (hi, k, n0)
      else if lo_ok then (lo, k, n0)
      else shortest_digits f x num den n0 (k + 1)
  end.

Fixpoint strip_zeros (fuel : nat) (s k : Z) : Z * Z :=
  match fuel with
  | O => (s, k)
  | S f => if ((1 <? k) && (s mod 10 =? 0))%Z
           then strip_zeros f (s / 10)%Z (k - 1)%Z else (s, k)
  end.

(** The text of a positive finite Number from its digits [s], their
    count [k] and the exponent [n] (value [0.s * 10 ^ n]). *)
Definition format_digits (s k n : Z) : string :=
  let ds := string_of_Z s in
  if ((k <=? n) && (n <=? 21))%Z then ds ++ zeros (Z.to_nat (n - k))
  else if ((0 <? n) && (n <=? 21))%Z then
    substring 0 (Z.to_nat n) ds ++ "."
      ++ substring (Z.to_nat n) (Z.to_nat (k - n)) ds
  else if ((-6 <? n) && (n <=? 0))%Z then "0." ++ zeros (Z.to_nat (- n)) ++ ds
  else
    let ex := (n - 1)%Z in
    let et := (if (0 <=? ex)%Z then "+" else "-") ++ string_of_Z (Z.abs ex) in
    if (k =? 1)%Z then ds ++ "e" ++ et
    else substring 0 1 ds ++ "." ++ substring 1 (Z.to_nat (k - 1)) ds
           ++ "e" ++ et.

Definition number_to_string (x : float) : string :=
  match Prim2SF x with
  | S754_nan => "NaN"
  | S754_zero _ => "0"
  | S754_infinity s => if s then "-Infinity" else "Infinity"
  | S754_finite sg m e =>
      let '(num, den) := exact_ratio m e in
      let n0 := decimal_exponent num den in
      let '(s, k, n) := shortest_digits 17 (abs x) num den n0 1 in
      let '(s', k') := strip_zeros 17 s k in
      (if sg then "-" else "") ++ format_digits s' k' n
  end.

(** ** Date.prototype.toISOString *)

(** Civil date of a day number counted from 1970-01-01. *)
Definition civil_from_days (d : Z) : Z * Z * Z :=
  let z := (d + 719468)%Z in
  let era := (z / 146097)%Z in
  let doe := (z - era * 146097)%Z in
  let yoe := ((doe - doe / 1460 + doe / 36524 - doe / 146096) / 365)%Z in
  let doy := (doe - (365 * yoe + yoe / 4 - yoe / 100))%Z in
  let mp := ((5 * doy + 2) / 153)%Z in
  let day := (doy - (153 * mp + 2) / 5 + 1)%Z in
  let month := (if (mp <? 10)%Z then mp + 3 else mp - 9)%Z in
  let year := (yoe + era * 400 + (if (month <=? 2)%Z then 1 else 0))%Z in
  (year, month, day).

Definition pad (width : nat) (z : Z) : string :=
  let t := string_of_Z z in
  zeros (width - String.length t) ++ t.

(** The time value of a Date as an integer number of milliseconds;
    [None] for an invalid Date ([NaN], or out of the +-8.64e15 range). *)
Definition time_value (t : float) : option Z :=
  match Prim2SF t with
  | S754_zero _ => Some 0%Z
  | S754_finite sg m e =>
      let '(num, den) := exact_ratio m e in
      if ((num mod den =? 0) && (num / den <=? 8640000000000000))%Z
      then Some (cond_Zopp sg (num / den)) else None
  | _ => None
  end.

Definition toISOString (ms : Z) : string :=
  let days := (ms / 86400000)%Z in
  let r := (ms mod 86400000)%Z in
  let '(y, mo, d) := civil_from_days days in
  let yt := if ((0 <=? y) && (y <=? 9999))%Z then pad 4 y
            else (if (y <? 0)%Z then "-" else "+") ++ pad 6 (Z.abs y) in
  yt ++ "-" ++ pad 2 mo ++ "-" ++ pad 2 d ++ "T"
     ++ pad 2 (r / 3600000) ++ ":" ++ pad 2 ((r / 60000) mod 60) ++ ":"
     ++ pad 2 ((r / 1000) mod 60) ++ "." ++ pad 3 (r mod 1000) ++ "Z".

(** ** Code points and code units of a text *)

(** The number of bytes of the UTF-8 sequence that starts with [c]. *)
Definition utf8_width (c : ascii) : nat :=
  let n := nat_of_ascii c in
  if (n <? 192)%nat then 1%nat
  else if (n <? 224)%nat then 2%nat
       else if (n <? 240)%nat then 3%nat else 4%nat.

Fixpoint code_points_fuel (fuel : nat) (s : string) : list string :=
  match fuel with
  | O => []
  | S k =>
      match s with
      | EmptyString => []
      | String c _ =>
          let w := utf8_width c in
          substring 0 w s
            :: code_points_fuel k (substring w (String.length s - w) s)
      end
  end.

(** The code points of a text, each as a text of its own. *)
Definition code_points (s : string) : list string :=
  code_points_fuel (String.length s) s.

(** UTF-16 code units of a byte of a text held as UTF-8: one per code
    point, two for a code point beyond the basic plane (a four-byte
    sequence), counted at the first byte of the sequence. *)
Definition utf16_units (c : ascii) : nat :=
  let n := nat_of_ascii c in
  if (n <? 128)%nat then 1%nat
  else if (n <? 192)%nat then 0%nat
       else if (n <? 240)%nat then 1%nat else 2%nat.

(** [s.length]. *)
Fixpoint utf16_length (s : string) : nat :=
  match s with
  | EmptyString => 0%nat
  | String c r => (utf16_units c + utf16_length r)%nat
  end.

End Num.

(* ================================================================== *)
(** * ECMAScript values and the operations the handlers apply to them *)
(* ================================================================== *)

Module JS.
Import Num.

(** A JavaScript value as the handlers meet it: what a JSON body
    holds, what the store's driver returns (which adds Dates), and
    what the handlers build. An object is the list of its own
    properties, in insertion order, each name once. *)
Inductive value : Type :=
| VUndefined
| VNull
| VBool (b : bool)
| VNum (x : float)
| VStr (s : string)
| VDate (t : float)
| VArr (elems : list value)
| VObj (props : list (string * value)).

(** What a [throw] carries: the runtime's own errors, and the
    rejection of a collaborator's call (store, HTTP client, token
    verifier). *)
Inductive exn : Type :=
| TypeError (msg : string)
| RangeError (msg : string)
| Rejected (msg : string).

Inductive outcome (A : Type) : Type :=
| Ok (a : A)
| Throw (e : exn).
Arguments Ok {A} a.
Arguments Throw {A} e.

Definition obind {A B} (o : outcome A) (k : A -> outcome B) : outcome B :=
  match o with
  | Ok a => k a
  | Throw e => Throw e
  end.

(** ToBoolean. *)
Definition toBoolean (v : value) : bool :=
  match v with
  | VUndefined | VNull => false
  | VBool b => b
  | VNum x => truthy x
  | VStr s => negb (String.eqb s "")
  | VDate _ | VArr _ | VObj _ => true
  end.

(** [a || b] and [!a], for a right operand that is a constant or a
    property read of an object already read, so that evaluating it
    early changes nothing. A right operand that is a parse is
    evaluated only when it is reached (see [first_parsed]). *)
Definition or_ (a b : value) : value := if toBoolean a then a else b.
Definition not_ (a : value) : bool := negb (toBoolean a).

Definition weekday_name (d : Z) : string :=
  nth (Z.to_nat ((d + 4) mod 7))
      ["Sun"; "Mon"; "Tue"; "Wed"; "Thu"; "Fri"; "Sat"] "".

Definition month_name (m : Z) : string :=
  nth (Z.to_nat (m - 1))
      ["Jan"; "Feb"; "Mar"; "Apr"; "May"; "Jun";
       "Jul"; "Aug"; "Sep"; "Oct"; "Nov"; "Dec"] "".

(** Date.prototype.toString, for a server whose zone is UTC. *)
Definition date_to_string (t : float) : string :=
  match time_value t with
  | None => "Invalid Date"
  | Some ms =>
      let days := (ms / 86400000)%Z in
      let r := (ms mod 86400000)%Z in
      let '(y, mo, d) := civil_from_days days in
      weekday_name days ++ " " ++ month_name mo ++ " " ++ pad 2 d ++ " "
        ++ (if (y <? 0)%Z then "-" ++ pad 6 (Z.abs y) else pad 4 y) ++ " "
        ++ pad 2 (r / 3600000) ++ ":" ++ pad 2 ((r / 60000) mod 60) ++ ":"
        ++ pad 2 ((r / 1000) mod 60)
        ++ " GMT+0000 (Coordinated Universal Time)"
  end.

Fixpoint lookup (ps : list (string * value)) (name : string) : value :=
  match ps with
  | [] => VUndefined
  | (k, v) :: r => if String.eqb k name then v else lookup r name
  end.

(** Whether an object has an own property [name]. *)
Fixpoint has_own (ps : list (string * value)) (name : string) : bool :=
  match ps with
  | [] => false
  | (k, _) :: r => String.eqb k name || has_own r name
  end.

Definition not_primitive : exn :=
  TypeError "Cannot convert object to primitive value".

(** ToString. An array is its elements joined by commas, [null] and
    [undefined] elements giving the empty text. An object gives
    [[object Object]] through [Object.prototype.toString], unless it
    has an own property [toString]: an own property of a value read
    from JSON or built by a handler is never a function, so neither it
    nor [valueOf] yields a primitive and the conversion throws. *)
Fixpoint to_string (v : value) : outcome string :=
  match v with
  | VUndefined => Ok "undefined"
  | VNull => Ok "null"
  | VBool b => Ok (if b then "true" else "false")
  | VNum x => Ok (number_to_string x)
  | VStr s => Ok s
  | VDate t => Ok (date_to_string t)
  | VArr l =>
      (fix join (l : list value) : outcome string :=
         match l with
         | [] => Ok ""
         | x :: r =>
             obind (match x with
                    | VUndefined | VNull => Ok ""
                    | _ => to_string x
                    end)
                   (fun xs =>
                      match r with
                      | [] => Ok xs
                      | _ :: _ => obind (join r) (fun rs => Ok (xs ++ "," ++ rs))
                      end)
         end) l
  | VObj ps =>
      if has_own ps "toString" then Throw not_primitive
      else Ok "[object Object]"
  end.

(** ToNumber. An object or an array is converted through its text
    ([valueOf] returns the object itself). *)
Definition toNumber (v : value) : outcome float :=
  match v with
  | VUndefined => Ok nan
  | VNull => Ok zero
  | VBool b => Ok (if b then one else zero)
  | VNum x => Ok x
  | VStr s => Ok (string_to_number s)
  | VDate t => Ok t
  | VArr _ | VObj _ => obind (to_string v) (fun s => Ok (string_to_number s))
  end.

(** The globals [parseFloat] and [parseInt] (no radix): the argument
    is converted to a String, then read. *)
Definition parseFloat (v : value) : outcome float :=
  obind (to_string v) (fun s => Ok (parseFloat_string s)).
Definition parseInt (v : value) : outcome float :=
  obind (to_string v) (fun s => Ok (parseInt_string s)).

(** The texts of a template's interpolated values, converted in
    order. *)
Fixpoint texts (vs : list value) : outcome (list string) :=
  match vs with
  | [] => Ok []
  | v :: r =>
      obind (to_string v)
            (fun t => obind (texts r) (fun ts => Ok (t :: ts)))
  end.

(** [a * b]: both operands are converted, the left one first. *)
Definition mul_ (a b : value) : outcome float :=
  obind (toNumber a) (fun x => obind (toNumber b) (fun y => Ok (mul x y))).

(** [v.name], for the property names the handlers read (none of them
    a property an Array, String, Number, Boolean or Date has).
    Reading a property of [null] or [undefined] throws. *)
Definition get (v : value) (name : string) : outcome value :=
  match v with
  | VUndefined => Throw (TypeError "Cannot read properties of undefined")
  | VNull => Throw (TypeError "Cannot read properties of null")
  | VObj ps => Ok (lookup ps name)
  | _ => Ok VUndefined
  end.

(** [v.toString()]: the method of the value's prototype; an own
    property [toString] of an object is not a function. *)
Definition toString_method (v : value) : outcome string :=
  match v with
  | VUndefined => Throw (TypeError "Cannot read properties of undefined")
  | VNull => Throw (TypeError "Cannot read properties of null")
  | VObj ps =>
      if has_own ps "toString"
      then Throw (TypeError "toString is not a function")
      else Ok "[object Object]"
  | _ => to_string v
  end.

(** [v.toISOString()]: only a Date has the method, and an invalid
    Date throws a RangeError. *)
Definition toISOString_method (v : value) : outcome string :=
  match v with
  | VUndefined => Throw (TypeError "Cannot read properties of undefined")
  | VNull => Throw (TypeError "Cannot read properties of null")
  | VDate t =>
      match time_value t with
      | Some ms => Ok (toISOString ms)
      | None => Throw (RangeError "Invalid time value")
      end
  | _ => Throw (TypeError "toISOString is not a function")
  end.

(** The code points of a String, each a String. *)
Definition chars (s : string) : list value := map VStr (code_points s).

(** The elements [for (const x of v)] visits: an Array's elements or a
    String's code points; anything else is not iterable. *)
Definition iterate (v : value) : outcome (list value) :=
  match v with
  | VArr l => Ok l
  | VStr s => Ok (chars s)
  | _ => Throw (TypeError "is not iterable")
  end.

(** The receiver of [v.forEach], [v.map] and [v.reduce]: only an
    Array has them. *)
Definition array_elems (v : value) (method : string) : outcome (list value) :=
  match v with
  | VArr l => Ok l
  | VUndefined => Throw (TypeError "Cannot read properties of undefined")
  | VNull => Throw (TypeError "Cannot read properties of null")
  | _ => Throw (TypeError (method ++ " is not a function"))
  end.

Definition isArray (v : value) : bool :=
  match v with VArr _ => true | _ => false end.

Definition is_undefined (v : value) : bool :=
  match v with VUndefined => true | _ => false end.

(** [list.includes(v)] for a list of String constants. *)
Definition includes (l : list string) (v : value) : bool :=
  match v with
  | VStr s => existsb (String.eqb s) l
  | _ => false
  end.

(** [v === 1]. *)
Definition strict_eq_one (v : value) : bool :=
  match v with
  | VNum x => PrimFloat.eqb x one
  | _ => false
  end.

(** [Object.keys(v).length] for a value that is neither [null] nor
    [undefined]. *)
Definition keys_length (v : value) : nat :=
  match v with
  | VObj ps => List.length ps
  | VArr l => List.length l
  | VStr s => utf16_length s
  | _ => O
  end.

(** [s.replace(',', '.')]: the first comma only. *)
Fixpoint replace_comma (s : string) : string :=
  match s with
  | EmptyString => EmptyString
  | String c r =>
      if Ascii.eqb c "," then String "." r else String c (replace_comma r)
  end.

End JS.

(* ================================================================== *)
(** * The process: configuration, collaborators, state and effects *)
(* ================================================================== *)

Module Proc.
Import Num JS.

(** The SQL statements the handlers send, by the place that sends
    them; an [UPDATE dishes] carries the columns of its [SET] list. *)
Inductive statement : Type :=
| InsertOrder
| InsertOrderItem
| SelectFullOrder
| UpdateOrderStatus
| SelectTelegramChatId
| SelectUserOrders
| UpdateDish (columns : list string)
| InsertDish.

Record db_call : Type := DbCall { stmt : statement; params : list value }.

Record http_call : Type :=
  HttpCall { url : string; payload : value; timeout : Z }.

(** What the process is started with and talks to. [pool_query] and
    [axios_post] answer a call from the calls made before it;
    [clock n] is the n-th reading of the system clock, in
    milliseconds since the epoch. *)
Record Env : Type := {
  env_JWT_SECRET : option string;
  env_ADMIN_API_KEY : option string;
  env_TELEGRAM_BOT_TOKEN : option string;
  env_TELEGRAM_CHAT_ID : option string;
  env_NODE_ENV : option string;
  jwt_verify : string -> string -> outcome value;
  pool_query : list db_call -> db_call -> outcome (list value);
  axios_post : list http_call -> http_call -> outcome value;
  clock : nat -> Z
}.

(** [process.env.X || default]. *)
Definition env_or (o : option string) (default : string) : string :=
  match o with
  | Some s => if String.eqb s "" then default else s
  | None => default
  end.

Definition env_value (o : option string) : value :=
  match o with
  | Some s => VStr s
  | None => VUndefined
  end.

Definition JWT_SECRET (env : Env) : string :=
  env_or (env_JWT_SECRET env) "dev-secret-change-in-production".
Definition ADMIN_API_KEY (env : Env) : string :=
  env_or (env_ADMIN_API_KEY env) "dev-admin-key".
Definition TELEGRAM_BOT_TOKEN (env : Env) : value :=
  env_value (env_TELEGRAM_BOT_TOKEN env).
Definition TELEGRAM_CHAT_ID (env : Env) : value :=
  env_value (env_TELEGRAM_CHAT_ID env).

(** The module-level variables [isDatabaseConnected] and [pool]
    (whether it holds a pool), and what the process has done so far:
    storage calls, outbound HTTP calls, the arguments
    [sendTelegramNotification] was invoked with, and how often the
    clock was read. Start-up and the liveness probe set the two
    variables; a handler only reads them, once, before its first
    storage call. Console output is not part of the state. *)
Record World : Type := {
  isDatabaseConnected : bool;
  pool : bool;
  db_log : list db_call;
  http_log : list http_call;
  notified : list value;
  ticks : nat
}.

Definition M (A : Type) : Type := World -> outcome A * World.

Definition ret {A} (a : A) : M A := fun w => (Ok a, w).

Definition bind {A B} (m : M A) (k : A -> M B) : M B :=
  fun w => match m w with
           | (Ok a, w') => k a w'
           | (Throw e, w') => (Throw e, w')
           end.

(** [try { m } catch (e) { h e }]. *)
Definition try_catch {A} (m : M A) (h : exn -> M A) : M A :=
  fun w => match m w with
           | (Ok a, w') => (Ok a, w')
           | (Throw e, w') => h e w'
           end.

Definition lift {A} (o : outcome A) : M A := fun w => (o, w).

Definition read {A} (f : World -> A) : M A := fun w => (Ok (f w), w).

Declare Scope proc_scope.
Delimit Scope proc_scope with proc.
Notation "x <- m ;; k" := (bind m (fun x => k))
  (at level 61, m at next level, right associativity) : proc_scope.
Notation "m ;;; k" := (bind m (fun _ => k))
  (at level 61, right associativity) : proc_scope.
Local Open Scope proc_scope.

(** [await pool.query(text, params)]: the call is issued, and
    recorded, whether the store answers or rejects it. With no pool
    the property read itself throws. *)
Definition query (env : Env) (s : statement) (ps : list value)
  : M (list value) :=
  fun w =>
    if pool w then
      (pool_query env (db_log w) (DbCall s ps),
       {| isDatabaseConnected := isDatabaseConnected w;
          pool := pool w;
          db_log := db_log w ++ [DbCall s ps];
          http_log := http_log w;
          notified := notified w;
          ticks := ticks w |})
    else (Throw (TypeError "Cannot read properties of undefined (reading 'query')"), w).

(** [await axios.post(url, data, { timeout })]. *)
Definition post (env : Env) (u : string) (data : value) (t : Z) : M value :=
  fun w =>
    (axios_post env (http_log w) (HttpCall u data t),
     {| isDatabaseConnected := isDatabaseConnected w;
        pool := pool w;
        db_log := db_log w;
        http_log := http_log w ++ [HttpCall u data t];
        notified := notified w;
        ticks := ticks w |}).

(** [Date.now()] / [new Date()]: one reading of the clock. *)
Definition now (env : Env) : M Z :=
  fun w =>
    (Ok (clock env (ticks w)),
     {| isDatabaseConnected := isDatabaseConnected w;
        pool := pool w;
        db_log := db_log w;
        http_log := http_log w;
        notified := notified w;
        ticks := S (ticks w) |}).

(** [log(`...${a}...${b}...`)] for the interpolated values [a], [b],
    ...: they are converted to text, in order, before [log] is
    called, and a conversion can throw. The line and its time stamp
    are console output, which is not part of the state. Lines that
    interpolate only texts, numbers read from the clock, the message
    of a caught error or the caller's id are left out: they convert
    (the caller's id is the [id] of a payload this server signed, a
    Number). *)
Definition log (parts : list value) : M unit :=
  fun w => (obind (texts parts) (fun _ => Ok tt), w).

(** Entering [sendTelegramNotification] with [orderDetails]. *)
Definition enter_notification (orderDetails : value) : M unit :=
  fun w =>
    (Ok tt,
     {| isDatabaseConnected := isDatabaseConnected w;
        pool := pool w;
        db_log := db_log w;
        http_log := http_log w;
        notified := notified w ++ [orderDetails];
        ticks := ticks w |}).

(** The same process with another store or another HTTP client. *)
Definition with_store (e : Env)
  (q : list db_call -> db_call -> outcome (list value)) : Env :=
{| env_JWT_SECRET := env_JWT_SECRET e;
   env_ADMIN_API_KEY := env_ADMIN_API_KEY e;
   env_TELEGRAM_BOT_TOKEN := env_TELEGRAM_BOT_TOKEN e;
   env_TELEGRAM_CHAT_ID := env_TELEGRAM_CHAT_ID e;
   env_NODE_ENV := env_NODE_ENV e;
   jwt_verify := jwt_verify e;
   pool_query := q;
   axios_post := axios_post e;
   clock := clock e |}.

Definition with_axios (e : Env)
  (a : list http_call -> http_call -> outcome value) : Env :=
{| env_JWT_SECRET := env_JWT_SECRET e;
   env_ADMIN_API_KEY := env_ADMIN_API_KEY e;
   env_TELEGRAM_BOT_TOKEN := env_TELEGRAM_BOT_TOKEN e;
   env_TELEGRAM_CHAT_ID := env_TELEGRAM_CHAT_ID e;
   env_NODE_ENV := env_NODE_ENV e;
   jwt_verify := jwt_verify e;
   pool_query := pool_query e;
   axios_post := a;
   clock := clock e |}.

(** The same process with another clock. *)
Definition with_clock (e : Env) (c : nat -> Z) : Env :=
{| env_JWT_SECRET := env_JWT_SECRET e;
   env_ADMIN_API_KEY := env_ADMIN_API_KEY e;
   env_TELEGRAM_BOT_TOKEN := env_TELEGRAM_BOT_TOKEN e;
   env_TELEGRAM_CHAT_ID := env_TELEGRAM_CHAT_ID e;
   env_NODE_ENV := env_NODE_ENV e;
   jwt_verify := jwt_verify e;
   pool_query := pool_query e;
   axios_post := axios_post e;
   clock := c |}.

(** An integer as a Number. *)
Definition number_of_Z (z : Z) : float :=
  dec2float (z <? 0)%Z (Z.abs z) 0.

(** ** Requests and responses *)

Record Request : Type := {
  headers : list (string * string);
  param_id : string;
  body : value
}.

(** [req.headers[name]], names in lower case as Node gives them. *)
Fixpoint header (hs : list (string * string)) (name : string)
  : option string :=
  match hs with
  | [] => None
  | (k, v) :: r => if String.eqb k name then Some v else header r name
  end.

Record Response : Type := { status : Z; json : value }.

(** [res.status(code).json(body)] and [res.json(body)]. *)
Definition respond (code : Z) (b : value) : Response :=
  {| status := code; json := b |}.

Definition failure (code : Z) (msg : string) : Response :=
  respond code (VObj [("success", VBool false); ("error", VStr msg)]).

End Proc.

(* ================================================================== *)
(** * The handlers of [server.js] *)
(* ================================================================== *)

Module Server.
Import Num JS Proc.
Local Open Scope proc_scope.

Notation "x <~ o ;; k" := (obind o (fun x => k))
  (at level 61, o at next level, right associativity) : proc_scope.

Fixpoint map_o {A B} (f : A -> outcome B) (l : list A) : outcome (list B) :=
  match l with
  | [] => Ok []
  | x :: r => y <~ f x ;; ys <~ map_o f r ;; Ok (y :: ys)
  end.

Fixpoint fold_o {A B} (f : B -> A -> outcome B) (l : list A) (b : B)
  : outcome B :=
  match l with
  | [] => Ok b
  | x :: r => b' <~ f b x ;; fold_o f r b'
  end.

Fixpoint for_each {A} (f : A -> M unit) (l : list A) : M unit :=
  match l with
  | [] => ret tt
  | x :: r => f x ;;; for_each f r
  end.

(** [s.split(' ')]. *)
Fixpoint split_space_aux (s cur : string) : list string :=
  match s with
  | EmptyString => [cur]
  | String c r =>
      if Ascii.eqb c " " then cur :: split_space_aux r EmptyString
      else split_space_aux r (cur ++ String c EmptyString)
  end.
Definition split_space (s : string) : list string :=
  split_space_aux s EmptyString.

(** ** [getUserIdFromToken] (lines 380-400) *)
Definition getUserIdFromToken (env : Env) (req : Request) : value :=
  match header (headers req) "authorization" with
  | None => VNull
  | Some authHeader =>
      if String.eqb authHeader "" || negb (String.prefix "Bearer " authHeader)
      then VNull
      else
        let token := nth 1 (split_space authHeader) "" in
        if String.eqb token "" then VNull
        else match jwt_verify env token (JWT_SECRET env) with
             | Ok decoded =>
                 match get decoded "id" with
                 | Ok id => id
                 | Throw _ => VNull
                 end
             | Throw _ => VNull
             end
  end.

(** ** [validateAdminApiKey] (lines 402-405) *)
Definition validateAdminApiKey (env : Env) (req : Request) : bool :=
  match header (headers req) "x-admin-api-key" with
  | Some apiKey => String.eqb apiKey (ADMIN_API_KEY env)
  | None => false
  end.

(** ** [sendTelegramNotification] (lines 33-93) *)

(** [parseFloat(a) || parseFloat(b) || ... || 0]: an operand is
    parsed only when every operand before it gave [NaN] or zero. *)
Fixpoint first_parsed (vs : list value) : outcome float :=
  match vs with
  | [] => Ok zero
  | v :: r => x <~ parseFloat v ;; if truthy x then Ok x else first_parsed r
  end.

(** [parseInt(v) || 1]. *)
Definition parsed_or_one (v : value) : outcome float :=
  q <~ parseInt v ;; Ok (if truthy q then q else one).

(** [parseFloat(item.dish_price) || parseFloat(item.price) || 0]. *)
Definition price_of_two (item : value) : outcome float :=
  dish_price <~ get item "dish_price" ;;
  price <~ get item "price" ;;
  first_parsed [dish_price; price].

(** [parseInt(item.quantity) || 1]. *)
Definition quantity_of (item : value) : outcome float :=
  quantity <~ get item "quantity" ;;
  parsed_or_one quantity.

(** One turn of a [forEach] that adds [price * quantity] to the total
    and [quantity] to the item count. *)
Definition count_line (acc : float * float) (item : value)
  : outcome (float * float) :=
  price <~ price_of_two item ;;
  quantity <~ quantity_of item ;;
  Ok (add (fst acc) (mul price quantity), add (snd acc) quantity).

(** [`${v.name}`]: the field is read and converted to text; the value
    is what is kept. *)
Definition interpolate (v : value) (name : string) : outcome value :=
  x <~ get v name ;;
  _ <~ to_string x ;;
  Ok x.

(** One line of the message: [name x quantity - itemTotal]. *)
Definition message_line (item : value) : outcome value :=
  price <~ price_of_two item ;;
  quantity <~ quantity_of item ;;
  dishName <~ interpolate item "dishName" ;;
  Ok (VObj [("dishName", dishName); ("quantity", VNum quantity);
            ("itemTotal", VNum (mul price quantity))]).

(** The bot token in the URL is interpolated only where it is
    truthy, a text. *)
Definition telegram_url (env : Env) : string :=
  "https://api.telegram.org/bot"
    ++ match env_TELEGRAM_BOT_TOKEN env with
       | Some token => token
       | None => "undefined"
       end
    ++ "/sendMessage".

(** The text of the message is kept as the values its template
    interpolates, in the template's order, not as the rendered text;
    each value is converted to text where the template converts it,
    and the clock is read where the template reads it. *)
Definition sendTelegramNotification (env : Env) (orderDetails : value)
  : M value :=
  enter_notification orderDetails ;;;
  try_catch
    (if not_ (TELEGRAM_BOT_TOKEN env) then ret VNull
     else
       items <- lift (get orderDetails "items") ;;
       totals <- lift (if toBoolean items && isArray items
                       then l <~ array_elems items "forEach" ;;
                            fold_o count_line l (zero, zero)
                       else Ok (zero, zero)) ;;
       totalAmount <- lift (get orderDetails "totalAmount") ;;
       itemCount <- lift (get orderDetails "itemCount") ;;
       let finalTotalAmount := or_ totalAmount (VNum (fst totals)) in
       let finalItemCount := or_ itemCount (VNum (snd totals)) in
       id <- lift (interpolate orderDetails "id") ;;
       customerName <- lift (interpolate orderDetails "customerName") ;;
       customerPhone <- lift (interpolate orderDetails "customerPhone") ;;
       deliveryAddress <- lift (interpolate orderDetails "deliveryAddress") ;;
       restaurantName <- lift (interpolate orderDetails "restaurantName") ;;
       lift (texts [finalTotalAmount; finalItemCount]) ;;;
       time <- now env ;;
       lines <- lift (l <~ array_elems items "map" ;; map_o message_line l) ;;
       let message :=
         VObj [("id", id); ("customerName", customerName);
               ("customerPhone", customerPhone);
               ("deliveryAddress", deliveryAddress);
               ("restaurantName", restaurantName);
               ("finalTotalAmount", finalTotalAmount);
               ("finalItemCount", finalItemCount);
               ("time", VDate (number_of_Z time));
               ("lines", VArr lines)] in
       response <- post env (telegram_url env)
                     (VObj [("chat_id", TELEGRAM_CHAT_ID env);
                            ("text", message);
                            ("parse_mode", VStr "HTML")])
                     10000 ;;
       lift (get response "data"))
    (fun _ => ret VNull).

(** ** [POST /orders] (lines 1363-1611) *)

Record order_item : Type := {
  oi_dish_id : value;
  oi_dish_name : value;
  oi_dish_price : value;
  oi_quantity : value;
  oi_dish_image : value
}.

(** The body of the pricing loop (lines 1403-1430) for one item: the
    item's total and the line to persist. *)
Definition price_line (item : value) : outcome (float * order_item) :=
  dish_name <~ get item "dish_name" ;;
  price_f <~ get item "price" ;;
  dish_price <~ get item "dish_price" ;;
  quantity_f <~ get item "quantity" ;;
  dishPrice <~ get item "dishPrice" ;;
  price <~ first_parsed [dish_price; price_f; dishPrice] ;;
  quantity <~ parsed_or_one quantity_f ;;
  let itemTotal := mul price quantity in
  dish_id <~ get item "dish_id" ;;
  name <~ get item "name" ;;
  dish_image <~ get item "dish_image" ;;
  imageUrl <~ get item "imageUrl" ;;
  Ok (itemTotal,
      {| oi_dish_id := dish_id;
         oi_dish_name := or_ (or_ dish_name name) (VStr "Блюдо");
         oi_dish_price := VNum price;
         oi_quantity := VNum quantity;
         oi_dish_image := or_ (or_ dish_image imageUrl) (VStr "") |}).

Definition pricing_step (acc : float * list order_item) (item : value)
  : outcome (float * list order_item) :=
  line <~ price_line item ;;
  Ok (add (fst acc) (fst line), (snd acc ++ [snd line])%list).

(** The pricing loop: [totalAmount] and [orderItems] after
    [for (const item of items)]. *)
Definition pricing_loop (items : value)
  : outcome (float * list order_item) :=
  l <~ iterate items ;;
  fold_o pricing_step l (zero, []).

(** The fields of the body the handler destructures. *)
Record order_fields : Type := {
  restaurant_id : value;
  items : value;
  delivery_address : value;
  payment_method : value;
  restaurant_name : value;
  restaurant_image : value;
  customer_name : value;
  customer_phone : value
}.

Definition destructure (b : value) : outcome order_fields :=
  restaurant_id <~ get b "restaurant_id" ;;
  items <~ get b "items" ;;
  delivery_address <~ get b "delivery_address" ;;
  payment_method <~ get b "payment_method" ;;
  restaurant_name <~ get b "restaurant_name" ;;
  restaurant_image <~ get b "restaurant_image" ;;
  customer_name <~ get b "customer_name" ;;
  customer_phone <~ get b "customer_phone" ;;
  Ok {| restaurant_id := restaurant_id; items := items;
        delivery_address := delivery_address;
        payment_method := payment_method;
        restaurant_name := restaurant_name;
        restaurant_image := restaurant_image;
        customer_name := customer_name;
        customer_phone := customer_phone |}.

(** The parameters of [INSERT INTO orders] (lines 1440-1451). *)
Definition insert_order_params (userId : value) (f : order_fields)
           (totalAmount : float) : list value :=
  [userId; restaurant_id f;
   or_ (restaurant_name f) (VStr "Ресторан");
   or_ (restaurant_image f) (VStr "");
   VNum totalAmount; VStr "pending"; delivery_address f;
   or_ (payment_method f) (VStr "Картой онлайн");
   or_ (customer_name f) (VStr "Клиент");
   or_ (customer_phone f) (VStr "Не указан")].

Definition insert_item (env : Env) (order : value) (item : order_item)
  : M unit :=
  order_id <- lift (get order "id") ;;
  query env InsertOrderItem
        [order_id; oi_dish_id item; oi_dish_name item; oi_dish_price item;
         oi_quantity item; oi_dish_image item] ;;;
  ret tt.

(** The items handed to the dispatcher on the persist path (lines
    1518-1523). *)
Definition notification_item (item : value) : outcome value :=
  dish_name <~ get item "dish_name" ;;
  name <~ get item "name" ;;
  quantity <~ get item "quantity" ;;
  dish_price <~ price_of_two item ;;
  price <~ price_of_two item ;;
  Ok (VObj [("dishName", or_ (or_ dish_name name) (VStr "Блюдо"));
            ("quantity", or_ quantity (VNum one));
            ("dish_price", VNum dish_price);
            ("price", VNum price)]).

(** [notificationTotal] and [notificationItemCount] (lines
    1500-1508). *)
Definition notification_totals (items : value) : outcome (float * float) :=
  l <~ array_elems items "forEach" ;;
  fold_o count_line l (zero, zero).

(** The notification block of the persist path (lines 1497-1530). *)
Definition notify_persisted (env : Env) (f : order_fields) (fullOrder : value)
  : M unit :=
  try_catch
    (totals <- lift (notification_totals (items f)) ;;
     id <- lift (get fullOrder "id") ;;
     its <- lift (l <~ array_elems (items f) "map" ;;
                  map_o notification_item l) ;;
     sendTelegramNotification env
       (VObj [("id", id);
              ("customerName", or_ (customer_name f) (VStr "Клиент"));
              ("customerPhone", or_ (customer_phone f) (VStr "Не указан"));
              ("deliveryAddress", delivery_address f);
              ("restaurantName", or_ (restaurant_name f) (VStr "Ресторан"));
              ("totalAmount", VNum (fst totals));
              ("itemCount", VNum (snd totals));
              ("items", VArr its)]) ;;;
     ret tt)
    (fun _ => ret tt).

(** The success body of the persist path (lines 1532-1546). *)
Definition persisted_response (fullOrder : value) : outcome Response :=
  id <~ get fullOrder "id" ;;
  id_text <~ toString_method id ;;
  r_name <~ get fullOrder "restaurant_name" ;;
  r_image <~ get fullOrder "restaurant_image" ;;
  order_date <~ get fullOrder "order_date" ;;
  date_text <~ toISOString_method order_date ;;
  total_amount <~ get fullOrder "total_amount" ;;
  st <~ get fullOrder "status" ;;
  address <~ get fullOrder "delivery_address" ;;
  payment <~ get fullOrder "payment_method" ;;
  total <~ parseFloat total_amount ;;
  its <~ get fullOrder "items" ;;
  Ok (respond 200
        (VObj [("success", VBool true);
               ("message", VStr "Заказ успешно создан");
               ("order",
                VObj [("id", VStr id_text);
                      ("restaurant_name", r_name);
                      ("restaurant_image", r_image);
                      ("order_date", VStr date_text);
                      ("total_amount", VNum total);
                      ("status", st);
                      ("delivery_address", address);
                      ("payment_method", payment);
                      ("items", or_ its (VArr []))])])).

(** The storage calls of the persist path (lines 1398-1495): the
    header, then each line, then the composite read; the result is
    [fullOrder]. *)
Definition persist_order (env : Env) (userId : value) (f : order_fields)
  : M value :=
priced <- lift (pricing_loop (items f)) ;;
orderResult <- query env InsertOrder
                 (insert_order_params userId f (fst priced)) ;;
let order := nth 0 orderResult VUndefined in
for_each (insert_item env order) (snd priced) ;;;
order_id <- lift (get order "id") ;;
fullOrderResult <- query env SelectFullOrder [order_id] ;;
ret (nth 0 fullOrderResult VUndefined).

(** The branch taken when [isDatabaseConnected && pool] (lines
    1396-1554): one [try] around pricing, storage, notification and
    response. *)
Definition create_order_persist (env : Env) (userId : value)
         (f : order_fields) : M Response :=
try_catch
  (fullOrder <- persist_order env userId f ;;
   notify_persisted env f fullOrder ;;;
   lift (persisted_response fullOrder))
  (fun _ => ret (failure 500 "Ошибка сервера при создании заказа")).

(** [(parseFloat(item.dish_price) || parseFloat(item.price) || 0) *
    (item.quantity || 1)] (lines 1562 and 1588). *)
Definition mock_line_total (item : value) : outcome float :=
  price <~ price_of_two item ;;
  quantity <~ get item "quantity" ;;
  mul_ (VNum price) (or_ quantity (VNum one)).

(** An item of the synthetic order (lines 1566-1572). *)
Definition mock_item (item : value) : outcome value :=
  dish_id <~ get item "dish_id" ;;
  dish_name <~ get item "dish_name" ;;
  name <~ get item "name" ;;
  price <~ price_of_two item ;;
  quantity <~ get item "quantity" ;;
  dish_image <~ get item "dish_image" ;;
  imageUrl <~ get item "imageUrl" ;;
  Ok (VObj [("dish_id", dish_id);
            ("dish_name", or_ (or_ dish_name name) (VStr "Блюдо"));
            ("dish_price", VNum price);
            ("quantity", or_ quantity (VNum one));
            ("dish_image", or_ dish_image imageUrl)]).

(** An item handed to the dispatcher in mock mode (lines 1585-1589). *)
Definition mock_notification_item (item : value) : outcome value :=
  dish_name <~ get item "dish_name" ;;
  name <~ get item "name" ;;
  quantity <~ get item "quantity" ;;
  total <~ mock_line_total item ;;
  Ok (VObj [("dishName", or_ (or_ dish_name name) (VStr "Блюдо"));
            ("quantity", or_ quantity (VNum one));
            ("totalPrice", VNum total)]).

Definition mock_image : string :=
  "https://images.unsplash.com/photo-1517248135467-4c7edcad34c4?w=400".

(** The synthetic order (lines 1557-1573), from two readings of the
    clock. *)
Definition mock_order (f : order_fields) (l : list value)
           (t_id t_date : Z) : outcome value :=
  total <~ fold_o (fun sum item => t <~ mock_line_total item ;; Ok (add sum t))
                  l zero ;;
  its <~ map_o mock_item l ;;
  Ok (VObj [("id", VStr (number_to_string (number_of_Z t_id)));
            ("restaurant_name", or_ (restaurant_name f) (VStr "Наетый кабан"));
            ("restaurant_image", or_ (restaurant_image f) (VStr mock_image));
            ("order_date", VStr (toISOString t_date));
            ("total_amount", VNum total);
            ("status", VStr "pending");
            ("delivery_address", delivery_address f);
            ("payment_method", or_ (payment_method f) (VStr "Картой онлайн"));
            ("items", VArr its)]).

(** The notification block of mock mode (lines 1575-1595). *)
Definition notify_mock (env : Env) (f : order_fields) (mockOrder : value)
  : M unit :=
  try_catch
    (id <- lift (get mockOrder "id") ;;
     total_amount <- lift (get mockOrder "total_amount") ;;
     l <- lift (array_elems (items f) "map") ;;
     its <- lift (map_o mock_notification_item l) ;;
     sendTelegramNotification env
       (VObj [("id", id);
              ("customerName", or_ (customer_name f) (VStr "Клиент"));
              ("customerPhone", or_ (customer_phone f) (VStr "Не указан"));
              ("deliveryAddress", delivery_address f);
              ("restaurantName", or_ (restaurant_name f) (VStr "Наетый кабан"));
              ("totalAmount", total_amount);
              ("itemCount", VNum (number_of_Z (Z.of_nat (List.length l))));
              ("items", VArr its)]) ;;;
     ret tt)
    (fun _ => ret tt).

(** Mock mode (lines 1556-1602). *)
Definition create_order_mock (env : Env) (f : order_fields) : M Response :=
  t_id <- now env ;;
  t_date <- now env ;;
  l <- lift (array_elems (items f) "reduce") ;;
  mockOrder <- lift (mock_order f l t_id t_date) ;;
  notify_mock env f mockOrder ;;;
  ret (respond 200
         (VObj [("success", VBool true);
                ("message", VStr "Заказ создан (тестовый режим)");
                ("order", mockOrder)])).

Definition create_order (env : Env) (req : Request) : M Response :=
  try_catch
    (let userId := getUserIdFromToken env req in
     if not_ userId then ret (failure 401 "Требуется авторизация")
     else
       f <- lift (destructure (body req)) ;;
       if not_ (restaurant_id f) || not_ (items f) || not_ (delivery_address f)
       then ret (failure 400
                   "Заполните обязательные поля: restaurant_id, items, delivery_address")
       else
         connected <- read isDatabaseConnected ;;
         has_pool <- read pool ;;
         if connected && has_pool
         then create_order_persist env userId f
         else create_order_mock env f)
    (fun _ => ret (failure 500 "Ошибка сервера")).

(** ** [PUT /bot/orders/:id/status] (lines 1034-1152) *)

Definition validStatuses : list string :=
  ["pending"; "preparing"; "delivering"; "delivered"; "cancelled"].

Definition invalid_status : Response :=
  failure 400 ("Неверный статус. Допустимые значения: "
                 ++ String.concat ", " validStatuses).

Definition quote : string := String (ascii_of_nat 34) EmptyString.

(** The template [Статус заказа обновлен на "${status}"]. *)
Definition status_message (st : string) : string :=
  "Статус заказа обновлен на " ++ quote ++ st ++ quote.

(** [{ pending: ..., ... }[status] || 'обновлен']. *)
Definition statusText (st : string) : string :=
  if String.eqb st "pending" then "принят в обработку"
  else if String.eqb st "preparing" then "начали готовить"
  else if String.eqb st "delivering" then "отправлен курьером"
  else if String.eqb st "delivered" then "доставлен"
  else if String.eqb st "cancelled" then "отменен"
  else "обновлен".

(** The message to the order's owner (lines 1076-1112); its text is
    kept as the values the template interpolates, each converted
    where the template converts it. The status is converted where it
    is used as a property key. *)
Definition notify_owner (env : Env) (order : value) (st : value) : M unit :=
  user_id <- lift (get order "user_id") ;;
  if toBoolean user_id then
    try_catch
      (userResult <- query env SelectTelegramChatId [user_id] ;;
       match userResult with
       | [] => ret tt
       | row :: _ =>
           chatId <- lift (get row "telegram_chat_id") ;;
           if toBoolean chatId then
             key <- lift (to_string st) ;;
             order_id <- lift (interpolate order "id") ;;
             time <- now env ;;
             post env (telegram_url env)
                  (VObj [("chat_id", chatId);
                         ("text",
                          VObj [("id", order_id);
                                ("statusText", VStr (statusText key));
                                ("time", VDate (number_of_Z time))])])
                  5000 ;;;
             log [chatId]
           else ret tt
       end)
      (fun _ => ret tt)
  else ret tt.

(** [order.updated_at || new Date().toISOString()]: the clock is read
    only when the left operand is falsy. *)
Definition updated_at_or_now (env : Env) (updated_at : value) : M value :=
  if toBoolean updated_at then ret updated_at
  else t <- now env ;; ret (VStr (toISOString t)).

Definition bot_update_status (env : Env) (req : Request) : M Response :=
  try_catch
    (match header (headers req) "x-admin-api-key" with
     | None => ret (failure 401 "Неверный API ключ")
     | Some apiKey =>
         if String.eqb apiKey "" || negb (String.eqb apiKey (ADMIN_API_KEY env))
         then ret (failure 401 "Неверный API ключ")
         else
           let orderId := param_id req in
           st <- lift (get (body req) "status") ;;
           log [VStr orderId; st] ;;;
           if negb (includes validStatuses st) then ret invalid_status
           else
             connected <- read isDatabaseConnected ;;
             has_pool <- read pool ;;
             if connected && has_pool then
               try_catch
                 (result <- query env UpdateOrderStatus [st; VStr orderId] ;;
                  match result with
                  | [] => ret (failure 404 "Заказ не найден")
                  | order :: _ =>
                      notify_owner env order st ;;;
                      text <- lift (to_string st) ;;
                      id <- lift (get order "id") ;;
                      order_status <- lift (get order "status") ;;
                      updated_at <- lift (get order "updated_at") ;;
                      stamp <- updated_at_or_now env updated_at ;;
                      ret (respond 200
                             (VObj [("success", VBool true);
                                    ("message",
                                     VStr (status_message text));
                                    ("order",
                                     VObj [("id", id);
                                           ("status", order_status);
                                           ("updated_at", stamp)])]))
                  end)
                 (fun _ => ret (failure 500 "Ошибка базы данных"))
             else
               text <- lift (to_string st) ;;
               t <- now env ;;
               ret (respond 200
                      (VObj [("success", VBool true);
                             ("message",
                              VStr (status_message text
                                      ++ " (тестовый режим)"));
                             ("order",
                              VObj [("id", VStr orderId);
                                    ("status", st);
                                    ("updated_at", VStr (toISOString t));
                                    ("mode", VStr "mock")])]))
     end)
    (fun _ => ret (failure 500 "Ошибка сервера")).

(** ** [PUT /admin/orders/:id/status] (lines 2162-2208) *)
Definition admin_update_status (env : Env) (req : Request) : M Response :=
  try_catch
    (if negb (validateAdminApiKey env req)
     then ret (failure 401 "Неверный API ключ")
     else
       let orderId := param_id req in
       st <- lift (get (body req) "status") ;;
       if negb (includes validStatuses st) then ret invalid_status
       else
         result <- query env UpdateOrderStatus [st; VStr orderId] ;;
         match result with
         | [] => ret (failure 404 "Заказ не найден")
         | order :: _ =>
             text <- lift (to_string st) ;;
             ret (respond 200
                    (VObj [("success", VBool true);
                           ("message", VStr (status_message text));
                           ("order", order)]))
         end)
    (fun _ => ret (failure 500 "Ошибка сервера")).

(** ** [PUT /admin/dishes/:id] (lines 1614-1737) *)

(** The price as both dish endpoints parse it (lines 1663-1665 and
    2105-2107). *)
Definition parse_price (v : value) : outcome float :=
match v with
| VStr s => Ok (parseFloat_string (replace_comma s))
| _ => parseFloat v
end.

Definition bad_price (p : float) : bool := is_nan p || PrimFloat.leb p zero.

(** One [if (updates.x !== undefined) { push; push }] block: the
    column and its value are appended when the field is there. The
    price and the preparation time are parsed inside their blocks;
    parsing [undefined] gives [NaN] and cannot throw, so the handler
    below parses them whether the field is there or not. *)
Definition set_column (v : value) (column : string) (stored : value)
         (acc : list string * list value) : list string * list value :=
if is_undefined v then acc
else ((fst acc ++ [column])%list, (snd acc ++ [stored])%list).

Definition update_dish (env : Env) (req : Request) : M Response :=
try_catch
  (if negb (validateAdminApiKey env req)
   then ret (failure 401 "Неверный API ключ")
   else
     let dishId := param_id req in
     let updates := body req in
     if not_ updates || (keys_length updates =? 0)%nat
     then ret (failure 400 "Нет данных для обновления")
     else
       connected <- read isDatabaseConnected ;;
       has_pool <- read pool ;;
       if negb connected || negb has_pool
       then ret (failure 503 "База данных недоступна")
       else
         name <- lift (get updates "name") ;;
         description <- lift (get updates "description") ;;
         image_url <- lift (get updates "image_url") ;;
         price <- lift (get updates "price") ;;
         let acc := set_column name "name" name ([], []) in
         let acc := set_column description "description" description acc in
         let acc := set_column image_url "image_url" image_url acc in
         parsedPrice <- lift (parse_price price) ;;
         if negb (is_undefined price) && bad_price parsedPrice
         then ret (failure 400 "Цена должна быть положительным числом")
         else
           let acc := set_column price "price" (VNum parsedPrice) acc in
           preparation_time <- lift (get updates "preparation_time") ;;
           minutes <- lift (parseInt preparation_time) ;;
           is_spicy <- lift (get updates "is_spicy") ;;
           is_vegetarian <- lift (get updates "is_vegetarian") ;;
           is_available <- lift (get updates "is_available") ;;
           let acc := set_column preparation_time "preparation_time"
                        (or_ (VNum minutes) (VNum (number_of_Z 30))) acc in
           let acc := set_column is_spicy "is_spicy"
                        (VBool (toBoolean is_spicy)) acc in
           let acc := set_column is_vegetarian "is_vegetarian"
                        (VBool (toBoolean is_vegetarian)) acc in
           let acc := set_column is_available "is_available"
                        (VBool (toBoolean is_available)) acc in
           match fst acc with
           | [] => ret (failure 400 "Нет валидных полей для обновления")
           | _ :: _ =>
               result <- query env (UpdateDish (fst acc))
                           (snd acc ++ [VStr dishId])%list ;;
               match result with
               | [] => ret (failure 404 "Блюдо не найдено")
               | dish :: _ =>
                   ret (respond 200
                          (VObj [("success", VBool true);
                                 ("message", VStr "Блюдо успешно обновлено");
                                 ("dish", dish)]))
               end
           end)
  (fun _ => ret (failure 500 "Ошибка сервера при обновлении блюда")).

(** ** [POST /admin/dishes] (lines 2067-2159) *)

Definition exn_message (e : exn) : string :=
match e with
| TypeError m | RangeError m | Rejected m => m
end.

Definition create_dish (env : Env) (req : Request) : M Response :=
try_catch
  (if negb (validateAdminApiKey env req)
   then ret (failure 401 "Неверный API ключ")
   else
     let b := body req in
     restaurant_id <- lift (get b "restaurant_id") ;;
     name <- lift (get b "name") ;;
     description <- lift (get b "description") ;;
     image_url <- lift (get b "image_url") ;;
     priceFromBody <- lift (get b "price") ;;
     ingredients <- lift (get b "ingredients") ;;
     preparation_time <- lift (get b "preparation_time") ;;
     is_vegetarian <- lift (get b "is_vegetarian") ;;
     is_spicy <- lift (get b "is_spicy") ;;
     if not_ restaurant_id || not_ name || not_ priceFromBody
     then ret (failure 400
                 "Заполните обязательные поля: restaurant_id, name, price")
     else
       connected <- read isDatabaseConnected ;;
       has_pool <- read pool ;;
       if negb connected || negb has_pool
       then ret (respond 503
                   (VObj [("success", VBool false);
                          ("error", VStr "База данных недоступна");
                          ("mode", VStr "mock")]))
       else
         parsedPrice <- lift (parse_price priceFromBody) ;;
         if bad_price parsedPrice
         then ret (failure 400 "Цена должна быть положительным числом")
         else
           result <- query env InsertDish
                       [restaurant_id; name;
                        or_ description (VStr "");
                        or_ image_url (VStr "");
                        VNum parsedPrice;
                        (if isArray ingredients then ingredients
                         else if toBoolean ingredients then VArr [ingredients]
                              else VArr []);
                        or_ preparation_time (VNum (number_of_Z 30));
                        VBool (toBoolean is_vegetarian);
                        VBool (toBoolean is_spicy);
                        VBool true] ;;
           ret (respond 200
                  (VObj [("success", VBool true);
                         ("message", VStr "Блюдо успешно создано");
                         ("dish", nth 0 result VUndefined)])))
  (fun e =>
     ret (respond 500
            (VObj [("success", VBool false);
                   ("error", VStr "Ошибка сервера");
                   ("details",
                    match env_NODE_ENV env with
                    | Some mode => if String.eqb mode "development"
                                   then VStr (exn_message e) else VUndefined
                    | None => VUndefined
                    end)]))).

(** ** [GET /users/me/orders] (lines 804-910) *)

(** One row of the history as the response shows it (lines
    843-853). *)
Definition history_order (order : value) : outcome value :=
id <~ get order "id" ;;
id_text <~ toString_method id ;;
r_name <~ get order "restaurant_name" ;;
r_image <~ get order "restaurant_image" ;;
order_date <~ get order "order_date" ;;
date_text <~ toISOString_method order_date ;;
total_amount <~ get order "total_amount" ;;
st <~ get order "status" ;;
address <~ get order "delivery_address" ;;
payment <~ get order "payment_method" ;;
total <~ parseFloat total_amount ;;
its <~ get order "items" ;;
Ok (VObj [("id", VStr id_text);
          ("restaurant_name", or_ r_name (VStr "Ресторан"));
          ("restaurant_image", or_ r_image (VStr mock_image));
          ("order_date", VStr date_text);
          ("total_amount", VNum total);
          ("status", or_ st (VStr "pending"));
          ("delivery_address", or_ address (VStr "Адрес не указан"));
          ("payment_method", or_ payment (VStr "Не указан"));
          ("items", or_ its (VArr []))]).

(** The fixed history shown to user 1 in mock mode (lines 866-895). *)
Definition mockOrders (t : Z) : value :=
VArr
  [VObj [("id", VStr "100");
         ("restaurant_name", VStr "Наетый кабан");
         ("restaurant_image", VStr mock_image);
         ("order_date", VStr (toISOString (t - 2 * 60 * 60 * 1000)));
         ("total_amount", VNum (number_of_Z 2598));
         ("status", VStr "delivered");
         ("delivery_address", VStr "ул. Ленина, д. 10, кв. 5");
         ("payment_method", VStr "Картой онлайн");
         ("items",
          VArr
            [VObj [("dish_id", VStr "1");
                   ("dish_name", VStr "Стейк Рибай");
                   ("dish_description",
                    VStr "Сочный стейк из мраморной говядины");
                   ("dish_image",
                    VStr "https://images.unsplash.com/photo-1600891964092-4316c288032e?w=400");
                   ("dish_price", VNum (number_of_Z 1899));
                   ("quantity", VNum one)];
             VObj [("dish_id", VStr "5");
                   ("dish_name", VStr "Картофель по-деревенски");
                   ("dish_description",
                    VStr "Запеченный картофель с травами и чесноком");
                   ("dish_image",
                    VStr "https://images.unsplash.com/photo-1573080496219-bb080dd4f877?w=400");
                   ("dish_price", VNum (number_of_Z 299));
                   ("quantity", VNum one)]])]].

Definition orders_body (orders : value) : value :=
VObj [("success", VBool true); ("orders", orders)].

Definition user_orders (env : Env) (req : Request) : M Response :=
try_catch
  (let userId := getUserIdFromToken env req in
   if not_ userId
   then ret (respond 401 (VObj [("error", VStr "Требуется авторизация")]))
   else
     connected <- read isDatabaseConnected ;;
     has_pool <- read pool ;;
     if connected && has_pool then
       try_catch
         (ordersResult <- query env SelectUserOrders [userId] ;;
          orders <- lift (map_o history_order ordersResult) ;;
          ret (respond 200 (orders_body (VArr orders))))
         (fun _ => ret (respond 200 (orders_body (VArr []))))
     else if strict_eq_one userId then
       t <- now env ;;
       ret (respond 200 (orders_body (mockOrders t)))
     else ret (respond 200 (orders_body (VArr []))))
  (fun _ => ret (failure 500 "Ошибка сервера")).

End Server.

(* ================================================================== *)
(** * A reference environment for closed runs *)
(* ================================================================== *)

Module Demo.
Import Num JS Proc Server.

Definition is_insert_order (c : db_call) : bool :=
match stmt c with InsertOrder => true | _ => false end.

Definition same_id (a b : value) : bool :=
match a, b with
| VNum x, VNum y => PrimFloat.eqb x y
| _, _ => false
end.

(** The row [INSERT INTO orders ... RETURNING *] gives back for the
    order numbered [id]; the driver hands a DECIMAL column over as
    text and a TIMESTAMP as a Date. *)
Definition order_row (id : nat) (ps : list value) : option (list (string * value)) :=
match ps with
| [user_id; rid; rname; rimage; total; st; address; payment; cname; cphone] =>
    Some [("id", VNum (number_of_Z (Z.of_nat id)));
          ("user_id", user_id); ("restaurant_id", rid);
          ("restaurant_name", rname); ("restaurant_image", rimage);
          ("total_amount",
           match total with
           | VNum x => VStr (number_to_string x)
           | _ => total
           end);
          ("status", st);
          ("delivery_address", address); ("payment_method", payment);
          ("customer_name", cname); ("customer_phone", cphone);
          ("order_date", VDate (number_of_Z 1793574000000))]
| _ => None
end.

(** The lines stored for an order, as [json_agg] returns them. *)
Definition item_rows (log : list db_call) (id : value) : list value :=
flat_map
  (fun c =>
     match stmt c, params c with
     | InsertOrderItem, [oid; dish_id; dish_name; dish_price; quantity; dish_image] =>
         if same_id oid id
         then [VObj [("dish_id", dish_id); ("dish_name", dish_name);
                     ("dish_price", dish_price); ("quantity", quantity);
                     ("dish_image", dish_image)]]
         else []
     | _, _ => []
     end) log.

(** A store that keeps what it is sent: the state is the log. *)
Definition mem_query (log : list db_call) (c : db_call) : outcome (list value) :=
match stmt c with
| InsertOrder =>
    match order_row (S (List.length (filter is_insert_order log))) (params c) with
    | Some row => Ok [VObj row]
    | None => Throw (Rejected "bind message supplies the wrong number of parameters")
    end
| SelectFullOrder =>
    match params c with
    | [VNum x] =>
        match time_value x with
        | Some (Zpos k) =>
            match nth_error (filter is_insert_order log) (Pos.to_nat k - 1) with
            | Some ins =>
                match order_row (Pos.to_nat k) (params ins) with
                | Some row =>
                    Ok [VObj (row ++ [("items", VArr (item_rows log (VNum x)))])%list]
                | None => Ok []
                end
            | None => Ok []
            end
        | _ => Ok []
        end
    | _ => Throw (Rejected "invalid input syntax for type integer")
    end
| _ => Ok []
end.

(** A verifier that accepts one token, for user 7. *)
Definition one_user (token secret : string) : outcome value :=
if String.eqb token "good" then Ok (VObj [("id", VNum (number_of_Z 7))])
else Throw (Rejected "jwt malformed").

Definition telegram_ok (log : list http_call) (c : http_call) : outcome value :=
Ok (VObj [("data", VObj [("ok", VBool true)])]).

Definition telegram_down (log : list http_call) (c : http_call) : outcome value :=
Throw (Rejected "timeout of 10000ms exceeded").


Definition env : Env :=
{| env_JWT_SECRET := None;
   env_ADMIN_API_KEY := Some "k3y";
   env_TELEGRAM_BOT_TOKEN := Some "123:abc";
   env_TELEGRAM_CHAT_ID := Some "-100";
   env_NODE_ENV := None;
   jwt_verify := one_user;
   pool_query := mem_query;
   axios_post := telegram_ok;
   clock := fun n => (1793574000000 + Z.of_nat n)%Z |}.

Definition started (connected : bool) : World :=
{| isDatabaseConnected := connected; pool := connected;
   db_log := []; http_log := []; notified := []; ticks := 0 |}.

Definition num (z : Z) : value := VNum (number_of_Z z).

Definition order_request (its : value) : Request :=
{| headers := [("authorization", "Bearer good")];
   param_id := "";
   body := VObj [("restaurant_id", num 1); ("items", its);
                 ("delivery_address", VStr "X")] |}.

Definition admin_request (id : string) (b : value) : Request :=
{| headers := [("x-admin-api-key", "k3y")]; param_id := id; body := b |}.

(** The scenario of the specification: one pizza line. *)
Definition pizza : value :=
VArr [VObj [("dish_name", VStr "Pizza"); ("dish_price", VStr "699.00");
            ("quantity", num 2)]].

(** The example list of the pricing property. *)
Definition two_lines : list value :=
[VObj [("price", VStr "10.5"); ("quantity", num 2)];
 VObj [("dish_price", num 20); ("quantity", VStr "3")]].


End Demo.

(* ================================================================== *)
(** * The properties, in the words of the specification *)
(* ================================================================== *)

Module Spec.
Import Num JS Proc Server.
Local Open Scope proc_scope.

(** A line item whose fields can be read: anything but [null] and
    [undefined]. *)
Definition readable (v : value) : bool :=
match v with
| VUndefined | VNull => false
| _ => true
end.

(** The field [name] of a readable item. *)
Definition field (item : value) (name : string) : value :=
match item with
| VObj ps => lookup ps name
| _ => VUndefined
end.

(** A value that converts to text: any value but an object with an
    own property [toString], or an array that holds one. *)
Definition textual (v : value) : bool :=
match to_string v with
| Ok _ => true
| Throw _ => false
end.

(** The text of a value that converts to text. *)
Definition text (v : value) : string :=
match to_string v with
| Ok t => t
| Throw _ => ""
end.

(** What [parseFloat], [parseInt] and ToNumber read in a value that
    converts to text. *)
Definition parsed_float (v : value) : float := parseFloat_string (text v).
Definition parsed_int (v : value) : float := parseInt_string (text v).

(** A line item the pricing loop can price: its fields can be read
    and its price and quantity fields convert to text. *)
Definition priced (item : value) : bool :=
readable item
&& textual (field item "dish_price") && textual (field item "price")
&& textual (field item "dishPrice") && textual (field item "quantity").

(** A line item the notification and mock mode can price: they
    read [dish_price], [price] and [quantity] only. *)
Definition countable (item : value) : bool :=
readable item
&& textual (field item "dish_price") && textual (field item "price")
&& textual (field item "quantity").

(** A parsed number that counts as a value: neither [NaN] nor zero. *)
Definition usable (x : float) : bool := negb (is_nan x) && negb (is_zero x).

(** Unit price: [dish_price], then [price], then [dishPrice], the
    first that parses to a usable number, else [0]. *)
Definition resolved_price (item : value) : float :=
let a := parsed_float (field item "dish_price") in
let b := parsed_float (field item "price") in
let c := parsed_float (field item "dishPrice") in
if usable a then a else if usable b then b else if usable c then c else zero.

(** The unit price of the notification path: two aliases only. *)
Definition resolved_price_two (item : value) : float :=
let a := parsed_float (field item "dish_price") in
let b := parsed_float (field item "price") in
if usable a then a else if usable b then b else zero.

(** Quantity as the program resolves it: the parsed integer, and [1]
    when it is [NaN] or zero. *)
Definition resolved_quantity (item : value) : float :=
let q := parsed_int (field item "quantity") in
if is_nan q || is_zero q then one else q.

(** Quantity as the specification words it: the parsed integer, and
    [1] when the field is missing or does not parse. *)
Definition stated_quantity (item : value) : float :=
let q := parsed_int (field item "quantity") in
if is_nan q then one else q.

(** The sum over the items, in order, of unit price times quantity. *)
Definition sum_lines (price quantity : value -> float) (l : list value) : float :=
fold_left (fun acc item => add acc (mul (price item) (quantity item))) l zero.

(** The line the pricing loop persists for an item. *)
Definition persisted_line (item : value) : order_item :=
{| oi_dish_id := field item "dish_id";
   oi_dish_name := or_ (or_ (field item "dish_name") (field item "name"))
                       (VStr "Блюдо");
   oi_dish_price := VNum (resolved_price item);
   oi_quantity := VNum (resolved_quantity item);
   oi_dish_image := or_ (or_ (field item "dish_image") (field item "imageUrl"))
                        (VStr "") |}.

(** [totalAmount] after the pricing loop, when it completes. *)
Definition order_total (items : value) : outcome float :=
obind (pricing_loop items) (fun r => Ok (fst r)).

(** [notificationTotal] of the persist path, when the loop completes. *)
Definition notification_total (items : value) : outcome float :=
obind (notification_totals items) (fun r => Ok (fst r)).

(** The totals written by the [INSERT INTO orders] calls of a run. *)
Definition persisted_totals (w : World) : list value :=
flat_map (fun c => match stmt c with
                   | InsertOrder => [nth 4 (params c) VUndefined]
                   | _ => []
                   end) (db_log w).

(** The totals shown in the messages sent during a run. *)
Definition message_totals (w : World) : list value :=
map (fun c => field (field (payload c) "text") "finalTotalAmount") (http_log w).


Definition required_fields_message : string :=
"Заполните обязательные поля: restaurant_id, items, delivery_address".

(** The bearer credential of a request is missing or invalid: no
  [authorization] header, one that does not start with [Bearer ],
  an empty token, or a token the verifier rejects. *)
Definition credential_rejected (env : Env) (req : Request) : bool :=
match header (headers req) "authorization" with
| None => true
| Some h =>
    negb (String.prefix "Bearer " h)
    || String.eqb (nth 1 (split_space h) "") ""
    || match jwt_verify env (nth 1 (split_space h) "") (JWT_SECRET env) with
       | Throw _ => true
       | Ok _ => false
       end
end.

(** The storage side of the process, and the record of dispatcher
    invocations, are the same in [w'] as in [w]. *)
Definition same_store (w w' : World) : Prop :=
isDatabaseConnected w' = isDatabaseConnected w
/\ pool w' = pool w
/\ db_log w' = db_log w
/\ notified w' = notified w.

(** A computation that touches nothing but the HTTP log and the
    clock. *)
Definition local {A} (m : M A) : Prop := forall w, same_store w (snd (m w)).






(** The success body of mock mode around an order. *)
Definition synthetic_response (order : value) : Response :=
respond 200 (VObj [("success", VBool true);
                   ("message", VStr "Заказ создан (тестовый режим)");
                   ("order", order)]).

(** The answer of the persist path to a failure inside its [try]. *)
Definition persist_failure : Response :=
failure 500 "Ошибка сервера при создании заказа".


(** The answer of the persist path, read off its storage phase: the
    composite order as the response shows it, or the failure. *)
Definition persist_answer (env : Env) (userId : value) (f : order_fields)
           (w : World) : Response :=
match persist_order env userId f w with
| (Ok fullOrder, _) =>
    match persisted_response fullOrder with
    | Ok r => r
    | Throw _ => persist_failure
    end
| (Throw _, _) => persist_failure
end.

(** The outcome of mock mode, read off the items and the clock. *)
Definition mock_answer (env : Env) (f : order_fields) (w : World)
  : outcome Response :=
l <~ array_elems (items f) "reduce" ;;
order <~ mock_order f l (clock env (ticks w)) (clock env (S (ticks w))) ;;
Ok (synthetic_response order).

End Spec.

(* ================================================================== *)
(** * Further notions used to state what the handlers do *)
(* ================================================================== *)

Module More.
Import Num JS Proc Server Spec.
Local Open Scope proc_scope.

(** The status codes [POST /orders] answers with. *)
Definition order_statuses : list Z := [200; 400; 401; 500]%Z.

(** The [success] field of a body says the same as the status. *)
Definition success_matches_status (r : Response) : bool :=
match field (json r) "success" with
| VBool b => Bool.eqb b (status r =? 200)%Z
| _ => false
end.

(** The [INSERT INTO order_items] call for a priced line of the order
    with id [order_id]. *)
Definition item_call (order_id : value) (line : order_item) : db_call :=
DbCall InsertOrderItem
       [order_id; oi_dish_id line; oi_dish_name line; oi_dish_price line;
        oi_quantity line; oi_dish_image line].

(** The same call for an item of the request. *)
Definition line_call (order_id : value) (item : value) : db_call :=
item_call order_id (persisted_line item).

(** The process after the storage calls [calls] were issued. *)
Definition logged (w : World) (calls : list db_call) : World :=
{| isDatabaseConnected := isDatabaseConnected w;
   pool := pool w;
   db_log := db_log w ++ calls;
   http_log := http_log w;
   notified := notified w;
   ticks := ticks w |}.

(** The storage calls of a persisted order: the header with the total,
    one line per item in order, the composite read. *)
Definition persist_trace (userId : value) (f : order_fields) (l : list value)
           (order_id : value) : list db_call :=
DbCall InsertOrder
       (insert_order_params userId f
          (sum_lines resolved_price resolved_quantity l))
  :: map (line_call order_id) l ++ [DbCall SelectFullOrder [order_id]].

(** The store answers every call of the statement [s]. *)
Definition answers (env : Env) (s : statement) : Prop :=
forall log ps, exists rows, pool_query env log (DbCall s ps) = Ok rows.

(** A store that returns one header row, with id 1, for every
    [INSERT INTO orders] and no row for anything else. *)
Definition echo_store (log : list db_call) (c : db_call) : outcome (list value) :=
match stmt c with
| InsertOrder => Ok [VObj [("id", VNum one)]]
| _ => Ok []
end.

(** A computation that issues no storage call. *)
Definition storeless {A} (m : M A) : Prop :=
forall w, db_log (snd (m w)) = db_log w.



(** A status that is not a text: an object with an own [toString]. *)
Definition unprintable_status : value := VObj [("toString", VNum one)].

(** A computation that makes no HTTP call. *)
Definition quiet {A} (m : M A) : Prop :=
forall w, http_log (snd (m w)) = http_log w.

(** A computation that makes no HTTP call, or exactly one, to [u] with
    the timeout [t]. *)
Definition posts_at_most_once {A} (u : string) (t : Z) (m : M A) : Prop :=
forall w,
  http_log (snd (m w)) = http_log w
  \/ exists d, http_log (snd (m w)) = (http_log w ++ [HttpCall u d t])%list.

(** One line of the Telegram message for an item handed to the
    dispatcher. *)
Definition telegram_line (item : value) : value :=
VObj [("dishName", field item "dishName");
      ("quantity", VNum (resolved_quantity item));
      ("itemTotal",
       VNum (mul (resolved_price_two item) (resolved_quantity item)))].

(** The Telegram message for the order summary [od] with the items
    [l], sent at the clock reading [t]: the total and the count are
    the ones passed in when they are truthy, the recomputed ones
    otherwise. *)
Definition telegram_message (od : value) (l : list value) (t : Z) : value :=
VObj [("id", field od "id");
      ("customerName", field od "customerName");
      ("customerPhone", field od "customerPhone");
      ("deliveryAddress", field od "deliveryAddress");
      ("restaurantName", field od "restaurantName");
      ("finalTotalAmount",
       or_ (field od "totalAmount")
           (VNum (fold_left
                    (fun sum item =>
                       add sum (mul (resolved_price_two item)
                                    (resolved_quantity item)))
                    l zero)));
      ("finalItemCount",
       or_ (field od "itemCount")
           (VNum (fold_left (fun n item => add n (resolved_quantity item))
                            l zero)));
      ("time", VDate (number_of_Z t));
      ("lines", VArr (map telegram_line l))].

(** The call [sendTelegramNotification] makes for that message. *)
Definition telegram_call (env : Env) (od : value) (l : list value) (t : Z)
  : http_call :=
HttpCall (telegram_url env)
         (VObj [("chat_id", TELEGRAM_CHAT_ID env);
                ("text", telegram_message od l t);
                ("parse_mode", VStr "HTML")])
         10000.

(** An item the dispatcher can show: it can price it and the name it
    shows converts to text. *)
Definition shown (item : value) : bool :=
countable item && textual (field item "dishName").

(** An order summary with the items [l] that the dispatcher can turn
    into a message: every value the template interpolates converts to
    text. *)
Definition printable (od : value) (l : list value) : bool :=
readable od
&& textual (field od "id") && textual (field od "customerName")
&& textual (field od "customerPhone") && textual (field od "deliveryAddress")
&& textual (field od "restaurantName")
&& textual (field od "totalAmount") && textual (field od "itemCount")
&& forallb shown l.


(** An object without the property [name]. *)
Definition without_key (name : string) (v : value) : value :=
match v with
| VObj ps => VObj (filter (fun kv => negb (String.eqb (fst kv) name)) ps)
| _ => v
end.

(** The status and the body of an answer, apart from
    [order.updated_at]. *)
Definition unstamped (r : Response) : Z * value :=
(status r,
 match json r with
 | VObj ps =>
     VObj (map (fun kv => if String.eqb (fst kv) "order"
                          then (fst kv, without_key "updated_at" (snd kv))
                          else kv) ps)
 | v => v
 end).

(** The answer of the bot's status update for the row [order] the
    store returned, the time stamp being [stamp]. *)
Definition status_updated (s : string) (order stamp : value) : Response :=
respond 200
  (VObj [("success", VBool true);
         ("message", VStr (status_message s));
         ("order",
          VObj [("id", field order "id");
                ("status", field order "status");
                ("updated_at", stamp)])]).

(** The columns [PUT /admin/dishes/:id] can set. *)
Definition dish_columns : list string :=
["name"; "description"; "image_url"; "price"; "preparation_time";
 "is_spicy"; "is_vegetarian"; "is_available"].

(** A value stored under a column: a price is a number that is neither
    [NaN] nor zero or less. *)
Definition stored_well (cv : string * value) : Prop :=
fst cv = "price" -> exists p, snd cv = VNum p /\ bad_price p = false.

(** The columns and values of an [UPDATE dishes] under construction:
    as many values as columns, known columns only, prices positive. *)
Definition well_formed_update (acc : list string * list value) : Prop :=
List.length (snd acc) = List.length (fst acc)
/\ incl (fst acc) dish_columns
/\ Forall stored_well (combine (fst acc) (snd acc)).

End More.

(* ================================================================== *)
(** * Further endpoints *)
(* ================================================================== *)

(** Handlers that use what the process already has: the Telegram test
    endpoint, and the identity function as the later snapshot of the
    file rewrites it. *)
Module Extra.
Import Num JS Proc Server.
Local Open Scope proc_scope.

(** ** [POST /test-notification] (lines 1740-1768) *)

Definition testOrder (t : Z) : value :=
VObj [("id", VStr ("TEST_" ++ number_to_string (number_of_Z t)));
      ("customerName", VStr "Тестовый Клиент");
      ("customerPhone", VStr "+7 (999) 123-45-67");
      ("deliveryAddress", VStr "ул. Тестовая, д. 1");
      ("restaurantName", VStr "Наетый кабан");
      ("totalAmount", VNum (number_of_Z 2598));
      ("itemCount", VNum (number_of_Z 2));
      ("items",
       VArr [VObj [("dishName", VStr "Стейк Рибай");
                   ("quantity", VNum (number_of_Z 1));
                   ("totalPrice", VNum (number_of_Z 1899))];
             VObj [("dishName", VStr "Картофель по-деревенски");
                   ("quantity", VNum (number_of_Z 2));
                   ("totalPrice", VNum (number_of_Z 698))]])].

Definition test_sent : Response :=
respond 200 (VObj [("success", VBool true);
                   ("message", VStr "Тестовое уведомление отправлено")]).

Definition test_notification (env : Env) (req : Request) : M Response :=
try_catch
  (if not_ (TELEGRAM_BOT_TOKEN env) || not_ (TELEGRAM_CHAT_ID env)
   then ret (failure 400 "Telegram bot token or chat ID not configured")
   else
     t <- now env ;;
     sendTelegramNotification env (testOrder t) ;;;
     ret test_sent)
  (fun e => ret (respond 500 (VObj [("error", VStr (exn_message e))]))).

(** ** [getUserIdFromToken] of the later snapshot (lines 3332-3361) *)

(** [s.replace(pat, '')]: the first occurrence only. *)
Fixpoint remove_first (pat s : string) : string :=
if String.prefix pat s
then String.substring (String.length pat)
                      (String.length s - String.length pat) s
else match s with
     | EmptyString => EmptyString
     | String c r => String c (remove_first pat r)
     end.

(** [s.split('_')]. *)
Fixpoint split_underscore_aux (s cur : string) : list string :=
match s with
| EmptyString => [cur]
| String c r =>
    if Ascii.eqb c "_" then cur :: split_underscore_aux r EmptyString
    else split_underscore_aux r (cur ++ String c EmptyString)
end.
Definition split_underscore (s : string) : list string :=
split_underscore_aux s EmptyString.

(** [x && !isNaN(parseInt(x))] for a header value. *)
Definition integer_like (x : string) : bool :=
negb (String.eqb x "") && negb (is_nan (parseInt_string x)).

(** The legacy [token_<id>] credential (lines 3341-3347), read from the
    header with its first [Bearer ] removed. *)
Definition legacy_identity (authHeader : option string) : value :=
match authHeader with
| None => VNull
| Some h =>
    let oldToken := remove_first "Bearer " h in
    if negb (String.eqb oldToken "") && String.prefix "token_" oldToken
    then
      let tokenParts := split_underscore oldToken in
      if (1 <? List.length tokenParts)%nat
         && negb (is_nan (parseInt_string (nth 1 tokenParts "")))
      then VNum (parseInt_string (nth 1 tokenParts ""))
      else VNull
    else VNull
end.

Definition getUserIdFromToken_later (env : Env) (req : Request) : value :=
let authHeader := header (headers req) "authorization" in
let h := match authHeader with Some h => h | None => "" end in
if String.eqb h "" || negb (String.prefix "Bearer " h)
then
  match header (headers req) "x-user-id" with
  | Some userId =>
      if integer_like userId then VNum (parseInt_string userId)
      else legacy_identity authHeader
  | None => legacy_identity authHeader
  end
else
  let token := nth 1 (split_space h) "" in
  match jwt_verify env token (JWT_SECRET env) with
  | Ok decoded =>
      match get decoded "id" with
      | Ok id => id
      | Throw _ => VNull
      end
  | Throw _ => VNull
  end.

End Extra.

(** The account endpoints and the bot's dish endpoints. They send
    statements of their own to the store, hash and compare passwords,
    and sign tokens; the state of the process is extended with the
    record of these calls. *)
Module Accounts.
Import Num JS Proc Server.

(** The statements, by the place that sends them. *)
Inductive sql : Type :=
| Probe
| SelectUserByEmail
| InsertUser
| SelectUserById
| SelectPassword
| UpdatePassword
| ToggleDish
| SelectDish.

Record sql_call : Type := SqlCall { text : sql; args : list value }.

(** The collaborators: the store for the statements above, answering a
    call from the calls made before it; [bcrypt.hash(p, 10)] and
    [bcrypt.compare(p, h)]; [jwt.sign(payload, secret, { expiresIn:
    '7d' })], answering from the payloads signed before. *)
Record Services : Type := {
  core : Env;
  store : list sql_call -> sql_call -> outcome (list value);
  bcrypt_hash : value -> outcome string;
  bcrypt_compare : value -> value -> outcome bool;
  jwt_sign : list value -> value -> string -> outcome string
}.

Record State : Type := {
  world : World;
  sql_log : list sql_call;
  signed : list value
}.

Definition R (A : Type) : Type := State -> outcome A * State.

Definition pure {A} (a : A) : R A := fun s => (Ok a, s).

Definition andThen {A B} (m : R A) (k : A -> R B) : R B :=
fun s => match m s with
         | (Ok a, s') => k a s'
         | (Throw e, s') => (Throw e, s')
         end.

(** [try { m } catch (e) { h e }]. *)
Definition attempt {A} (m : R A) (h : exn -> R A) : R A :=
fun s => match m s with
         | (Ok a, s') => (Ok a, s')
         | (Throw e, s') => h e s'
         end.

Definition liftR {A} (o : outcome A) : R A := fun s => (o, s).

(** A computation of the process proper. *)
Definition run {A} (m : M A) : R A :=
fun s => (fst (m (world s)),
          {| world := snd (m (world s));
             sql_log := sql_log s;
             signed := signed s |}).

Declare Scope acc_scope.
Delimit Scope acc_scope with acc.
Notation "x <- m ;; k" := (andThen m (fun x => k))
  (at level 61, m at next level, right associativity) : acc_scope.
Notation "m ;;; k" := (andThen m (fun _ => k))
  (at level 61, right associativity) : acc_scope.
Local Open Scope acc_scope.

(** [await pool.query(text, params)]. *)
Definition ask (sv : Services) (t : sql) (ps : list value) : R (list value) :=
fun s =>
  if pool (world s) then
    (store sv (sql_log s) (SqlCall t ps),
     {| world := world s;
        sql_log := sql_log s ++ [SqlCall t ps];
        signed := signed s |})
  else (Throw (TypeError "Cannot read properties of undefined (reading 'query')"), s).

Definition sign (sv : Services) (payload : value) : R string :=
fun s =>
  (jwt_sign sv (signed s) payload (JWT_SECRET (core sv)),
   {| world := world s;
      sql_log := sql_log s;
      signed := signed s ++ [payload] |}).

(** [isDatabaseConnected = false]. *)
Definition disconnect : R unit :=
fun s =>
  (Ok tt,
   {| world := {| isDatabaseConnected := false;
                  pool := pool (world s);
                  db_log := db_log (world s);
                  http_log := http_log (world s);
                  notified := notified (world s);
                  ticks := ticks (world s) |};
      sql_log := sql_log s;
      signed := signed s |}).

(** [isDatabaseConnected && pool]. *)
Definition store_ready : R bool :=
connected <- run (read isDatabaseConnected) ;;
has_pool <- run (read pool) ;;
pure (connected && has_pool).

(** ** The liveness probe (lines 134-141) *)
Definition probe (sv : Services) : R unit :=
attempt (ask sv Probe [] ;;; pure tt) (fun _ => disconnect).

(** ** [sendMockLogin] (lines 615-637) *)
Definition sendMockLogin (sv : Services) (email : value) : R Response :=
mockToken <- sign sv (VObj [("id", VNum one); ("email", email);
                            ("role", VStr "user")]) ;;
t <- run (now (core sv)) ;;
pure (respond 200
        (VObj [("success", VBool true);
               ("message", VStr "Вход выполнен успешно (тестовый режим)");
               ("access_token", VStr mockToken);
               ("user",
                VObj [("id", VNum one);
                      ("name", VStr "Иван Иванов");
                      ("email", email);
                      ("phone", VStr "+7 (999) 123-45-67");
                      ("avatarUrl", VNull);
                      ("role", VStr "user");
                      ("isEmailVerified", VBool true);
                      ("createdAt", VStr (toISOString t))])])).

(** ** [POST /login] (lines 515-590) *)
Definition login (sv : Services) (req : Request) : R Response :=
attempt
  (email <- liftR (get (body req) "email") ;;
   password <- liftR (get (body req) "password") ;;
   run (log [email]) ;;;
   if not_ email || not_ password
   then pure (failure 400 "Введите email и пароль")
   else
     ready <- store_ready ;;
     if ready then
       attempt
         (userResult <- ask sv SelectUserByEmail [email] ;;
          match userResult with
          | [] => pure (failure 401 "Неверный email или пароль")
          | user :: _ =>
              stored <- liftR (get user "password") ;;
              validPassword <- liftR (bcrypt_compare sv password stored) ;;
              if negb validPassword
              then pure (failure 401 "Неверный email или пароль")
              else
                id <- liftR (get user "id") ;;
                user_email <- liftR (get user "email") ;;
                role <- liftR (get user "role") ;;
                token <- sign sv (VObj [("id", id); ("email", user_email);
                                        ("role", role)]) ;;
                name <- liftR (get user "name") ;;
                phone <- liftR (get user "phone") ;;
                avatar_url <- liftR (get user "avatar_url") ;;
                email_verified <- liftR (get user "email_verified") ;;
                created_at <- liftR (get user "created_at") ;;
                pure (respond 200
                        (VObj [("success", VBool true);
                               ("message", VStr "Вход выполнен успешно");
                               ("access_token", VStr token);
                               ("user",
                                VObj [("id", id);
                                      ("name", name);
                                      ("email", user_email);
                                      ("phone", phone);
                                      ("avatarUrl", avatar_url);
                                      ("role", role);
                                      ("isEmailVerified", email_verified);
                                      ("createdAt", created_at)])]))
          end)
         (fun _ => sendMockLogin sv email)
     else sendMockLogin sv email)
  (fun _ => pure (failure 500 "Ошибка сервера")).

(** ** [sendMockRegistration] (lines 592-613): the clock is read for
    the id in the token, for the id in the answer, and for the
    creation date. *)
Definition sendMockRegistration (sv : Services) (name email phone : value)
  : R Response :=
t_token <- run (now (core sv)) ;;
mockToken <- sign sv (VObj [("id", VNum (number_of_Z t_token));
                            ("email", email)]) ;;
t_id <- run (now (core sv)) ;;
t_date <- run (now (core sv)) ;;
pure (respond 200
        (VObj [("success", VBool true);
               ("message", VStr "Регистрация успешна (тестовый режим)");
               ("access_token", VStr mockToken);
               ("user",
                VObj [("id", VNum (number_of_Z t_id));
                      ("name", name);
                      ("email", email);
                      ("phone", or_ phone VNull);
                      ("avatarUrl", VNull);
                      ("isEmailVerified", VBool false);
                      ("createdAt", VStr (toISOString t_date))])])).

(** ** [POST /register] (lines 438-512) *)
Definition register (sv : Services) (req : Request) : R Response :=
attempt
  (name <- liftR (get (body req) "name") ;;
   email <- liftR (get (body req) "email") ;;
   password <- liftR (get (body req) "password") ;;
   phone <- liftR (get (body req) "phone") ;;
   run (log [name; email]) ;;;
   if not_ name || not_ email || not_ password
   then pure (failure 400 "Заполните все обязательные поля")
   else
     ready <- store_ready ;;
     if ready then
       attempt
         (existingUser <- ask sv SelectUserByEmail [email] ;;
          match existingUser with
          | _ :: _ =>
              pure (failure 400 "Пользователь с таким email уже существует")
          | [] =>
              hashedPassword <- liftR (bcrypt_hash sv password) ;;
              newUser <- ask sv InsertUser
                           [name; email; VStr hashedPassword;
                            or_ phone VNull; VBool false] ;;
              let user := nth 0 newUser VUndefined in
              id <- liftR (get user "id") ;;
              user_email <- liftR (get user "email") ;;
              token <- sign sv (VObj [("id", id); ("email", user_email)]) ;;
              user_name <- liftR (get user "name") ;;
              user_phone <- liftR (get user "phone") ;;
              avatar_url <- liftR (get user "avatar_url") ;;
              email_verified <- liftR (get user "email_verified") ;;
              created_at <- liftR (get user "created_at") ;;
              pure (respond 200
                      (VObj [("success", VBool true);
                             ("message", VStr "Регистрация успешна");
                             ("access_token", VStr token);
                             ("user",
                              VObj [("id", id);
                                    ("name", user_name);
                                    ("email", user_email);
                                    ("phone", user_phone);
                                    ("avatarUrl", avatar_url);
                                    ("isEmailVerified", email_verified);
                                    ("createdAt", created_at)])]))
          end)
         (fun _ => sendMockRegistration sv name email phone)
     else sendMockRegistration sv name email phone)
  (fun _ => pure (failure 500 "Ошибка сервера")).

(** ** [POST /change-password] (lines 1870-1961) *)

(** [v.length]. *)
Definition length_of (v : value) : outcome value :=
match v with
| VUndefined => Throw (TypeError "Cannot read properties of undefined")
| VNull => Throw (TypeError "Cannot read properties of null")
| VStr s => Ok (VNum (number_of_Z (Z.of_nat (utf16_length s))))
| VArr l => Ok (VNum (number_of_Z (Z.of_nat (List.length l))))
| VObj ps => Ok (lookup ps "length")
| _ => Ok VUndefined
end.

(** [v < 6]: the left operand is converted to a Number. *)
Definition below_six (v : value) : outcome bool :=
obind (toNumber v) (fun x => Ok (PrimFloat.ltb x (number_of_Z 6))).

Definition password_changed : Response :=
respond 200 (VObj [("success", VBool true);
                   ("message", VStr "Пароль успешно изменен")]).

Definition change_password (sv : Services) (req : Request) : R Response :=
attempt
  (let userId := getUserIdFromToken (core sv) req in
   if not_ userId
   then pure (failure 401 "Требуется авторизация")
   else
     currentPassword <- liftR (get (body req) "currentPassword") ;;
     newPassword <- liftR (get (body req) "newPassword") ;;
     if not_ currentPassword || not_ newPassword
     then pure (failure 400 "Введите текущий и новый пароль")
     else
       len <- liftR (length_of newPassword) ;;
       short <- liftR (below_six len) ;;
       if short
       then pure (failure 400
                    "Новый пароль должен содержать минимум 6 символов")
       else
         ready <- store_ready ;;
         if ready then
           attempt
             (userResult <- ask sv SelectPassword [userId] ;;
              match userResult with
              | [] => pure (failure 404 "Пользователь не найден")
              | user :: _ =>
                  stored <- liftR (get user "password") ;;
                  validPassword <-
                    liftR (bcrypt_compare sv currentPassword stored) ;;
                  if negb validPassword
                  then pure (failure 401 "Неверный текущий пароль")
                  else
                    hashedPassword <- liftR (bcrypt_hash sv newPassword) ;;
                    ask sv UpdatePassword [VStr hashedPassword; userId] ;;;
                    pure password_changed
              end)
             (fun _ => pure (failure 500 "Ошибка сервера"))
         else
           pure (respond 200
                   (VObj [("success", VBool true);
                          ("message",
                           VStr "Пароль изменен (тестовый режим)")])))
  (fun _ => pure (failure 500 "Ошибка сервера")).

(** ** [POST /reset-password] (lines 1832-1867) *)
Definition reset_password (req : Request) : R Response :=
attempt
  (token <- liftR (get (body req) "token") ;;
   password <- liftR (get (body req) "password") ;;
   if not_ token || not_ password
   then pure (failure 400 "Токен и новый пароль обязательны")
   else
     len <- liftR (length_of password) ;;
     short <- liftR (below_six len) ;;
     if short
     then pure (failure 400 "Пароль должен содержать минимум 6 символов")
     else
       run (log [token]) ;;;
       pure password_changed)
  (fun _ => pure (failure 500 "Ошибка сервера")).

(** ** [POST /bot/dish/:id/toggle] (lines 1966-2017) *)

Definition store_unavailable : Response :=
respond 503 (VObj [("success", VBool false);
                   ("error", VStr "База данных недоступна");
                   ("mode", VStr "mock")]).

Definition toggle_dish (sv : Services) (req : Request) : R Response :=
attempt
  (if negb (validateAdminApiKey (core sv) req)
   then pure (failure 401 "Неверный API ключ")
   else
     connected <- run (read isDatabaseConnected) ;;
     has_pool <- run (read pool) ;;
     if negb connected || negb has_pool
     then pure store_unavailable
     else
       let dishId := param_id req in
       result <- ask sv ToggleDish [VStr dishId] ;;
       match result with
       | [] => pure (failure 404 "Блюдо не найдено")
       | dish :: _ =>
           is_available <- liftR (get dish "is_available") ;;
           let status := if toBoolean is_available
                         then "доступно" else "недоступно" in
           name <- liftR (get dish "name") ;;
           name_text <- liftR (to_string name) ;;
           pure (respond 200
                   (VObj [("success", VBool true);
                          ("message",
                           VStr ("Блюдо " ++ quote ++ name_text ++ quote
                                   ++ " теперь " ++ status));
                          ("dish", dish)]))
       end)
  (fun _ => pure (failure 500 "Ошибка сервера")).

(** ** [GET /bot/dish/:id] (lines 2020-2064) *)
Definition get_dish (sv : Services) (req : Request) : R Response :=
attempt
  (if negb (validateAdminApiKey (core sv) req)
   then pure (failure 401 "Неверный API ключ")
   else
     connected <- run (read isDatabaseConnected) ;;
     has_pool <- run (read pool) ;;
     if negb connected || negb has_pool
     then pure (failure 503 "База данных недоступна")
     else
       let dishId := param_id req in
       result <- ask sv SelectDish [VStr dishId] ;;
       match result with
       | [] => pure (failure 404 "Блюдо не найдено")
       | dish :: _ =>
           pure (respond 200 (VObj [("success", VBool true); ("dish", dish)]))
       end)
  (fun _ => pure (failure 500 "Ошибка сервера")).

(** ** Notions used to state what the account endpoints do *)

(** The state after the storage calls [calls] were issued. *)
Definition asked (s : State) (calls : list sql_call) : State :=
{| world := world s; sql_log := sql_log s ++ calls; signed := signed s |}.

(** A computation that issues no storage call. *)
Definition silent {A} (m : R A) : Prop :=
forall s, sql_log (snd (m s)) = sql_log s.

(** The payload [sendMockLogin] signs. *)
Definition mock_login_payload (email : value) : value :=
VObj [("id", VNum one); ("email", email); ("role", VStr "user")].

(** What takes [POST /login] off the store's path: the store is
    flagged off or there is no pool; the store rejects the lookup; the
    lookup returns a row whose password [bcrypt.compare] rejects the
    comparison with (it throws, instead of answering [false]). *)
Definition lookup_fails (sv : Services) (s : State) (email password : value)
  : Prop :=
isDatabaseConnected (world s) && pool (world s) = false
\/ (exists e,
      store sv (sql_log s) (SqlCall SelectUserByEmail [email]) = Throw e)
\/ (exists user rest stored e,
      store sv (sql_log s) (SqlCall SelectUserByEmail [email])
      = Ok (user :: rest)
      /\ get user "password" = Ok stored
      /\ bcrypt_compare sv password stored = Throw e).

(** The lookup finds no account, or one whose password does not
    match. *)
Definition credentials_refused (sv : Services) (s : State)
           (email password : value) : Prop :=
store sv (sql_log s) (SqlCall SelectUserByEmail [email]) = Ok []
\/ (exists user rest stored,
      store sv (sql_log s) (SqlCall SelectUserByEmail [email])
      = Ok (user :: rest)
      /\ get user "password" = Ok stored
      /\ bcrypt_compare sv password stored = Ok false).

(** The payload [sendMockRegistration] signs at the clock reading
    [t]. *)
Definition mock_registration_payload (t : Z) (email : value) : value :=
VObj [("id", VNum (number_of_Z t)); ("email", email)].

(** The [INSERT INTO users] call of a registration. *)
Definition insert_user_call (name email phone : value) (hash : string)
  : sql_call :=
SqlCall InsertUser [name; email; VStr hash; or_ phone VNull; VBool false].

(** The store finds no account with the email, and rejects the
    insert that follows. *)
Definition insert_rejected (sv : Services) (s : State)
           (name email password phone : value) : Prop :=
exists h e,
  store sv (sql_log s) (SqlCall SelectUserByEmail [email]) = Ok []
  /\ bcrypt_hash sv password = Ok h
  /\ store sv (sql_log s ++ [SqlCall SelectUserByEmail [email]])
           (insert_user_call name email phone h) = Throw e.

(** A computation of the process proper that leaves the two
    module-level variables alone. *)
Definition steady {A} (m : M A) : Prop :=
forall w,
  isDatabaseConnected (snd (m w)) = isDatabaseConnected w
  /\ pool (snd (m w)) = pool w.

(** A computation that never switches the store on: the pool is what
    it was, and [isDatabaseConnected] is true afterwards only if it was
    true before. *)
Definition wanes {A} (m : R A) : Prop :=
forall s,
  pool (world (snd (m s))) = pool (world s)
  /\ (isDatabaseConnected (world (snd (m s))) = true ->
      isDatabaseConnected (world s) = true).

(** What happens between two observations of the process: the
    liveness probe fires, or a request to one of the endpoints is
    served to its end. *)
Inductive event : Type :=
| ProbeFires
| PostOrders (req : Request)
| GetUserOrders (req : Request)
| PutBotOrderStatus (req : Request)
| PutAdminOrderStatus (req : Request)
| PutAdminDish (req : Request)
| PostAdminDish (req : Request)
| PostTestNotification (req : Request)
| PostRegister (req : Request)
| PostLogin (req : Request)
| PostChangePassword (req : Request)
| PostResetPassword (req : Request)
| PostDishToggle (req : Request)
| GetDish (req : Request).

Definition forget {A} (m : R A) : R unit := m ;;; pure tt.

Definition serve (sv : Services) (e : event) : R unit :=
match e with
| ProbeFires => probe sv
| PostOrders req => forget (run (create_order (core sv) req))
| GetUserOrders req => forget (run (user_orders (core sv) req))
| PutBotOrderStatus req => forget (run (bot_update_status (core sv) req))
| PutAdminOrderStatus req => forget (run (admin_update_status (core sv) req))
| PutAdminDish req => forget (run (update_dish (core sv) req))
| PostAdminDish req => forget (run (create_dish (core sv) req))
| PostTestNotification req =>
    forget (run (Extra.test_notification (core sv) req))
| PostRegister req => forget (register sv req)
| PostLogin req => forget (login sv req)
| PostChangePassword req => forget (change_password sv req)
| PostResetPassword req => forget (reset_password req)
| PostDishToggle req => forget (toggle_dish sv req)
| GetDish req => forget (get_dish sv req)
end.

(** The state after a sequence of events. *)
Definition after (sv : Services) (es : list event) (s : State) : State :=
fold_left (fun s e => snd (serve sv e s)) es s.

(** ** Reference collaborators for closed runs *)

Definition demo_hash (p : value) : outcome string :=
match p with
| VStr t => Ok ("$2a$10$" ++ t)
| _ => Throw (Rejected "Illegal arguments")
end.

Definition demo_compare (p h : value) : outcome bool :=
match p, h with
| VStr t, VStr u => Ok (String.eqb ("$2a$10$" ++ t) u)
| _, _ => Throw (Rejected "Illegal arguments")
end.

Definition demo_sign (log : list value) (payload : value) (secret : string)
  : outcome string :=
Ok ("jwt." ++ match Spec.field payload "id" with
              | VNum x => number_to_string x
              | _ => "?"
              end).

(** A store with one account, [ann@example.com] with the password
    [secret1] and the id 7. *)
Definition ann : value :=
VObj [("id", VNum (number_of_Z 7)); ("name", VStr "Ann");
      ("email", VStr "ann@example.com");
      ("password", VStr "$2a$10$secret1"); ("role", VStr "user")].

Definition one_account (log : list sql_call) (c : sql_call)
  : outcome (list value) :=
match text c, args c with
| SelectUserByEmail, [VStr e] =>
    if String.eqb e "ann@example.com" then Ok [ann] else Ok []
| SelectPassword, _ => Ok [ann]
| InsertUser, _ => Throw (Rejected "duplicate key value")
| _, _ => Ok []
end.

Definition rejecting (log : list sql_call) (c : sql_call)
  : outcome (list value) :=
Throw (Rejected "connect ECONNREFUSED").

Definition services (q : list sql_call -> sql_call -> outcome (list value))
  : Services :=
{| core := Demo.env; store := q; bcrypt_hash := demo_hash;
   bcrypt_compare := demo_compare; jwt_sign := demo_sign |}.

Definition booted (connected : bool) : State :=
{| world := Demo.started connected; sql_log := []; signed := [] |}.

Definition json_request (hs : list (string * string)) (b : value) : Request :=
{| headers := hs; param_id := "1"; body := b |}.

End Accounts.

Import Num JS Proc Server Spec More.
Local Open Scope proc_scope.

(** ** Reading fields and converting them *)

Lemma get_readable (v : value) (name : string) :
  readable v = true -> get v name = Ok (field v name).
Proof.
  destruct v; simpl; intros H; try discriminate; reflexivity.
Qed.

Lemma to_string_textual (v : value) :
  textual v = true -> to_string v = Ok (text v).
Proof.
  unfold textual, text. destruct (to_string v); [reflexivity|discriminate].
Qed.

Lemma parseFloat_textual (v : value) :
  textual v = true -> parseFloat v = Ok (parsed_float v).
Proof.
  intros H. unfold parseFloat, parsed_float.
  now rewrite (to_string_textual v H).
Qed.

Lemma parseInt_textual (v : value) :
  textual v = true -> parseInt v = Ok (parsed_int v).
Proof.
  intros H. unfold parseInt, parsed_int.
  now rewrite (to_string_textual v H).
Qed.


Lemma textual_num (x : float) : textual (VNum x) = true.
Proof. reflexivity. Qed.

Lemma textual_or (a b : value) :
  textual a = true -> textual b = true -> textual (or_ a b) = true.
Proof. intros Ha Hb. unfold or_. now destruct (toBoolean a). Qed.

Lemma interpolate_textual (v : value) (name : string) :
  readable v = true -> textual (field v name) = true ->
  interpolate v name = Ok (field v name).
Proof.
  intros Hr Ht. unfold interpolate. rewrite (get_readable v name Hr).
  cbn [obind]. now rewrite (to_string_textual _ Ht).
Qed.

(** ** Resolving aliases *)

Lemma usable_truthy (x : float) : usable x = truthy x.
Proof.
  unfold usable, truthy. now rewrite negb_orb.
Qed.

Lemma first_parsed_cons (v : value) (r : list value) :
  textual v = true ->
  first_parsed (v :: r)
  = if usable (parsed_float v) then Ok (parsed_float v) else first_parsed r.
Proof.
  intros H. cbn [first_parsed]. rewrite (parseFloat_textual v H).
  cbn [obind]. now rewrite usable_truthy.
Qed.

Lemma parsed_or_one_textual (v : value) :
  textual v = true ->
  parsed_or_one v
  = Ok (if is_nan (parsed_int v) || is_zero (parsed_int v)
        then one else parsed_int v).
Proof.
  intros H. unfold parsed_or_one. rewrite (parseInt_textual v H).
  cbn [obind]. unfold truthy.
  now destruct (is_nan (parsed_int v) || is_zero (parsed_int v)).
Qed.

Lemma priced_fields (item : value) :
  priced item = true ->
  readable item = true
  /\ textual (field item "dish_price") = true
  /\ textual (field item "price") = true
  /\ textual (field item "dishPrice") = true
  /\ textual (field item "quantity") = true.
Proof.
  unfold priced. intros H.
  repeat (apply andb_prop in H; destruct H as [H ?]).
  repeat split; assumption.
Qed.

Lemma countable_fields (item : value) :
  countable item = true ->
  readable item = true
  /\ textual (field item "dish_price") = true
  /\ textual (field item "price") = true
  /\ textual (field item "quantity") = true.
Proof.
  unfold countable. intros H.
  repeat (apply andb_prop in H; destruct H as [H ?]).
  repeat split; assumption.
Qed.

Lemma priced_countable (item : value) :
  priced item = true -> countable item = true.
Proof.
  intros H. destruct (priced_fields item H) as (Hr & H1 & H2 & _ & H4).
  unfold countable. now rewrite Hr, H1, H2, H4.
Qed.

Lemma forallb_priced_countable (l : list value) :
  forallb priced l = true -> forallb countable l = true.
Proof.
  induction l as [|item l IH]; [reflexivity|].
  cbn [forallb]. intros H. apply andb_prop in H. destruct H as [Hi Hl].
  now rewrite (priced_countable item Hi), (IH Hl).
Qed.

(** The body of the pricing loop on an item it can price. *)
Lemma price_line_priced (item : value) :
  priced item = true ->
  price_line item
  = Ok (mul (resolved_price item) (resolved_quantity item), persisted_line item).
Proof.
  intros H. destruct (priced_fields item H) as (Hr & H1 & H2 & H3 & H4).
  unfold price_line.
  rewrite !(@get_readable item _ Hr). cbn [obind].
  rewrite (first_parsed_cons _ _ H1), (first_parsed_cons _ _ H2),
    (first_parsed_cons _ _ H3).
  cbn [first_parsed].
  rewrite (parsed_or_one_textual _ H4).
  unfold persisted_line, resolved_price, resolved_quantity.
  destruct (usable (parsed_float (field item "dish_price")));
    [reflexivity|].
  destruct (usable (parsed_float (field item "price"))); [reflexivity|].
  destruct (usable (parsed_float (field item "dishPrice"))); reflexivity.
Qed.

Lemma price_of_two_countable (item : value) :
  countable item = true ->
  price_of_two item = Ok (resolved_price_two item).
Proof.
  intros H. destruct (countable_fields item H) as (Hr & H1 & H2 & _).
  unfold price_of_two.
  rewrite !(@get_readable item _ Hr). cbn [obind].
  rewrite (first_parsed_cons _ _ H1), (first_parsed_cons _ _ H2).
  cbn [first_parsed]. unfold resolved_price_two.
  destruct (usable (parsed_float (field item "dish_price")));
    [reflexivity|].
  destruct (usable (parsed_float (field item "price"))); reflexivity.
Qed.

Lemma quantity_of_countable (item : value) :
  countable item = true ->
  quantity_of item = Ok (resolved_quantity item).
Proof.
  intros H. destruct (countable_fields item H) as (Hr & _ & _ & H4).
  unfold quantity_of.
  rewrite (@get_readable item _ Hr). cbn [obind].
  now rewrite (parsed_or_one_textual _ H4).
Qed.

Lemma pricing_fold (l : list value) :
  forallb priced l = true ->
  forall acc : float * list order_item,
    fold_o pricing_step l acc
    = Ok (fold_left (fun t item =>
                       add t (mul (resolved_price item) (resolved_quantity item)))
                    l (fst acc),
          (snd acc ++ map persisted_line l)%list).
Proof.
  induction l as [|item l IH]; intros Hl acc.
  - simpl. rewrite app_nil_r. now destruct acc.
  - simpl in Hl. apply andb_prop in Hl. destruct Hl as [Hi Hl].
    simpl. unfold pricing_step at 1.
    rewrite (price_line_priced _ Hi). cbn [obind fst snd].
    rewrite (IH Hl). cbn [fst snd].
    now rewrite <- app_assoc.
Qed.

(** The pricing loop on items it can price: the total and the lines
    to persist. *)
Lemma pricing_loop_priced (l : list value) :
  forallb priced l = true ->
  pricing_loop (VArr l)
  = Ok (sum_lines resolved_price resolved_quantity l, map persisted_line l).
Proof.
  intros Hl. unfold pricing_loop. cbn [iterate obind].
  now rewrite (pricing_fold l Hl).
Qed.

(** C1 (as amended). For every list of line items that can be read and
    whose [dish_price], [price], [dishPrice] and [quantity] convert to
    text, the pricing loop of order creation completes, and its total
    is the sum, in order, of unit price times quantity, where the unit
    price is the first of [dish_price], [price], [dishPrice] that
    parses to a number other than [NaN] and zero (else [0]) and the
    quantity is the parsed integer, defaulting to [1] when it is [NaN]
    or zero. *)
Theorem pricing_total_is_sum_of_lines (l : list value) :
  forallb priced l = true ->
  order_total (VArr l) = Ok (sum_lines resolved_price resolved_quantity l).
Proof.
  intros Hl. unfold order_total.
  rewrite (pricing_loop_priced l Hl). reflexivity.
Qed.

(** The example of the specification: the two lines total 81. *)
Lemma pricing_total_is_sum_of_lines_witness :
  forallb priced Demo.two_lines = true
  /\ order_total (VArr Demo.two_lines) = Ok 81%float.
Proof.
  split; [reflexivity|].
  rewrite (pricing_total_is_sum_of_lines Demo.two_lines eq_refl).
  vm_compute. reflexivity.
Defined.

(** C1 as stated fails on a line whose quantity parses to zero: the
    program totals one unit (10), while price times the quantity the
    specification resolves (the parsed integer, 0) is 0. *)
Lemma pricing_total_zero_quantity :
  let l := [VObj [("price", VStr "10"); ("quantity", VStr "0")]] in
  order_total (VArr l) = Ok 10%float
  /\ sum_lines resolved_price stated_quantity l = 0%float
  /\ PrimFloat.eqb 10 0 = false.
Proof.
  vm_compute. repeat split; reflexivity.
Qed.

(** White space before a numeral is skipped whatever its kind: a
    no-break space before the price and the quantity changes
    nothing. *)
Example no_break_space_is_skipped :
  let nbsp := String (ascii_of_nat 194) (String (ascii_of_nat 160) EmptyString) in
  order_total (VArr [VObj [("price", VStr (nbsp ++ "7.5"));
                           ("quantity", VStr (nbsp ++ "2"))]])
  = Ok 15%float.
Proof.
  vm_compute. reflexivity.
Qed.

(** A field that does not convert to text stops the loop: the
    conversion throws. *)
Example unconvertible_price_throws :
  order_total (VArr [VObj [("dish_price", VObj [("toString", VNum one)])]])
  = Throw not_primitive.
Proof.
  vm_compute. reflexivity.
Qed.

(** ** The two totals of one submission *)

(** C2, at the input where it fails. One line priced under [dishPrice]
    only: the pricing loop totals 5 and [INSERT INTO orders] is sent 5,
    while the notification recomputes 0 and the message shows 0. *)
Theorem third_alias_splits_the_totals :
  let its := VArr [VObj [("dishPrice", VStr "5"); ("quantity", Demo.num 1)]] in
  let w := snd (create_order Demo.env (Demo.order_request its) (Demo.started true)) in
  order_total its = Ok 5%float
  /\ notification_total its = Ok 0%float
  /\ persisted_totals w = [VNum 5%float]
  /\ message_totals w = [VNum 0%float].
Proof.
  vm_compute. repeat split; reflexivity.
Qed.

(** ** Running the handlers *)

Lemma env_or_nonempty (o : option string) (d : string) :
  String.eqb d "" = false -> String.eqb (env_or o d) "" = false.
Proof.
  intros Hd. unfold env_or. destruct o as [s|]; [|exact Hd].
  destruct (String.eqb s "") eqn:Hs; [exact Hd|exact Hs].
Qed.

Lemma ADMIN_API_KEY_nonempty (env : Env) :
  String.eqb (ADMIN_API_KEY env) "" = false.
Proof. apply env_or_nonempty. reflexivity. Qed.

Lemma not_truthy (v : value) : toBoolean v = true -> not_ v = false.
Proof. intros H. unfold not_. now rewrite H. Qed.

Lemma bind_lift_ok {A B} (a : A) (k : A -> M B) (w : World) :
  bind (lift (Ok a)) k w = k a w.
Proof. reflexivity. Qed.

Lemma bind_read {A B} (f : World -> A) (k : A -> M B) (w : World) :
  bind (read f) k w = k (f w) w.
Proof. reflexivity. Qed.

Lemma bind_lift_gen {A B} (o : outcome A) (k : A -> M B) (w : World) :
  bind (lift o) k w
  = match o with Ok a => k a w | Throw e => (Throw e, w) end.
Proof. destruct o; reflexivity. Qed.

Lemma bind_log {B} (parts : list value) (k : unit -> M B) (w : World) :
  bind (log parts) k w
  = match texts parts with Ok _ => k tt w | Throw e => (Throw e, w) end.
Proof. unfold bind, log. destruct (texts parts); reflexivity. Qed.

Lemma texts_status (orderId : string) (st : value) :
  texts [VStr orderId; st]
  = match to_string st with
    | Ok t => Ok [orderId; t]
    | Throw e => Throw e
    end.
Proof. cbn [texts to_string obind]. destruct (to_string st); reflexivity. Qed.

(** C5, with the input where it fails. For every status-update
    request that carries the admin key and a status outside [pending,
    preparing, delivering, delivered, cancelled], neither endpoint
    issues a storage call or changes the process, and the admin
    endpoint answers 400. The bot endpoint answers 400 only when the
    status converts to text: it interpolates the status into a log
    line before it checks it, so a status that does not convert is
    answered 500. *)
Theorem invalid_status_is_rejected_before_any_write
        (env : Env) (req : Request) (w : World) (st : value) :
  header (headers req) "x-admin-api-key" = Some (ADMIN_API_KEY env) ->
  get (body req) "status" = Ok st ->
  includes validStatuses st = false ->
  admin_update_status env req w = (Ok invalid_status, w)
  /\ bot_update_status env req w
     = (Ok (if textual st then invalid_status
            else failure 500 "Ошибка сервера"), w)
  /\ status invalid_status = 400%Z
  /\ status (failure 500 "Ошибка сервера") = 500%Z.
Proof.
  intros Hk Hs Hv. repeat split.
  - unfold admin_update_status, try_catch, validateAdminApiKey. rewrite Hk.
    rewrite String.eqb_refl. cbn [negb].
    unfold bind at 1, lift. rewrite Hs, Hv. reflexivity.
  - unfold bot_update_status, try_catch. rewrite Hk.
    rewrite ADMIN_API_KEY_nonempty, String.eqb_refl. cbn [orb negb].
    rewrite bind_lift_gen, Hs, bind_log, texts_status.
    unfold textual. destruct (to_string st); [|reflexivity].
    rewrite Hv. reflexivity.
Qed.

(** The status [{toString: 1}] sent with the key of the reference
    environment, the store connected: 400 from the admin endpoint,
    500 from the bot endpoint. *)
Lemma invalid_status_is_rejected_before_any_write_witness :
  let req := Demo.admin_request "1" (VObj [("status", unprintable_status)]) in
  admin_update_status Demo.env req (Demo.started true)
    = (Ok invalid_status, Demo.started true)
  /\ bot_update_status Demo.env req (Demo.started true)
     = (Ok (failure 500 "Ошибка сервера"), Demo.started true)
  /\ status invalid_status = 400%Z
  /\ status (failure 500 "Ошибка сервера") = 500%Z.
Proof.
  exact (invalid_status_is_rejected_before_any_write
           Demo.env
           (Demo.admin_request "1" (VObj [("status", unprintable_status)]))
           (Demo.started true) unprintable_status eq_refl eq_refl eq_refl).
Defined.




Lemma rejected_credential_gives_null (env : Env) (req : Request) :
  credential_rejected env req = true -> getUserIdFromToken env req = VNull.
Proof.
  unfold credential_rejected, getUserIdFromToken.
  destruct (header (headers req) "authorization") as [h|]; [|reflexivity].
  destruct (String.eqb h ""); [reflexivity|]. cbn [orb].
  destruct (String.prefix "Bearer " h); [|reflexivity]. cbn [negb orb].
  destruct (String.eqb (nth 1 (split_space h) "") ""); [reflexivity|].
  cbn [orb].
  destruct (jwt_verify env (nth 1 (split_space h) "") (JWT_SECRET env));
    [discriminate|reflexivity].
Qed.

(** C9. For every [GET /users/me/orders] request whose bearer
    credential is missing or invalid, the answer is 401 and the process
    is left as it was: no query is issued to the store. *)
Theorem order_history_requires_credential
        (env : Env) (req : Request) (w : World) :
  credential_rejected env req = true ->
  user_orders env req w
  = (Ok (respond 401 (VObj [("error", VStr "Требуется авторизация")])), w).
Proof.
  intros H. unfold user_orders, try_catch.
  rewrite (rejected_credential_gives_null env req H). reflexivity.
Qed.

(** A token the verifier of the reference environment rejects. *)
Lemma order_history_requires_credential_witness :
  let req := {| headers := [("authorization", "Bearer forged")];
                param_id := ""; body := VUndefined |} in
  user_orders Demo.env req (Demo.started true)
  = (Ok (respond 401 (VObj [("error", VStr "Требуется авторизация")])),
     Demo.started true).
Proof.
  exact (order_history_requires_credential
           Demo.env
           {| headers := [("authorization", "Bearer forged")];
              param_id := ""; body := VUndefined |}
           (Demo.started true) eq_refl).
Defined.

(** ** What a computation leaves alone *)

Lemma same_store_refl (w : World) : same_store w w.
Proof. repeat split. Qed.

Lemma same_store_trans (w1 w2 w3 : World) :
  same_store w1 w2 -> same_store w2 w3 -> same_store w1 w3.
Proof.
  intros (A1 & A2 & A3 & A4) (B1 & B2 & B3 & B4).
  repeat split; congruence.
Qed.

Lemma local_ret {A} (a : A) : local (ret a).
Proof. intros w. apply same_store_refl. Qed.

Lemma local_lift {A} (o : outcome A) : local (lift o).
Proof. intros w. apply same_store_refl. Qed.

Lemma local_log (parts : list value) : local (log parts).
Proof. intros w. apply same_store_refl. Qed.

Lemma local_now (env : Env) : local (now env).
Proof. intros w. repeat split. Qed.

Lemma local_post (env : Env) (u : string) (d : value) (t : Z) :
  local (post env u d t).
Proof. intros w. repeat split. Qed.

Lemma local_bind {A B} (m : M A) (k : A -> M B) :
  local m -> (forall a, local (k a)) -> local (bind m k).
Proof.
  intros Hm Hk w. unfold bind. specialize (Hm w).
  destruct (m w) as [[a|e] w1]; cbn [snd] in *; [|exact Hm].
  eapply same_store_trans; [exact Hm|apply Hk].
Qed.

Lemma local_try {A} (m : M A) (h : exn -> M A) :
  local m -> (forall e, local (h e)) -> local (try_catch m h).
Proof.
  intros Hm Hh w. unfold try_catch. specialize (Hm w).
  destruct (m w) as [[a|e] w1]; cbn [snd] in *; [exact Hm|].
  eapply same_store_trans; [exact Hm|apply Hh].
Qed.

Ltac frame :=
  repeat first
    [ apply local_ret | apply local_lift | apply local_now | apply local_post
    | apply local_log
    | apply local_bind; [|intro]
    | apply local_try; [|intro]
    | progress cbv zeta
    | match goal with
      | |- local (if ?b then _ else _) => destruct b
      | |- local (match ?x with _ => _ end) => destruct x
      end ].

(** A [try] whose handler returns always returns. *)
Lemma try_catch_returns {A} (m : M A) (a0 : A) (w : World) :
  exists a, fst (try_catch m (fun _ => ret a0) w) = Ok a.
Proof.
  unfold try_catch. destruct (m w) as [[a|e] w1]; cbn; eauto.
Qed.

(** [sendTelegramNotification] never throws: whatever it is given and
    whatever the HTTP client does, it returns a value. *)
Lemma sendTelegramNotification_returns (env : Env) (od : value) (w : World) :
  exists v, fst (sendTelegramNotification env od w) = Ok v.
Proof.
  unfold sendTelegramNotification. unfold bind at 1.
  cbn [enter_notification]. apply try_catch_returns.
Qed.

(** [sendTelegramNotification] records its invocation and leaves the
    storage side alone. *)
Lemma sendTelegramNotification_world (env : Env) (od : value) (w : World) :
  let w' := snd (sendTelegramNotification env od w) in
  isDatabaseConnected w' = isDatabaseConnected w
  /\ pool w' = pool w
  /\ db_log w' = db_log w
  /\ notified w' = (notified w ++ [od])%list.
Proof.
  unfold sendTelegramNotification. unfold bind at 1.
  cbn [enter_notification].
  match goal with
  | |- context [try_catch ?m ?h ?w1] =>
      assert (L : local (try_catch m h)) by frame;
      destruct (L w1) as (L1 & L2 & L3 & L4)
  end.
  cbv zeta. repeat split; assumption.
Qed.

(** ** Computations that issue no storage call *)

Lemma storeless_ret {A} (a : A) : storeless (ret a).
Proof. intros w. reflexivity. Qed.

Lemma storeless_lift {A} (o : outcome A) : storeless (lift o).
Proof. intros w. reflexivity. Qed.

Lemma storeless_log (parts : list value) : storeless (log parts).
Proof. intros w. reflexivity. Qed.

Lemma storeless_read {A} (f : World -> A) : storeless (read f).
Proof. intros w. reflexivity. Qed.

Lemma storeless_now (env : Env) : storeless (now env).
Proof. intros w. reflexivity. Qed.

Lemma storeless_post (env : Env) (u : string) (d : value) (t : Z) :
  storeless (post env u d t).
Proof. intros w. reflexivity. Qed.

Lemma storeless_bind {A B} (m : M A) (k : A -> M B) :
  storeless m -> (forall a, storeless (k a)) -> storeless (bind m k).
Proof.
  intros Hm Hk w. unfold bind. specialize (Hm w).
  destruct (m w) as [[a|e] w1]; cbn [snd] in *; [|exact Hm].
  now rewrite (Hk a w1).
Qed.

Lemma storeless_try {A} (m : M A) (h : exn -> M A) :
  storeless m -> (forall e, storeless (h e)) -> storeless (try_catch m h).
Proof.
  intros Hm Hh w. unfold try_catch. specialize (Hm w).
  destruct (m w) as [[a|e] w1]; cbn [snd] in *; [exact Hm|].
  now rewrite (Hh e w1).
Qed.

Lemma storeless_sendTelegramNotification (env : Env) (od : value) :
  storeless (sendTelegramNotification env od).
Proof.
  intros w. apply (sendTelegramNotification_world env od w).
Qed.

Ltac mute :=
  repeat first
    [ apply storeless_ret | apply storeless_lift | apply storeless_log
    | apply storeless_read | apply storeless_now | apply storeless_post
    | apply storeless_sendTelegramNotification
    | apply storeless_bind; [|intro]
    | apply storeless_try; [|intro]
    | progress cbv zeta
    | match goal with
      | |- storeless (match ?x with _ => _ end) => destruct x
      end ].


Lemma storeless_notify_mock (env : Env) (f : order_fields) (o : value) :
  storeless (notify_mock env f o).
Proof. unfold notify_mock. mute. Qed.


(** ** Computations that stop at a rejected storage call *)








(** ** Mock mode on items it can price *)

Lemma map_o_all (P : value -> bool) (f : value -> outcome value)
      (g : value -> value) (l : list value) :
  (forall item, P item = true -> f item = Ok (g item)) ->
  forallb P l = true ->
  map_o f l = Ok (map g l).
Proof.
  intros Hf. induction l as [|item l IH]; intros Hl; [reflexivity|].
  simpl in Hl. apply andb_prop in Hl. destruct Hl as [Hi Hl].
  simpl. now rewrite (Hf item Hi), (IH Hl).
Qed.












(** ** The answer of an order submission *)

Lemma notify_persisted_returns (env : Env) (f : order_fields) (fullOrder : value)
      (w : World) :
  fst (notify_persisted env f fullOrder w) = Ok tt.
Proof.
  unfold notify_persisted, try_catch.
  match goal with
  | |- fst (match ?m with _ => _ end) = _ => destruct m as [[[]|e] w1]
  end; reflexivity.
Qed.

Lemma notify_mock_returns (env : Env) (f : order_fields) (mockOrder : value)
      (w : World) :
  fst (notify_mock env f mockOrder w) = Ok tt.
Proof.
  unfold notify_mock, try_catch.
  match goal with
  | |- fst (match ?m with _ => _ end) = _ => destruct m as [[[]|e] w1]
  end; reflexivity.
Qed.

(** The persist path answers from its storage phase alone. *)
Lemma create_order_persist_answer (env : Env) (userId : value)
      (f : order_fields) (w : World) :
  fst (create_order_persist env userId f w) = Ok (persist_answer env userId f w).
Proof.
  unfold create_order_persist, persist_answer, try_catch.
  unfold bind at 1.
  destruct (persist_order env userId f w) as [[fullOrder|e] w0]; [|reflexivity].
  unfold bind at 1.
  pose proof (notify_persisted_returns env f fullOrder w0) as Hn.
  destruct (notify_persisted env f fullOrder w0) as [r w1].
  cbn [fst] in Hn. subst r. unfold lift.
  destruct (persisted_response fullOrder); reflexivity.
Qed.


(** Mock mode answers from the items and the clock alone. *)
Lemma create_order_mock_answer (env : Env) (f : order_fields) (w : World) :
  fst (create_order_mock env f w) = mock_answer env f w.
Proof.
  unfold create_order_mock, mock_answer.
  unfold bind at 1. cbn [now].
  unfold bind at 1. cbn [now ticks].
  unfold bind at 1, lift.
  destruct (array_elems (items f) "reduce") as [l|e]; [|reflexivity].
  cbn [obind]. unfold bind at 1.
  destruct (mock_order f l (clock env (ticks w)) (clock env (S (ticks w))))
    as [order|e]; [|reflexivity].
  cbn [obind]. unfold bind at 1.
  match goal with
  | |- context [notify_mock ?e ?f ?o ?w0] =>
      pose proof (notify_mock_returns e f o w0) as Hn;
      destruct (notify_mock e f o w0) as [r w1]
  end.
  cbn [fst] in Hn. subst r. reflexivity.
Qed.

(** The answer of [POST /orders], read off everything but the HTTP
    client. *)
Lemma create_order_answer (env : Env) (req : Request) (w : World) :
  fst (create_order env req w)
  = let userId := getUserIdFromToken env req in
    if not_ userId then Ok (failure 401 "Требуется авторизация")
    else match destructure (body req) with
         | Throw _ => Ok (failure 500 "Ошибка сервера")
         | Ok f =>
             if not_ (restaurant_id f) || not_ (items f) || not_ (delivery_address f)
             then Ok (failure 400 required_fields_message)
             else if isDatabaseConnected w && pool w
                  then Ok (persist_answer env userId f w)
                  else match mock_answer env f w with
                       | Ok r => Ok r
                       | Throw _ => Ok (failure 500 "Ошибка сервера")
                       end
         end.
Proof.
  cbv zeta. unfold create_order, try_catch.
  destruct (not_ (getUserIdFromToken env req)); [reflexivity|].
  unfold bind at 1, lift.
  destruct (destructure (body req)) as [f|e]; [|reflexivity].
  destruct (not_ (restaurant_id f) || not_ (items f) || not_ (delivery_address f));
    [reflexivity|].
  unfold bind at 1, read. unfold bind at 1.
  destruct (isDatabaseConnected w && pool w).
  - pose proof (create_order_persist_answer env (getUserIdFromToken env req) f w) as H.
    destruct (create_order_persist env (getUserIdFromToken env req) f w) as [r w1].
    cbn [fst] in H. subst r. reflexivity.
  - pose proof (create_order_mock_answer env f w) as H.
    destruct (create_order_mock env f w) as [r w1].
    cbn [fst] in H. subst r.
    destruct (mock_answer env f w); reflexivity.
Qed.

(** ** A storage call that fails *)




(** ** The answer does not depend on the notification *)

(** C7. For every [POST /orders] request and every state of the
    process, the status and body of the answer are the same whatever
    the HTTP client does with the notification (succeeds, times out,
    is refused): two processes that differ only in the client give the
    same answer. *)
Theorem notification_outcome_does_not_change_the_answer
        (env : Env)
        (client1 client2 : list http_call -> http_call -> outcome value)
        (req : Request) (w : World) :
  fst (create_order (with_axios env client1) req w)
  = fst (create_order (with_axios env client2) req w).
Proof.
  rewrite !create_order_answer. reflexivity.
Qed.

(** The validated pizza request with a client that answers and with one
    that times out: the answers are equal, although only the first
    process gets the message through. *)
Example answer_with_and_without_telegram :
  let up := with_axios Demo.env Demo.telegram_ok in
  let down := with_axios Demo.env Demo.telegram_down in
  let req := Demo.order_request Demo.pizza in
  fst (create_order up req (Demo.started true))
  = fst (create_order down req (Demo.started true))
  /\ List.length (http_log (snd (create_order down req (Demo.started true)))) = 1%nat
  /\ obind (fst (create_order down req (Demo.started true)))
           (fun resp => Ok (status resp)) = Ok 200%Z.
Proof.
  vm_compute. repeat split; reflexivity.
Qed.

(** ** The admin status update without a store *)

(** C8, at the input where it fails. [PUT /admin/orders/1/status] with
    the admin key and the status [preparing], while the store is
    unavailable (no pool, flag off), is answered 500, not 503: the
    handler has no availability check and reads [pool.query] of an
    undefined pool. *)
Theorem admin_status_update_without_store_is_500 :
  admin_update_status Demo.env
    (Demo.admin_request "1" (VObj [("status", VStr "preparing")]))
    (Demo.started false)
  = (Ok (failure 500 "Ошибка сервера"), Demo.started false).
Proof.
  vm_compute. reflexivity.
Qed.

(** ** Further properties of the handlers *)

Lemma count_line_countable (acc : float * float) (item : value) :
  countable item = true ->
  count_line acc item
  = Ok (add (fst acc) (mul (resolved_price_two item) (resolved_quantity item)),
        add (snd acc) (resolved_quantity item)).
Proof.
  intros H. unfold count_line.
  rewrite (price_of_two_countable _ H), (quantity_of_countable _ H).
  reflexivity.
Qed.

Lemma count_fold (l : list value) :
  forallb countable l = true ->
  forall acc : float * float,
    fold_o count_line l acc
    = Ok (fold_left (fun t item =>
                       add t (mul (resolved_price_two item) (resolved_quantity item)))
                    l (fst acc),
          fold_left (fun n item => add n (resolved_quantity item)) l (snd acc)).
Proof.
  induction l as [|item l IH]; intros Hl acc.
  - now destruct acc.
  - simpl in Hl. apply andb_prop in Hl. destruct Hl as [Hi Hl].
    simpl. rewrite (count_line_countable acc item Hi). cbn [obind].
    now rewrite (IH Hl).
Qed.

Lemma fold_left_agree (p1 p2 : value -> float) (q : value -> float)
      (l : list value) :
  Forall (fun item => p1 item = p2 item) l ->
  forall t,
    fold_left (fun t item => add t (mul (p1 item) (q item))) l t
    = fold_left (fun t item => add t (mul (p2 item) (q item))) l t.
Proof.
  induction 1 as [|item l Hi _ IH]; intros t; [reflexivity|].
  simpl. now rewrite Hi, IH.
Qed.

(** X1. The persisted total and the notification total agree on every
    list of items that can be read, whose price and quantity fields
    convert to text and none of which is priced by the third alias
    [dishPrice]. *)
Theorem totals_agree_without_third_alias (l : list value) :
  forallb priced l = true ->
  Forall (fun item => resolved_price item = resolved_price_two item) l ->
  order_total (VArr l) = notification_total (VArr l).
Proof.
  intros Hl Hp.
  unfold order_total. rewrite (pricing_loop_priced l Hl). cbn [obind fst].
  unfold notification_total, notification_totals. cbn [array_elems obind].
  rewrite (count_fold l (forallb_priced_countable l Hl)). cbn [obind fst].
  unfold sum_lines. now rewrite (fold_left_agree _ _ _ l Hp).
Qed.

(** The two lines of the pricing example: both totals are 81. *)
Lemma totals_agree_without_third_alias_witness :
  order_total (VArr Demo.two_lines) = notification_total (VArr Demo.two_lines).
Proof.
  apply (totals_agree_without_third_alias Demo.two_lines eq_refl).
  repeat constructor.
Defined.
(** X2. Both dish endpoints answer 503 when called with the admin key
    and a body that passes their field check while the store is flagged
    unavailable, and issue no storage call. *)
Theorem dish_mutations_answer_503_without_store
        (env : Env) (req : Request) (w : World) :
  validateAdminApiKey env req = true ->
  isDatabaseConnected w && pool w = false ->
  (toBoolean (body req) = true -> keys_length (body req) <> 0%nat ->
   update_dish env req w = (Ok (failure 503 "База данных недоступна"), w))
  /\ (readable (body req) = true ->
      toBoolean (field (body req) "restaurant_id") = true ->
      toBoolean (field (body req) "name") = true ->
      toBoolean (field (body req) "price") = true ->
      fst (create_dish env req w)
      = Ok (respond 503 (VObj [("success", VBool false);
                               ("error", VStr "База данных недоступна");
                               ("mode", VStr "mock")]))
      /\ snd (create_dish env req w) = w).
Proof.
  intros Hk Hc.
  assert (Hd : negb (isDatabaseConnected w) || negb (pool w) = true).
  { rewrite <- negb_andb. now rewrite Hc. }
  split.
  - intros Hb Hn. unfold update_dish, try_catch. rewrite Hk. cbn [negb].
    rewrite (not_truthy _ Hb). apply Nat.eqb_neq in Hn. rewrite Hn. cbn [orb].
    unfold bind at 1, read. unfold bind at 1. now rewrite Hd.
  - intros Hr H1 H2 H3. unfold create_dish, try_catch. rewrite Hk. cbn [negb].
    rewrite !(get_readable (body req) _ Hr). rewrite !bind_lift_ok.
    rewrite (not_truthy _ H1), (not_truthy _ H2), (not_truthy _ H3). cbn [orb].
    rewrite !bind_read, Hd. split; reflexivity.
Qed.

(** A price change and a new dish, sent with the key of the reference
    environment while the store is unavailable. *)
Lemma dish_mutations_answer_503_without_store_witness :
  update_dish Demo.env (Demo.admin_request "3" (VObj [("price", VStr "450")]))
              (Demo.started false)
  = (Ok (failure 503 "База данных недоступна"), Demo.started false)
  /\ fst (create_dish Demo.env
            (Demo.admin_request ""
               (VObj [("restaurant_id", Demo.num 1); ("name", VStr "Soup");
                      ("price", VStr "450")]))
            (Demo.started false))
     = Ok (respond 503 (VObj [("success", VBool false);
                              ("error", VStr "База данных недоступна");
                              ("mode", VStr "mock")])).
Proof.
  split.
  - apply (proj1 (dish_mutations_answer_503_without_store
                    Demo.env
                    (Demo.admin_request "3" (VObj [("price", VStr "450")]))
                    (Demo.started false) eq_refl eq_refl)).
    + reflexivity.
    + discriminate.
  - apply (proj2 (dish_mutations_answer_503_without_store
                    Demo.env
                    (Demo.admin_request ""
                       (VObj [("restaurant_id", Demo.num 1); ("name", VStr "Soup");
                              ("price", VStr "450")]))
                    (Demo.started false) eq_refl eq_refl));
      reflexivity.
Defined.

(** A worked example: the scenario of the specification on the persist
    path, against a store that keeps what it is sent. The order comes
    back with total 1398, one item and the status [pending]. *)
Theorem pizza_scenario_on_the_persist_path :
  let r := fst (create_order Demo.env (Demo.order_request Demo.pizza)
                             (Demo.started true)) in
  let order := obind r (fun resp => Ok (field (json resp) "order")) in
  obind r (fun resp => Ok (status resp)) = Ok 200%Z
  /\ obind order (fun o => Ok (field o "total_amount")) = Ok (VNum 1398%float)
  /\ obind order (fun o => Ok (field o "status")) = Ok (VStr "pending")
  /\ obind order (fun o => Ok (keys_length (field o "items"))) = Ok 1%nat.
Proof.
  vm_compute. repeat split; reflexivity.
Qed.

(** X5. [PUT /admin/orders/:id/status] with the admin key and a status
    of the fixed set, in a process that holds no pool, is answered 500
    whatever the request and the flag are: the handler reads
    [pool.query] without a check. *)
Theorem admin_status_update_without_pool
        (env : Env) (req : Request) (w : World) (st : value) :
  validateAdminApiKey env req = true ->
  get (body req) "status" = Ok st ->
  includes validStatuses st = true ->
  pool w = false ->
  admin_update_status env req w = (Ok (failure 500 "Ошибка сервера"), w).
Proof.
  intros Hk Hs Hv Hp. unfold admin_update_status, try_catch.
  rewrite Hk, Hs. cbn [negb]. rewrite bind_lift_ok, Hv. cbn [negb].
  unfold bind at 1, query. now rewrite Hp.
Qed.

(** The status [delivered] for order 12, no pool. *)
Lemma admin_status_update_without_pool_witness :
  admin_update_status Demo.env
    (Demo.admin_request "12" (VObj [("status", VStr "delivered")]))
    (Demo.started false)
  = (Ok (failure 500 "Ошибка сервера"), Demo.started false).
Proof.
  exact (admin_status_update_without_pool
           Demo.env
           (Demo.admin_request "12" (VObj [("status", VStr "delivered")]))
           (Demo.started false) (VStr "delivered")
           eq_refl eq_refl eq_refl eq_refl).
Defined.

(* ================================================================== *)
(** * More about the handlers *)
(* ================================================================== *)

(** ** Order creation as a whole *)

Lemma persist_answer_status (env : Env) (userId : value) (f : order_fields)
      (w : World) :
  In (status (persist_answer env userId f w)) order_statuses
  /\ success_matches_status (persist_answer env userId f w) = true.
Proof.
  unfold persist_answer.
  destruct (persist_order env userId f w) as [[fullOrder|e] w0].
  - unfold persisted_response.
    repeat match goal with
           | |- context [obind ?o _] =>
               destruct o; cbn [obind]; [|split; [cbn; tauto|reflexivity]]
           end.
    split; [cbn; tauto|reflexivity].
  - split; [cbn; tauto|reflexivity].
Qed.

(** X6. [POST /orders] always answers, whatever it is sent and whatever
    its collaborators do: no exception leaves the handler, the status is
    one of 200, 400, 401, 500, and the body's [success] field is [true]
    exactly when the status is 200. *)
Theorem create_order_always_answers (env : Env) (req : Request) (w : World) :
  exists r, fst (create_order env req w) = Ok r
            /\ In (status r) order_statuses
            /\ success_matches_status r = true.
Proof.
  rewrite create_order_answer. cbv zeta.
  destruct (not_ (getUserIdFromToken env req)).
  { eexists. split; [reflexivity|]. split; [cbn; tauto|reflexivity]. }
  destruct (destructure (body req)) as [f|e].
  2:{ eexists. split; [reflexivity|]. split; [cbn; tauto|reflexivity]. }
  destruct (not_ (restaurant_id f) || not_ (items f) || not_ (delivery_address f)).
  { eexists. split; [reflexivity|]. split; [cbn; tauto|reflexivity]. }
  destruct (isDatabaseConnected w && pool w).
  - eexists. split; [reflexivity|]. apply persist_answer_status.
  - unfold mock_answer.
    destruct (array_elems (items f) "reduce") as [l|e]; cbn [obind].
    2:{ eexists. split; [reflexivity|]. split; [cbn; tauto|reflexivity]. }
    destruct (mock_order f l (clock env (ticks w)) (clock env (S (ticks w))))
      as [o|e]; cbn [obind].
    + eexists. split; [reflexivity|]. split; [cbn; tauto|reflexivity].
    + eexists. split; [reflexivity|]. split; [cbn; tauto|reflexivity].
Qed.

(** X7. An identity is resolved only from a verified token: whenever
    [getUserIdFromToken] returns a truthy id, the request carries an
    [authorization] header that starts with [Bearer ], the verifier
    accepted the text between the first and the second space under
    [JWT_SECRET], and the id is the [id] of the payload it returned. *)
Theorem identity_comes_from_a_verified_token (env : Env) (req : Request) :
  toBoolean (getUserIdFromToken env req) = true ->
  exists h payload,
    header (headers req) "authorization" = Some h
    /\ String.prefix "Bearer " h = true
    /\ jwt_verify env (nth 1 (split_space h) "") (JWT_SECRET env) = Ok payload
    /\ getUserIdFromToken env req = field payload "id".
Proof.
  unfold getUserIdFromToken.
  destruct (header (headers req) "authorization") as [h|]; [|discriminate].
  destruct (String.eqb h ""); [discriminate|]. cbn [orb].
  destruct (String.prefix "Bearer " h) eqn:Hp; [|discriminate]. cbn [negb].
  destruct (String.eqb (nth 1 (split_space h) "") ""); [discriminate|].
  destruct (jwt_verify env (nth 1 (split_space h) "") (JWT_SECRET env))
    as [payload|e] eqn:Hv; [|discriminate].
  intros H. exists h, payload.
  split; [reflexivity|]. split; [exact Hp|]. split; [exact Hv|].
  destruct payload; try discriminate; reflexivity.
Qed.

(** The token of the reference environment resolves user 7. *)
Lemma identity_comes_from_a_verified_token_witness :
  exists h payload,
    header (headers (Demo.order_request Demo.pizza)) "authorization" = Some h
    /\ String.prefix "Bearer " h = true
    /\ jwt_verify Demo.env (nth 1 (split_space h) "") (JWT_SECRET Demo.env)
       = Ok payload
    /\ getUserIdFromToken Demo.env (Demo.order_request Demo.pizza)
       = field payload "id".
Proof.
  exact (identity_comes_from_a_verified_token
           Demo.env (Demo.order_request Demo.pizza) eq_refl).
Defined.




(** ** What the persist path writes *)

Lemma logged_nil (w : World) : logged w [] = w.
Proof. unfold logged. rewrite app_nil_r. now destruct w. Qed.

Lemma logged_app (w : World) (a b : list db_call) :
  logged (logged w a) b = logged w (a ++ b).
Proof. unfold logged. cbn. now rewrite app_assoc. Qed.

Lemma query_answered (env : Env) (s : statement) (ps : list value)
      (w : World) (rows : list value) :
  pool w = true ->
  pool_query env (db_log w) (DbCall s ps) = Ok rows ->
  query env s ps w = (Ok rows, logged w [DbCall s ps]).
Proof.
  intros Hp Hq. unfold query, logged. rewrite Hq.
  destruct (pool w); [reflexivity|discriminate].
Qed.

(** The loop that stores the lines, against a store that answers. *)
Lemma insert_lines_run (env : Env) (order : value) (lines : list order_item) :
  readable order = true ->
  answers env InsertOrderItem ->
  forall w, pool w = true ->
    for_each (insert_item env order) lines w
    = (Ok tt, logged w (map (item_call (field order "id")) lines)).
Proof.
  intros Hr Ha. induction lines as [|line lines IH]; intros w Hp.
  - cbn [for_each map ret]. now rewrite logged_nil.
  - cbn [for_each map]. unfold bind at 1. unfold insert_item at 1.
    rewrite (get_readable order "id" Hr). rewrite bind_lift_ok.
    unfold bind at 1.
    destruct (Ha (db_log w)
                 [field order "id"; oi_dish_id line; oi_dish_name line;
                  oi_dish_price line; oi_quantity line; oi_dish_image line])
      as [rows Hrows].
    rewrite (query_answered env _ _ w rows Hp Hrows). cbn [ret].
    fold (item_call (field order "id") line).
    rewrite (IH (logged w [item_call (field order "id") line]) Hp).
    now rewrite logged_app.
Qed.

(** The storage phase of the persist path against a store that answers
    the inserts and returns [rows] for the composite read. *)
Lemma persist_order_rows (env : Env) (userId : value) (f : order_fields)
      (l : list value) (w : World) (order : value) (more rows : list value) :
  pool w = true ->
  items f = VArr l ->
  forallb priced l = true ->
  pool_query env (db_log w)
    (DbCall InsertOrder
       (insert_order_params userId f
          (sum_lines resolved_price resolved_quantity l)))
  = Ok (order :: more) ->
  readable order = true ->
  answers env InsertOrderItem ->
  pool_query env
    (db_log w
       ++ DbCall InsertOrder
            (insert_order_params userId f
               (sum_lines resolved_price resolved_quantity l))
       :: map (line_call (field order "id")) l)%list
    (DbCall SelectFullOrder [field order "id"])
  = Ok rows ->
  persist_order env userId f w
  = (Ok (nth 0 rows VUndefined),
     logged w (persist_trace userId f l (field order "id"))).
Proof.
  intros Hp Hi Hl Hins Hr Hlines Hrows.
  unfold persist_order. rewrite Hi, (pricing_loop_priced l Hl).
  rewrite bind_lift_ok. cbn [fst snd].
  unfold bind at 1. rewrite (query_answered env _ _ w _ Hp Hins). cbn [nth].
  unfold bind at 1.
  rewrite (insert_lines_run env order (map persisted_line l) Hr Hlines
             (logged w [DbCall InsertOrder
                          (insert_order_params userId f
                             (sum_lines resolved_price resolved_quantity l))])
             Hp).
  rewrite map_map. fold (line_call (field order "id")).
  rewrite (get_readable order "id" Hr), bind_lift_ok.
  rewrite logged_app. unfold bind at 1.
  match goal with
  | |- context [query env SelectFullOrder ?ps ?w0] =>
      rewrite (query_answered env SelectFullOrder ps w0 rows Hp)
  end.
  - cbn [ret]. rewrite logged_app. unfold persist_trace.
    now rewrite <- app_assoc.
  - cbn [logged db_log]. exact Hrows.
Qed.

(** The same against a store that answers every composite read. *)
Lemma persist_order_run (env : Env) (userId : value) (f : order_fields)
      (l : list value) (w : World) (order : value) (more : list value) :
  pool w = true ->
  items f = VArr l ->
  forallb priced l = true ->
  pool_query env (db_log w)
    (DbCall InsertOrder
       (insert_order_params userId f
          (sum_lines resolved_price resolved_quantity l)))
  = Ok (order :: more) ->
  readable order = true ->
  answers env InsertOrderItem ->
  answers env SelectFullOrder ->
  exists rows,
    persist_order env userId f w
    = (Ok (nth 0 rows VUndefined),
       logged w (persist_trace userId f l (field order "id")))
    /\ pool_query env
         (db_log w
            ++ DbCall InsertOrder
                 (insert_order_params userId f
                    (sum_lines resolved_price resolved_quantity l))
            :: map (line_call (field order "id")) l)%list
         (DbCall SelectFullOrder [field order "id"])
       = Ok rows.
Proof.
  intros Hp Hi Hl Hins Hr Hlines Hsel.
  destruct (Hsel (db_log w
                    ++ DbCall InsertOrder
                         (insert_order_params userId f
                            (sum_lines resolved_price resolved_quantity l))
                    :: map (line_call (field order "id")) l)%list
                 [field order "id"]) as [rows Hrows].
  exists rows. split; [|exact Hrows].
  exact (persist_order_rows env userId f l w order more rows
           Hp Hi Hl Hins Hr Hlines Hrows).
Qed.

(** X9. When the store answers, and the items can be read and their
    price and quantity fields convert to text, the persist path of
    [POST /orders] issues exactly these calls, in this order: the
    header insert, whose total is the sum of the priced lines; one line
    insert per submitted item, in the order submitted, each under the
    id of the header row; and the composite read of that id. *)
Theorem persist_path_writes_header_lines_and_reads_back
        (env : Env) (userId : value) (f : order_fields)
        (l : list value) (w : World) (order : value) (more : list value) :
  pool w = true ->
  items f = VArr l ->
  forallb priced l = true ->
  pool_query env (db_log w)
    (DbCall InsertOrder
       (insert_order_params userId f
          (sum_lines resolved_price resolved_quantity l)))
  = Ok (order :: more) ->
  readable order = true ->
  answers env InsertOrderItem ->
  answers env SelectFullOrder ->
  db_log (snd (persist_order env userId f w))
  = (db_log w ++ persist_trace userId f l (field order "id"))%list
  /\ List.length (persist_trace userId f l (field order "id"))
     = (List.length l + 2)%nat.
Proof.
  intros Hp Hi Hl Hins Hr Hlines Hsel.
  destruct (persist_order_run env userId f l w order more
              Hp Hi Hl Hins Hr Hlines Hsel) as (rows & Hrun & _).
  rewrite Hrun. split; [reflexivity|].
  unfold persist_trace. cbn [List.length].
  rewrite length_app, length_map. cbn [List.length]. lia.
Qed.

(** The two lines of the pricing example against the echoing store. *)
Lemma persist_path_writes_header_lines_and_reads_back_witness :
  let env := with_store Demo.env echo_store in
  let f := {| restaurant_id := Demo.num 1; items := VArr Demo.two_lines;
              delivery_address := VStr "X"; payment_method := VUndefined;
              restaurant_name := VUndefined; restaurant_image := VUndefined;
              customer_name := VUndefined; customer_phone := VUndefined |} in
  db_log (snd (persist_order env (Demo.num 7) f (Demo.started true)))
  = persist_trace (Demo.num 7) f Demo.two_lines (VNum one)
  /\ List.length (persist_trace (Demo.num 7) f Demo.two_lines (VNum one)) = 4%nat.
Proof.
  apply (persist_path_writes_header_lines_and_reads_back
           (with_store Demo.env echo_store) (Demo.num 7)
           {| restaurant_id := Demo.num 1; items := VArr Demo.two_lines;
              delivery_address := VStr "X"; payment_method := VUndefined;
              restaurant_name := VUndefined; restaurant_image := VUndefined;
              customer_name := VUndefined; customer_phone := VUndefined |}
           Demo.two_lines (Demo.started true) (VObj [("id", VNum one)]) []
           eq_refl eq_refl eq_refl eq_refl eq_refl);
    intros log ps; eexists; reflexivity.
Defined.

(** Items given as a text: the pricing loop visits its code points,
    so a text of two Cyrillic letters (four bytes) is stored as two
    lines, between the header and the composite read. *)
Example text_items_are_stored_by_code_point :
  let r := create_order Demo.env (Demo.order_request (VStr "да"))
                        (Demo.started true) in
  map stmt (db_log (snd r))
  = [InsertOrder; InsertOrderItem; InsertOrderItem; SelectFullOrder]
  /\ obind (fst r) (fun resp => Ok (status resp)) = Ok 200%Z.
Proof.
  vm_compute. split; reflexivity.
Qed.

(** X10. The writes of the persist path are not undone by a later
    failure: when the items can be read and their price and quantity
    fields convert to text, and the store answers the inserts but the
    composite read returns no row, [POST /orders] answers 500 although
    the header and every line were written, and the dispatcher is not
    invoked. *)
Theorem order_written_but_answered_500
        (env : Env) (userId : value) (f : order_fields)
        (l : list value) (w : World) (order : value) (more : list value) :
  pool w = true ->
  items f = VArr l ->
  forallb priced l = true ->
  pool_query env (db_log w)
    (DbCall InsertOrder
       (insert_order_params userId f
          (sum_lines resolved_price resolved_quantity l)))
  = Ok (order :: more) ->
  readable order = true ->
  answers env InsertOrderItem ->
  (forall log ps, pool_query env log (DbCall SelectFullOrder ps) = Ok []) ->
  let r := create_order_persist env userId f w in
  fst r = Ok persist_failure
  /\ db_log (snd r) = (db_log w ++ persist_trace userId f l (field order "id"))%list
  /\ notified (snd r) = notified w.
Proof.
  intros Hp Hi Hl Hins Hr Hlines Hnone. cbv zeta.
  assert (E : create_order_persist env userId f w
              = (Ok persist_failure,
                 logged w (persist_trace userId f l (field order "id")))).
  { unfold create_order_persist, try_catch. unfold bind at 1.
    rewrite (persist_order_rows env userId f l w order more []
               Hp Hi Hl Hins Hr Hlines (Hnone _ _)).
    cbn [nth]. unfold bind at 1.
    unfold notify_persisted, try_catch. rewrite Hi.
    unfold notification_totals. cbn [array_elems obind].
    rewrite (count_fold l (forallb_priced_countable l Hl)). rewrite bind_lift_ok.
    unfold bind at 1. cbn [lift get ret]. reflexivity. }
  rewrite E. repeat split.
Qed.

(** The two lines of the pricing example: written, then answered 500. *)
Lemma order_written_but_answered_500_witness :
  let env := with_store Demo.env echo_store in
  let f := {| restaurant_id := Demo.num 1; items := VArr Demo.two_lines;
              delivery_address := VStr "X"; payment_method := VUndefined;
              restaurant_name := VUndefined; restaurant_image := VUndefined;
              customer_name := VUndefined; customer_phone := VUndefined |} in
  let r := create_order_persist env (Demo.num 7) f (Demo.started true) in
  fst r = Ok persist_failure
  /\ db_log (snd r) = persist_trace (Demo.num 7) f Demo.two_lines (VNum one)
  /\ notified (snd r) = [].
Proof.
  apply (order_written_but_answered_500
           (with_store Demo.env echo_store) (Demo.num 7)
           {| restaurant_id := Demo.num 1; items := VArr Demo.two_lines;
              delivery_address := VStr "X"; payment_method := VUndefined;
              restaurant_name := VUndefined; restaurant_image := VUndefined;
              customer_name := VUndefined; customer_phone := VUndefined |}
           Demo.two_lines (Demo.started true) (VObj [("id", VNum one)]) []
           eq_refl eq_refl eq_refl eq_refl eq_refl).
  - intros log ps; eexists; reflexivity.
  - reflexivity.
Defined.

(** ** What the dispatcher does *)

Lemma quiet_ret {A} (a : A) : quiet (ret a).
Proof. intros w. reflexivity. Qed.

Lemma quiet_lift {A} (o : outcome A) : quiet (lift o).
Proof. intros w. reflexivity. Qed.

Lemma quiet_now (env : Env) : quiet (now env).
Proof. intros w. reflexivity. Qed.

Lemma quiet_log (parts : list value) : quiet (log parts).
Proof. intros w. reflexivity. Qed.

Lemma quiet_bind {A B} (m : M A) (k : A -> M B) :
  quiet m -> (forall a, quiet (k a)) -> quiet (bind m k).
Proof.
  intros Hm Hk w. unfold bind. specialize (Hm w).
  destruct (m w) as [[a|e] w1]; cbn [snd] in *; [|exact Hm].
  now rewrite (Hk a w1).
Qed.

Lemma once_quiet {A} (u : string) (t : Z) (m : M A) :
  quiet m -> posts_at_most_once u t m.
Proof. intros H w. left. apply H. Qed.

Lemma once_bind_quiet {A B} (u : string) (t : Z) (m : M A) (k : A -> M B) :
  quiet m -> (forall a, posts_at_most_once u t (k a)) ->
  posts_at_most_once u t (bind m k).
Proof.
  intros Hm Hk w. unfold bind. specialize (Hm w).
  destruct (m w) as [[a|e] w1]; cbn [snd] in *; [|now left].
  rewrite <- Hm. apply Hk.
Qed.

Lemma once_post {B} (env : Env) (u : string) (d : value) (t : Z)
      (k : value -> M B) :
  (forall a, quiet (k a)) ->
  posts_at_most_once u t (bind (post env u d t) k).
Proof.
  intros Hk w. right. exists d. unfold bind, post.
  destruct (axios_post env (http_log w) (HttpCall u d t)) as [a|e];
    [|reflexivity].
  now rewrite (Hk a).
Qed.

Lemma once_try {A} (u : string) (t : Z) (m : M A) (h : exn -> M A) :
  posts_at_most_once u t m -> (forall e, quiet (h e)) ->
  posts_at_most_once u t (try_catch m h).
Proof.
  intros Hm Hh w. unfold try_catch. specialize (Hm w).
  destruct (m w) as [[a|e] w1]; cbn [snd] in *; [exact Hm|].
  now rewrite (Hh e w1).
Qed.

Ltac no_call :=
  repeat first
    [ apply quiet_ret | apply quiet_lift | apply quiet_now | apply quiet_log
    | apply quiet_bind; [|intro]
    | progress cbv zeta
    | match goal with
      | |- quiet (if ?b then _ else _) => destruct b
      end ].

Lemma sendTelegramNotification_posts_once (env : Env) (od : value) :
  posts_at_most_once (telegram_url env) 10000
                     (sendTelegramNotification env od).
Proof.
  intros w. unfold sendTelegramNotification. unfold bind at 1.
  cbn [enter_notification].
  match goal with
  | |- context [try_catch ?m ?h ?w1] =>
      assert (L : posts_at_most_once (telegram_url env) 10000 (try_catch m h));
        [|exact (L w1)]
  end.
  apply once_try; [|intro; apply quiet_ret].
  destruct (not_ (TELEGRAM_BOT_TOKEN env)).
  - apply once_quiet, quiet_ret.
  - repeat match goal with
           | |- posts_at_most_once _ _ (bind (post _ _ _ _) _) =>
               apply once_post; intros ?; apply quiet_lift
           | |- posts_at_most_once _ _ (bind _ _) =>
               apply once_bind_quiet; [solve [no_call]|intros ?]
           | |- posts_at_most_once _ _ (let x := _ in _) => cbv zeta
           end.
Qed.

(** X4. [sendTelegramNotification] is contained: whatever it is given
    and whatever the HTTP client does, it returns a value (no exception
    leaves it), it leaves the storage side of the process alone, and it
    makes at most one HTTP call, to the bot's [sendMessage] URL with a
    timeout of 10000; with no bot token configured it makes none and
    returns [null]. *)
Theorem notification_is_contained (env : Env) (od : value) (w : World) :
  let r := sendTelegramNotification env od w in
  (exists v, fst r = Ok v)
  /\ isDatabaseConnected (snd r) = isDatabaseConnected w
  /\ pool (snd r) = pool w
  /\ db_log (snd r) = db_log w
  /\ (http_log (snd r) = http_log w
      \/ exists d,
          http_log (snd r)
          = (http_log w ++ [HttpCall (telegram_url env) d 10000])%list)
  /\ (toBoolean (TELEGRAM_BOT_TOKEN env) = false ->
      fst r = Ok VNull /\ http_log (snd r) = http_log w).
Proof.
  cbv zeta.
  destruct (sendTelegramNotification_world env od w) as (H1 & H2 & H3 & _).
  split; [apply sendTelegramNotification_returns|].
  split; [exact H1|]. split; [exact H2|]. split; [exact H3|].
  split.
  - apply sendTelegramNotification_posts_once.
  - intros Ht. unfold sendTelegramNotification. unfold bind at 1.
    cbn [enter_notification]. unfold try_catch, not_. rewrite Ht.
    split; reflexivity.
Qed.

Lemma shown_fields (item : value) :
  shown item = true ->
  countable item = true /\ readable item = true
  /\ textual (field item "dishName") = true.
Proof.
  unfold shown. intros H. apply andb_prop in H. destruct H as [Hc Hn].
  repeat split; [exact Hc | | exact Hn].
  now destruct (countable_fields item Hc).
Qed.

Lemma forallb_shown_countable (l : list value) :
  forallb shown l = true -> forallb countable l = true.
Proof.
  induction l as [|item l IH]; [reflexivity|]. simpl. intros H.
  apply andb_prop in H. destruct H as [Hi Hl].
  destruct (shown_fields item Hi) as (Hc & _). now rewrite Hc, IH.
Qed.

Lemma message_line_shown (item : value) :
  shown item = true -> message_line item = Ok (telegram_line item).
Proof.
  intros H. destruct (shown_fields item H) as (Hc & Hr & Hn).
  unfold message_line.
  rewrite (price_of_two_countable _ Hc), (quantity_of_countable _ Hc).
  cbn [obind]. now rewrite (interpolate_textual item "dishName" Hr Hn).
Qed.

Lemma printable_fields (od : value) (l : list value) :
  printable od l = true ->
  readable od = true
  /\ textual (field od "id") = true
  /\ textual (field od "customerName") = true
  /\ textual (field od "customerPhone") = true
  /\ textual (field od "deliveryAddress") = true
  /\ textual (field od "restaurantName") = true
  /\ textual (field od "totalAmount") = true
  /\ textual (field od "itemCount") = true
  /\ forallb shown l = true.
Proof.
  unfold printable. intros H.
  repeat (apply andb_prop in H; destruct H as [H ?]).
  repeat split; assumption.
Qed.

Lemma texts_two (a b : value) :
  textual a = true -> textual b = true ->
  texts [a; b] = Ok [text a; text b].
Proof.
  intros Ha Hb. cbn [texts].
  now rewrite (to_string_textual a Ha), (to_string_textual b Hb).
Qed.

(** The dispatcher on a summary it can print, with a bot token
    configured: one HTTP call, carrying the message. *)
Lemma sendTelegramNotification_message
      (env : Env) (od : value) (l : list value) (w : World) :
  toBoolean (TELEGRAM_BOT_TOKEN env) = true ->
  field od "items" = VArr l ->
  printable od l = true ->
  http_log (snd (sendTelegramNotification env od w))
  = (http_log w ++ [telegram_call env od l (clock env (ticks w))])%list.
Proof.
  intros Ht Hi Hp.
  destruct (printable_fields od l Hp)
    as (Hr & H1 & H2 & H3 & H4 & H5 & H6 & H7 & Hl).
  unfold sendTelegramNotification. unfold bind at 1. cbn [enter_notification].
  unfold try_catch, not_. rewrite Ht. cbn [negb].
  rewrite !(get_readable od _ Hr), Hi.
  rewrite bind_lift_ok. cbn [toBoolean isArray andb array_elems obind].
  rewrite (count_fold l (forallb_shown_countable l Hl)),
    (map_o_all shown message_line telegram_line l message_line_shown Hl).
  rewrite !bind_lift_ok. cbv zeta.
  rewrite !(interpolate_textual od _ Hr) by assumption.
  rewrite !bind_lift_ok.
  rewrite texts_two by (apply textual_or; [assumption | apply textual_num]).
  rewrite bind_lift_ok.
  unfold bind at 1. cbn [now ticks]. rewrite bind_lift_ok.
  unfold bind at 1, post. cbn [http_log fst snd].
  match goal with
  | |- context [axios_post env ?log ?c] => destruct (axios_post env log c) as [resp|e]
  end.
  - unfold lift. destruct (get resp "data"); reflexivity.
  - reflexivity.
Qed.

(** X11. With a bot token configured, [sendTelegramNotification] called
    with a summary it can print (the summary and its items can be
    read, and every value the message template interpolates converts
    to text) makes exactly one HTTP call, and the message it sends
    shows the total and the count passed in when they are truthy and
    the ones recomputed from the items otherwise, followed by one line
    per item in order. *)
Theorem notification_message_content
        (env : Env) (od : value) (l : list value) (w : World) :
  toBoolean (TELEGRAM_BOT_TOKEN env) = true ->
  field od "items" = VArr l ->
  printable od l = true ->
  http_log (snd (sendTelegramNotification env od w))
  = (http_log w ++ [telegram_call env od l (clock env (ticks w))])%list.
Proof.
  exact (sendTelegramNotification_message env od l w).
Qed.

(** The summary the persist path hands over for the pizza scenario. *)
Lemma notification_message_content_witness :
  let l := [VObj [("dishName", VStr "Pizza"); ("quantity", Demo.num 2);
                  ("dish_price", Demo.num 699); ("price", Demo.num 699)]] in
  let od := VObj [("id", Demo.num 1); ("totalAmount", Demo.num 1398);
                  ("itemCount", Demo.num 2); ("items", VArr l)] in
  http_log (snd (sendTelegramNotification Demo.env od (Demo.started true)))
  = [telegram_call Demo.env od l 1793574000000].
Proof.
  exact (notification_message_content
           Demo.env
           (VObj [("id", Demo.num 1); ("totalAmount", Demo.num 1398);
                  ("itemCount", Demo.num 2);
                  ("items",
                   VArr [VObj [("dishName", VStr "Pizza");
                               ("quantity", Demo.num 2);
                               ("dish_price", Demo.num 699);
                               ("price", Demo.num 699)]])])
           [VObj [("dishName", VStr "Pizza"); ("quantity", Demo.num 2);
                  ("dish_price", Demo.num 699); ("price", Demo.num 699)]]
           (Demo.started true) eq_refl eq_refl eq_refl).
Defined.

(** A summary whose customer name cannot be converted to text: the
    message is never sent, and the dispatcher returns [null]. *)
Example unprintable_summary_is_not_sent :
  let od := VObj [("id", Demo.num 1);
                  ("customerName", VObj [("toString", Demo.num 1)]);
                  ("totalAmount", Demo.num 1398); ("itemCount", Demo.num 2);
                  ("items", VArr [])] in
  let r := sendTelegramNotification Demo.env od (Demo.started true) in
  fst r = Ok VNull /\ http_log (snd r) = [].
Proof.
  vm_compute. split; reflexivity.
Qed.

(** ** A quantity that parses to zero *)










(** ** Status updates *)

Lemma includes_text (l : list string) (st : value) :
  includes l st = true -> st = VStr (text st).
Proof. destruct st; try discriminate. reflexivity. Qed.

(** X12. Without a store (flag off or no pool) the bot's status update
    is cosmetic: for every order id, existing or not, and every status
    of the fixed set it answers 200 with [success: true], echoing the
    id and the status with [mode: mock], and no storage or HTTP call is
    made. *)
Theorem bot_status_update_is_cosmetic_without_store
        (env : Env) (req : Request) (w : World) (s : string) :
  header (headers req) "x-admin-api-key" = Some (ADMIN_API_KEY env) ->
  get (body req) "status" = Ok (VStr s) ->
  includes validStatuses (VStr s) = true ->
  isDatabaseConnected w && pool w = false ->
  let r := bot_update_status env req w in
  fst r
  = Ok (respond 200
          (VObj [("success", VBool true);
                 ("message", VStr (status_message s ++ " (тестовый режим)"));
                 ("order",
                  VObj [("id", VStr (param_id req));
                        ("status", VStr s);
                        ("updated_at", VStr (toISOString (clock env (ticks w))));
                        ("mode", VStr "mock")])]))
  /\ db_log (snd r) = db_log w
  /\ http_log (snd r) = http_log w.
Proof.
  intros Hk Hs Hv Hc. cbv zeta.
  assert (E : bot_update_status env req w
              = (Ok (respond 200
                       (VObj [("success", VBool true);
                              ("message",
                               VStr (status_message s ++ " (тестовый режим)"));
                              ("order",
                               VObj [("id", VStr (param_id req));
                                     ("status", VStr s);
                                     ("updated_at",
                                      VStr (toISOString (clock env (ticks w))));
                                     ("mode", VStr "mock")])])),
                 snd (now env w))).
  { unfold bot_update_status, try_catch. rewrite Hk.
    rewrite ADMIN_API_KEY_nonempty, String.eqb_refl. cbn [orb negb].
    rewrite Hs, bind_lift_ok, bind_log. cbn [texts to_string obind].
    rewrite Hv. cbn [negb].
    rewrite !bind_read, Hc. rewrite bind_lift_ok. unfold bind at 1. reflexivity. }
  rewrite E. repeat split.
Qed.

(** Order 999 set to [delivered] with no store. *)
Lemma bot_status_update_is_cosmetic_without_store_witness :
  let req := Demo.admin_request "999" (VObj [("status", VStr "delivered")]) in
  let r := bot_update_status Demo.env req (Demo.started false) in
  fst r
  = Ok (respond 200
          (VObj [("success", VBool true);
                 ("message",
                  VStr (status_message "delivered" ++ " (тестовый режим)"));
                 ("order",
                  VObj [("id", VStr "999");
                        ("status", VStr "delivered");
                        ("updated_at", VStr (toISOString 1793574000000));
                        ("mode", VStr "mock")])]))
  /\ db_log (snd r) = []
  /\ http_log (snd r) = [].
Proof.
  exact (bot_status_update_is_cosmetic_without_store
           Demo.env
           (Demo.admin_request "999" (VObj [("status", VStr "delivered")]))
           (Demo.started false) "delivered" eq_refl eq_refl eq_refl eq_refl).
Defined.

(** The owner's message of a status update for a row that can be
    read: it returns, reads the clock at most once and asks the store
    at most once, for the owner's chat id. *)
Lemma notify_owner_run (env : Env) (order st : value) (w : World) :
  readable order = true ->
  exists w',
    notify_owner env order st w = (Ok tt, w')
    /\ (ticks w' = ticks w \/ ticks w' = S (ticks w))
    /\ (db_log w' = db_log w
        \/ db_log w'
           = (db_log w
                ++ [DbCall SelectTelegramChatId [field order "user_id"]])%list).
Proof.
  intros Hr. unfold notify_owner.
  rewrite (get_readable order "user_id" Hr), bind_lift_ok.
  destruct (toBoolean (field order "user_id"));
    [|exists w; repeat split; now left].
  unfold try_catch. unfold bind at 1. unfold query.
  destruct (pool w); [|eexists; split; [reflexivity|split; now left]].
  destruct (pool_query env (db_log w)
              (DbCall SelectTelegramChatId [field order "user_id"]))
    as [[|row rows]|e];
    try (eexists; split; [reflexivity|split; [now left|now right]]).
  rewrite bind_lift_gen.
  destruct (get row "telegram_chat_id") as [chatId|e];
    [|eexists; split; [reflexivity|split; [now left|now right]]].
  destruct (toBoolean chatId);
    [|eexists; split; [reflexivity|split; [now left|now right]]].
  rewrite bind_lift_gen.
  destruct (to_string st) as [key|e];
    [|eexists; split; [reflexivity|split; [now left|now right]]].
  rewrite bind_lift_gen.
  destruct (interpolate order "id") as [order_id|e];
    [|eexists; split; [reflexivity|split; [now left|now right]]].
  unfold bind at 1. cbn [now]. unfold bind at 1, post.
  match goal with
  | |- context [axios_post env ?log ?c] => destruct (axios_post env log c)
  end;
    [|eexists; split; [reflexivity|split; [now right|now right]]].
  unfold log. destruct (texts [chatId]);
    eexists; (split; [reflexivity|split; [now right|now right]]).
Qed.

(** X13. With the store connected, a status update asks the store
    first for one [UPDATE] carrying the status and the id of the path.
    When the store matches no row, both the bot endpoint and the admin
    endpoint answer 404 after that one call. When it returns a row, the
    admin endpoint answers 200 with that row as it is, after that one
    call; the bot endpoint, for a row that can be read, answers 200
    with the row's id and status and, as [updated_at], the row's own
    when it is truthy and otherwise the time read when the answer is
    built (after the message to the owner), having asked the store at
    most once more, for the owner's chat id. *)
Theorem status_update_asks_the_store_once
        (env : Env) (req : Request) (w : World) (st : value)
        (rows : list value) :
  header (headers req) "x-admin-api-key" = Some (ADMIN_API_KEY env) ->
  get (body req) "status" = Ok st ->
  includes validStatuses st = true ->
  isDatabaseConnected w = true ->
  pool w = true ->
  let update := DbCall UpdateOrderStatus [st; VStr (param_id req)] in
  pool_query env (db_log w) update = Ok rows ->
  admin_update_status env req w
  = (Ok match rows with
        | [] => failure 404 "Заказ не найден"
        | order :: _ =>
            respond 200
              (VObj [("success", VBool true);
                     ("message", VStr (status_message (text st)));
                     ("order", order)])
        end,
     logged w [update])
  /\ (rows = [] ->
      bot_update_status env req w
      = (Ok (failure 404 "Заказ не найден"), logged w [update]))
  /\ (forall order more,
         rows = order :: more ->
         readable order = true ->
         let r := bot_update_status env req w in
         exists stamp,
           fst r = Ok (status_updated (text st) order stamp)
           /\ (toBoolean (field order "updated_at") = true
               /\ stamp = field order "updated_at"
               \/ toBoolean (field order "updated_at") = false
                  /\ (stamp = VStr (toISOString (clock env (ticks w)))
                      \/ stamp = VStr (toISOString (clock env (S (ticks w))))))
           /\ (db_log (snd r) = (db_log w ++ [update])%list
               \/ db_log (snd r)
                  = (db_log w
                       ++ [update;
                           DbCall SelectTelegramChatId
                                  [field order "user_id"]])%list)).
Proof.
  intros Hk Hs Hv Hc Hp. cbv zeta. intros Hq.
  pose proof (includes_text _ _ Hv) as Hst.
  assert (Hto : to_string st = Ok (text st)) by (rewrite Hst; reflexivity).
  split; [|split].
  - unfold admin_update_status, try_catch, validateAdminApiKey.
    rewrite Hk, String.eqb_refl. cbn [negb].
    rewrite Hs, bind_lift_ok, Hv. cbn [negb].
    unfold bind at 1. rewrite (query_answered env _ _ w rows Hp Hq).
    destruct rows; [reflexivity|]. now rewrite Hto, bind_lift_ok.
  - intros ->. unfold bot_update_status, try_catch. rewrite Hk.
    rewrite ADMIN_API_KEY_nonempty, String.eqb_refl. cbn [orb negb].
    rewrite Hs, bind_lift_ok, bind_log, texts_status, Hto, Hv. cbn [negb].
    rewrite !bind_read, Hc, Hp. cbn [andb].
    unfold bind at 1. rewrite (query_answered env _ _ w [] Hp Hq).
    reflexivity.
  - intros order more -> Hr.
    remember (bot_update_status env req w) as r eqn:E.
    unfold bot_update_status, try_catch in E. rewrite Hk in E.
    rewrite ADMIN_API_KEY_nonempty, String.eqb_refl in E. cbn [orb negb] in E.
    rewrite Hs, bind_lift_ok, bind_log, texts_status, Hto, Hv in E.
    cbn [negb] in E.
    rewrite !bind_read, Hc, Hp in E. cbn [andb] in E.
    unfold bind at 1 in E. rewrite (query_answered env _ _ w _ Hp Hq) in E.
    unfold bind at 1 in E.
    destruct (notify_owner_run env order st
                (logged w [DbCall UpdateOrderStatus [st; VStr (param_id req)]])
                Hr) as (w' & Hrun & Ht & Hdb).
    rewrite Hrun in E. rewrite bind_lift_ok in E.
    rewrite !(get_readable order _ Hr), !bind_lift_ok in E.
    cbn [logged ticks db_log] in Ht, Hdb.
    unfold bind at 1, updated_at_or_now in E.
    destruct (toBoolean (field order "updated_at")) eqn:Hu.
    + cbn [ret] in E. subst r. cbn [fst snd].
      exists (field order "updated_at").
      split; [reflexivity|]. split; [left; now split|].
      destruct Hdb as [-> | ->]; [now left|right; now rewrite <- app_assoc].
    + unfold bind at 1 in E. cbn [now ret] in E. subst r. cbn [fst snd db_log].
      exists (VStr (toISOString (clock env (ticks w')))).
      split; [reflexivity|]. split.
      * right. split; [reflexivity|].
        destruct Ht as [-> | ->]; [now left|now right].
      * destruct Hdb as [-> | ->]; [now left|right; now rewrite <- app_assoc].
Qed.

(** Order 5 set to [preparing]: against the echoing store, which
    matches no row, and against a store that returns the row of
    order 5, owned by nobody and without [updated_at]. *)
Lemma status_update_asks_the_store_once_witness :
  let env := with_store Demo.env echo_store in
  let req := Demo.admin_request "5" (VObj [("status", VStr "preparing")]) in
  let call := DbCall UpdateOrderStatus [VStr "preparing"; VStr "5"] in
  let row := VObj [("id", Demo.num 5); ("status", VStr "preparing")] in
  (admin_update_status env req (Demo.started true)
   = (Ok (failure 404 "Заказ не найден"), logged (Demo.started true) [call])
   /\ bot_update_status env req (Demo.started true)
      = (Ok (failure 404 "Заказ не найден"), logged (Demo.started true) [call]))
  /\ exists stamp,
      fst (bot_update_status (with_store Demo.env (fun _ _ => Ok [row])) req
                             (Demo.started true))
      = Ok (status_updated "preparing" row stamp).
Proof.
  split.
  - destruct (status_update_asks_the_store_once
                (with_store Demo.env echo_store)
                (Demo.admin_request "5" (VObj [("status", VStr "preparing")]))
                (Demo.started true) (VStr "preparing") []
                eq_refl eq_refl eq_refl eq_refl eq_refl eq_refl) as (A & B & _).
    split; [exact A|exact (B eq_refl)].
  - destruct (status_update_asks_the_store_once
                (with_store Demo.env
                   (fun _ _ => Ok [VObj [("id", Demo.num 5);
                                         ("status", VStr "preparing")]]))
                (Demo.admin_request "5" (VObj [("status", VStr "preparing")]))
                (Demo.started true) (VStr "preparing") _
                eq_refl eq_refl eq_refl eq_refl eq_refl eq_refl) as (_ & _ & C).
    destruct (C _ _ eq_refl eq_refl) as (stamp & Hst & _).
    exists stamp. exact Hst.
Defined.

(** ** The status update does not depend on the owner's message *)

Lemma fst_try_ret {A} (m : M A) (r : A) (w : World) :
  fst (try_catch m (fun _ => ret r) w)
  = match fst (m w) with Ok a => Ok a | Throw _ => Ok r end.
Proof.
  unfold try_catch. destruct (m w) as [[a|e] w1]; reflexivity.
Qed.

Lemma fst_bind {A B} (m : M A) (k : A -> M B) (w : World) :
  fst (bind m k w)
  = match m w with
    | (Ok a, w') => fst (k a w')
    | (Throw e, _) => Throw e
    end.
Proof.
  unfold bind. destruct (m w) as [[a|e] w1]; reflexivity.
Qed.

(** The owner's message fails only when the order row cannot be
    read. *)
Lemma notify_owner_fst (env : Env) (order st : value) (w : World) :
  fst (notify_owner env order st w)
  = match get order "user_id" with
    | Ok _ => Ok tt
    | Throw e => Throw e
    end.
Proof.
  unfold notify_owner. rewrite bind_lift_gen.
  destruct (get order "user_id") as [user_id|e]; [|reflexivity].
  destruct (toBoolean user_id); [|reflexivity].
  unfold try_catch.
  match goal with
  | |- fst (match ?m with _ => _ end) = _ => destruct m as [[[]|e] w1]
  end; reflexivity.
Qed.

(** What follows the owner's message: the answer, which depends on the
    process and on the clock through [order.updated_at] only. *)
Lemma answer_after_owner_message
      (env1 env2 : Env) (order : value) (text : outcome string)
      (w1 w2 : World) :
  let rest env :=
    (text <- lift text ;;
     id <- lift (get order "id") ;;
     order_status <- lift (get order "status") ;;
     updated_at <- lift (get order "updated_at") ;;
     stamp <- updated_at_or_now env updated_at ;;
     ret (respond 200
            (VObj [("success", VBool true);
                   ("message", VStr (status_message text));
                   ("order",
                    VObj [("id", id); ("status", order_status);
                          ("updated_at", stamp)])]))) in
  (exists e1 e2,
      fst (rest env1 w1) = Throw e1 /\ fst (rest env2 w2) = Throw e2)
  \/ (exists a1 a2,
         fst (rest env1 w1) = Ok a1 /\ fst (rest env2 w2) = Ok a2
         /\ unstamped a1 = unstamped a2).
Proof.
  cbv beta zeta. rewrite !bind_lift_gen.
  destruct text as [t|e]; [|left; now exists e, e].
  rewrite !bind_lift_gen.
  destruct (get order "id") as [id|e]; [|left; now exists e, e].
  rewrite !bind_lift_gen.
  destruct (get order "status") as [os|e]; [|left; now exists e, e].
  rewrite !bind_lift_gen.
  destruct (get order "updated_at") as [updated_at|e]; [|left; now exists e, e].
  right. unfold bind, updated_at_or_now.
  destruct (toBoolean updated_at); do 2 eexists;
    (split; [reflexivity|split; reflexivity]).
Qed.

(** X14. The bot's status update answers the same, apart from the time
    stamp [order.updated_at] (which is read after the message to the
    order's owner was sent), whatever the HTTP client does with that
    message and however long it takes: two processes that differ in
    the client and in what the clock shows give the same status and
    the same body apart from [order.updated_at], for every request and
    state. *)
Theorem owner_message_outcome_does_not_change_the_answer
        (env : Env)
        (client1 client2 : list http_call -> http_call -> outcome value)
        (clock1 clock2 : nat -> Z)
        (req : Request) (w : World) :
  obind (fst (bot_update_status (with_clock (with_axios env client1) clock1)
                                req w))
        (fun r => Ok (unstamped r))
  = obind (fst (bot_update_status (with_clock (with_axios env client2) clock2)
                                  req w))
          (fun r => Ok (unstamped r)).
Proof.
  unfold bot_update_status. rewrite !fst_try_ret.
  change (ADMIN_API_KEY (with_clock (with_axios env client1) clock1))
    with (ADMIN_API_KEY env).
  change (ADMIN_API_KEY (with_clock (with_axios env client2) clock2))
    with (ADMIN_API_KEY env).
  destruct (header (headers req) "x-admin-api-key") as [apiKey|]; [|reflexivity].
  destruct (String.eqb apiKey "" || negb (String.eqb apiKey (ADMIN_API_KEY env)));
    [reflexivity|].
  rewrite !bind_lift_gen.
  destruct (get (body req) "status") as [st|e]; [|reflexivity].
  rewrite !bind_log.
  destruct (texts [VStr (param_id req); st]); [|reflexivity].
  destruct (negb (includes validStatuses st)); [reflexivity|].
  rewrite !bind_read.
  destruct (isDatabaseConnected w && pool w).
  - rewrite !fst_try_ret. rewrite !fst_bind.
    change (query (with_clock (with_axios env client1) clock1)) with (query env).
    change (query (with_clock (with_axios env client2) clock2)) with (query env).
    destruct (query env UpdateOrderStatus [st; VStr (param_id req)] w)
      as [[rows|e] w0]; [|reflexivity].
    destruct rows as [|order rows]; [reflexivity|].
    rewrite !fst_bind.
    pose proof (notify_owner_fst (with_clock (with_axios env client1) clock1)
                  order st w0) as H1.
    pose proof (notify_owner_fst (with_clock (with_axios env client2) clock2)
                  order st w0) as H2.
    destruct (notify_owner (with_clock (with_axios env client1) clock1)
                order st w0) as [o1 w1].
    destruct (notify_owner (with_clock (with_axios env client2) clock2)
                order st w0) as [o2 w2].
    cbn [fst] in H1, H2. subst o1 o2.
    destruct (get order "user_id"); [|reflexivity].
    destruct (answer_after_owner_message
                (with_clock (with_axios env client1) clock1)
                (with_clock (with_axios env client2) clock2)
                order (to_string st) w1 w2)
      as [(e1 & e2 & E1 & E2) | (a1 & a2 & E1 & E2 & Ha)];
      cbv beta zeta in E1, E2; rewrite E1, E2; [reflexivity|].
    cbn [obind]. now rewrite Ha.
  - rewrite !bind_lift_gen. destruct (to_string st); reflexivity.
Qed.

(** The time stamp of the answer is the reading of the clock made
    after the owner of the order was looked up and told: for order 5,
    whose row names an owner with a chat id, it is the second
    reading. *)
Example the_time_stamp_is_read_after_the_message :
  let row := VObj [("id", Demo.num 5); ("status", VStr "preparing");
                   ("user_id", Demo.num 7)] in
  let store (log : list db_call) (c : db_call) :=
    match stmt c with
    | UpdateOrderStatus => Ok [row]
    | _ => Ok [VObj [("telegram_chat_id", VStr "42")]]
    end in
  let req := Demo.admin_request "5" (VObj [("status", VStr "preparing")]) in
  let r := bot_update_status (with_store Demo.env store) req (Demo.started true) in
  fst r = Ok (status_updated "preparing" row
                (VStr (toISOString 1793574000001)))
  /\ List.length (http_log (snd r)) = 1%nat
  /\ List.length (db_log (snd r)) = 2%nat.
Proof.
  vm_compute. repeat split; reflexivity.
Qed.

(** ** What the dish endpoints send to the store *)

Lemma snd_try_keep {A} (m : M A) (h : exn -> M A) (w : World) :
  (forall e w', snd (h e w') = w') ->
  snd (try_catch m h w) = snd (m w).
Proof.
  intros Hh. unfold try_catch. destruct (m w) as [[a|e] w1]; [reflexivity|].
  apply Hh.
Qed.

Lemma combine_snoc {A B} (l : list A) (l' : list B) (a : A) (b : B) :
  List.length l = List.length l' ->
  combine (l ++ [a]) (l' ++ [b]) = (combine l l' ++ [(a, b)])%list.
Proof.
  revert l'. induction l as [|x l IH]; intros [|y l'] H; try discriminate.
  - reflexivity.
  - cbn. f_equal. apply IH. now injection H.
Qed.

Lemma set_column_well_formed (v : value) (column : string) (stored : value)
      (acc : list string * list value) :
  well_formed_update acc ->
  In column dish_columns ->
  (is_undefined v = false -> stored_well (column, stored)) ->
  well_formed_update (set_column v column stored acc).
Proof.
  intros (Hlen & Hincl & Hall) Hin Hst. unfold set_column.
  destruct (is_undefined v); [repeat split; assumption|].
  unfold well_formed_update. cbn [fst snd]. repeat split.
  - rewrite !length_app. cbn. now rewrite Hlen.
  - intros c Hc. apply in_app_or in Hc. destruct Hc as [Hc|[<-|[]]]; auto.
  - rewrite combine_snoc by (symmetry; exact Hlen).
    apply Forall_app. split; [exact Hall|].
    constructor; [now apply Hst|constructor].
Qed.

(** The storage side of a query followed by answers that only return. *)
Lemma snd_query_then_return {B} (env : Env) (s : statement) (ps : list value)
      (k : list value -> M B) (w : World) :
  (forall rows w', snd (k rows w') = w') ->
  db_log (snd (bind (query env s ps) k w)) = db_log w
  \/ db_log (snd (bind (query env s ps) k w)) = (db_log w ++ [DbCall s ps])%list.
Proof.
  intros Hk. unfold bind, query. destruct (pool w); [|now left].
  right. destruct (pool_query env (db_log w) (DbCall s ps)) as [rows|e];
    [|reflexivity].
  now rewrite Hk.
Qed.

(** X15. Whatever [PUT /admin/dishes/:id] is sent, it issues no storage
    call or exactly one [UPDATE dishes]; that call sets at least one
    column, only columns of the fixed list, carries one value per
    column followed by the dish id of the path, and a price it stores
    is a number that is neither [NaN] nor zero or less. *)
Theorem dish_update_call_is_well_formed (env : Env) (req : Request) (w : World) :
  db_log (snd (update_dish env req w)) = db_log w
  \/ exists cols vals,
      db_log (snd (update_dish env req w))
      = (db_log w ++ [DbCall (UpdateDish cols) (vals ++ [VStr (param_id req)])])%list
      /\ cols <> []
      /\ List.length vals = List.length cols
      /\ incl cols dish_columns
      /\ Forall stored_well (combine cols vals).
Proof.
  unfold update_dish. rewrite snd_try_keep by reflexivity.
  destruct (negb (validateAdminApiKey env req)); [now left|].
  destruct (not_ (body req) || (keys_length (body req) =? 0)%nat); [now left|].
  rewrite !bind_read.
  destruct (negb (isDatabaseConnected w) || negb (pool w)); [now left|].
  rewrite bind_lift_gen.
  destruct (get (body req) "name") as [name|e]; [|now left].
  rewrite bind_lift_gen.
  destruct (get (body req) "description") as [description|e]; [|now left].
  rewrite bind_lift_gen.
  destruct (get (body req) "image_url") as [image_url|e]; [|now left].
  rewrite bind_lift_gen.
  destruct (get (body req) "price") as [price|e]; [|now left].
  cbv zeta. rewrite bind_lift_gen.
  destruct (parse_price price) as [parsedPrice|e]; [|now left].
  destruct (negb (is_undefined price) && bad_price parsedPrice) eqn:Hprice;
    [now left|].
  rewrite bind_lift_gen.
  destruct (get (body req) "preparation_time") as [preparation_time|e]; [|now left].
  rewrite bind_lift_gen.
  destruct (parseInt preparation_time) as [minutes|e]; [|now left].
  rewrite bind_lift_gen.
  destruct (get (body req) "is_spicy") as [is_spicy|e]; [|now left].
  rewrite bind_lift_gen.
  destruct (get (body req) "is_vegetarian") as [is_vegetarian|e]; [|now left].
  rewrite bind_lift_gen.
  destruct (get (body req) "is_available") as [is_available|e]; [|now left].
  match goal with
  | |- context [match fst ?a with _ => _ end] => set (acc := a)
  end.
  assert (Hacc : well_formed_update acc).
  { subst acc.
    repeat (apply set_column_well_formed;
            [|cbn; auto 10
             |intros Hu; unfold stored_well; cbn [fst snd]; intros Hc;
              first [discriminate Hc
                    |eexists; split; [reflexivity|];
                     rewrite Hu in Hprice; exact Hprice]]).
    split; [reflexivity|]. split; [intros c []|constructor]. }
  destruct Hacc as (Hlen & Hincl & Hall).
  destruct (fst acc) as [|c cols] eqn:Hcols; [now left|].
  match goal with
  | |- context [bind (query env ?s ?ps) ?k w] =>
      destruct (snd_query_then_return env s ps k w) as [H|H]
  end.
  - intros rows w'. destruct rows; reflexivity.
  - now left.
  - right. exists (c :: cols), (snd acc).
    split; [exact H|]. split; [discriminate|]. repeat split; assumption.
Qed.

(** X16. Whatever [POST /admin/dishes] is sent, it issues no storage
    call or exactly one [INSERT INTO dishes]; that call carries ten
    values, of which the restaurant id and the name are truthy, the
    price is a number that is neither [NaN] nor zero or less, and the
    availability is [true]. *)
Theorem dish_insert_call_is_well_formed (env : Env) (req : Request) (w : World) :
  db_log (snd (create_dish env req w)) = db_log w
  \/ exists ps p,
      db_log (snd (create_dish env req w))
      = (db_log w ++ [DbCall InsertDish ps])%list
      /\ List.length ps = 10%nat
      /\ toBoolean (nth 0 ps VUndefined) = true
      /\ toBoolean (nth 1 ps VUndefined) = true
      /\ nth 4 ps VUndefined = VNum p
      /\ bad_price p = false
      /\ nth 9 ps VUndefined = VBool true.
Proof.
  unfold create_dish. rewrite snd_try_keep by reflexivity.
  destruct (negb (validateAdminApiKey env req)); [now left|].
  repeat (rewrite bind_lift_gen;
          match goal with
          | |- context [match ?o with Ok _ => _ | Throw _ => _ end] =>
              destruct o; [|now left]
          end).
  match goal with
  | |- context [if not_ ?r || not_ ?n || not_ ?p then _ else _] =>
      destruct (not_ r) eqn:Hr; [now left|];
      destruct (not_ n) eqn:Hn; [now left|];
      destruct (not_ p) eqn:Hp; [now left|]
  end.
  cbn [orb]. unfold not_ in Hr, Hn.
  apply negb_false_iff in Hr. apply negb_false_iff in Hn.
  rewrite !bind_read.
  destruct (negb (isDatabaseConnected w) || negb (pool w)); [now left|].
  cbv zeta. rewrite bind_lift_gen.
  match goal with
  | |- context [match parse_price ?v with _ => _ end] =>
      destruct (parse_price v) as [parsedPrice|e]; [|now left]
  end.
  destruct (bad_price parsedPrice) eqn:Hbad; [now left|].
  match goal with
  | |- context [bind (query env ?s ?ps) ?k w] =>
      destruct (snd_query_then_return env s ps k w) as [H|H]
  end.
  - reflexivity.
  - now left.
  - right. eexists. eexists. split; [exact H|].
    repeat split; assumption.
Qed.

(* ================================================================== *)
(** * More endpoints: what they do *)
(* ================================================================== *)

Import Extra.

(** X17. With a bot token and a chat id configured,
    [POST /test-notification] answers 200 with the message that the
    test notification was sent, whatever the HTTP client does with the
    call (also when it rejects it); the endpoint makes no storage call
    and at most one HTTP call, to the bot's [sendMessage] URL. *)
Theorem test_notification_reports_success_whatever_telegram_does
        (env : Env) (req : Request) (w : World) :
  toBoolean (TELEGRAM_BOT_TOKEN env) = true ->
  toBoolean (TELEGRAM_CHAT_ID env) = true ->
  let r := test_notification env req w in
  fst r = Ok test_sent
  /\ db_log (snd r) = db_log w
  /\ (http_log (snd r) = http_log w
      \/ exists d,
          http_log (snd r)
          = (http_log w ++ [HttpCall (telegram_url env) d 10000])%list).
Proof.
  intros Ht Hc. cbv zeta. unfold test_notification, not_.
  rewrite Ht, Hc. cbn [negb orb].
  unfold try_catch, bind, now, ret.
  set (w1 := {| isDatabaseConnected := isDatabaseConnected w;
                pool := pool w; db_log := db_log w; http_log := http_log w;
                notified := notified w; ticks := S (ticks w) |}).
  set (od := testOrder (clock env (ticks w))).
  destruct (sendTelegramNotification_returns env od w1) as [v Hv].
  destruct (sendTelegramNotification_world env od w1) as (_ & _ & Hdb & _).
  pose proof (sendTelegramNotification_posts_once env od w1) as Hhttp.
  destruct (sendTelegramNotification env od w1) as [[v'|e] w2];
    cbn [fst snd] in *; [|discriminate].
  repeat split; assumption.
Qed.

Lemma test_notification_reports_success_whatever_telegram_does_witness :
  let env := with_axios Demo.env Demo.telegram_down in
  let r := test_notification env (Demo.admin_request "" VUndefined)
                             (Demo.started true) in
  fst r = Ok test_sent
  /\ db_log (snd r) = []
  /\ (http_log (snd r) = []
      \/ exists d, http_log (snd r) = [HttpCall (telegram_url env) d 10000]).
Proof.
  exact (test_notification_reports_success_whatever_telegram_does
           (with_axios Demo.env Demo.telegram_down)
           (Demo.admin_request "" VUndefined) (Demo.started true)
           eq_refl eq_refl).
Defined.

(** X18. The identity function of the later snapshot trusts the
    [x-user-id] header: a request with no [Authorization] header and an
    [x-user-id] that [parseInt] reads as a number is given that number
    as its identity, whatever the token verifier and the secret are;
    the identity function of the first snapshot gives the same request
    no identity. *)
Theorem later_snapshot_trusts_the_user_id_header
        (env : Env) (req : Request) (userId : string) :
  header (headers req) "authorization" = None ->
  header (headers req) "x-user-id" = Some userId ->
  integer_like userId = true ->
  getUserIdFromToken_later env req = VNum (parseInt_string userId)
  /\ getUserIdFromToken env req = VNull.
Proof.
  intros Ha Hu Hi. unfold getUserIdFromToken_later, getUserIdFromToken.
  rewrite Ha, Hu, Hi. split; reflexivity.
Qed.

Lemma later_snapshot_trusts_the_user_id_header_witness :
  let req := {| headers := [("x-user-id", "42")]; param_id := "";
                body := VUndefined |} in
  getUserIdFromToken_later Demo.env req = VNum (parseInt_string "42")
  /\ getUserIdFromToken Demo.env req = VNull.
Proof.
  exact (later_snapshot_trusts_the_user_id_header
           Demo.env
           {| headers := [("x-user-id", "42")]; param_id := "";
              body := VUndefined |}
           "42" eq_refl eq_refl eq_refl).
Defined.


(** ** Accounts *)

Lemma log_one (v : value) (w : World) :
  textual v = true -> log [v] w = (Ok tt, w).
Proof.
  intros H. unfold log. cbn [texts]. now rewrite (to_string_textual v H).
Qed.

Lemma log_two (a b : value) (w : World) :
  textual a = true -> textual b = true -> log [a; b] w = (Ok tt, w).
Proof.
  intros Ha Hb. unfold log. now rewrite (texts_two a b Ha Hb).
Qed.

Import Accounts.

Ltac racc :=
  unfold store_ready;
  unfold attempt, andThen, liftR, run, read, pure;
  cbn [fst snd world sql_log signed].

Lemma sendMockLogin_run (sv : Services) (email : value) (s : State)
      (tok : string) :
  jwt_sign sv (signed s) (mock_login_payload email) (JWT_SECRET (core sv))
  = Ok tok ->
  exists r,
    fst (sendMockLogin sv email s) = Ok r
    /\ status r = 200%Z
    /\ field (json r) "success" = VBool true
    /\ field (json r) "access_token" = VStr tok
    /\ field (field (json r) "user") "id" = VNum one
    /\ field (field (json r) "user") "email" = email
    /\ signed (snd (sendMockLogin sv email s))
       = (signed s ++ [mock_login_payload email])%list
    /\ sql_log (snd (sendMockLogin sv email s)) = sql_log s.
Proof.
  intros Hsign. unfold sendMockLogin, sign. racc.
  fold (mock_login_payload email). rewrite Hsign.
  eexists. split; [reflexivity|]. repeat split.
Qed.

(** X19. [POST /login] admits anyone when the store's path fails: if
    the store is flagged off, or rejects the lookup, or [bcrypt.compare]
    throws on the submitted password, then any truthy email that
    converts to text (the handler logs it first) and any truthy
    password are answered 200 with [success: true], as the user with
    id 1, with a token signed for the payload [{id: 1, email, role:
    'user'}]; the password is not checked against anything. *)
Theorem login_admits_anyone_when_the_lookup_fails
        (sv : Services) (req : Request) (s : State)
        (email password : value) (tok : string) :
  get (body req) "email" = Ok email ->
  get (body req) "password" = Ok password ->
  textual email = true ->
  toBoolean email = true ->
  toBoolean password = true ->
  lookup_fails sv s email password ->
  jwt_sign sv (signed s) (mock_login_payload email) (JWT_SECRET (core sv))
  = Ok tok ->
  exists r,
    fst (login sv req s) = Ok r
    /\ status r = 200%Z
    /\ field (json r) "success" = VBool true
    /\ field (json r) "access_token" = VStr tok
    /\ field (field (json r) "user") "id" = VNum one
    /\ field (field (json r) "user") "email" = email
    /\ signed (snd (login sv req s))
       = (signed s ++ [mock_login_payload email])%list.
Proof.
  intros He Hp Hx Hte Htp Hfail Hsign.
  assert (E : exists calls,
             login sv req s = sendMockLogin sv email (asked s calls)).
  { pose proof (fun calls => sendMockLogin_run sv email (asked s calls) tok Hsign)
      as Hrun.
    unfold lookup_fails in Hfail.
    destruct s as [w l g]. unfold asked in *. cbn [world sql_log signed] in *.
    unfold login. racc. rewrite He, Hp. rewrite (log_one email w Hx).
    unfold not_. rewrite Hte, Htp.
    cbn [negb orb fst snd world sql_log signed].
    destruct (isDatabaseConnected w && pool w) eqn:Hready.
    - apply andb_prop in Hready. destruct Hready as [_ Hpool].
      unfold ask. cbn [fst snd world sql_log signed]. rewrite Hpool.
      exists [SqlCall SelectUserByEmail [email]].
      destruct (Hrun [SqlCall SelectUserByEmail [email]]) as (r & Hr & _).
      destruct (sendMockLogin sv email
                  {| world := w;
                     sql_log := l ++ [SqlCall SelectUserByEmail [email]];
                     signed := g |})
        as [[r'|e'] s'] eqn:E'; [|discriminate Hr].
      destruct Hfail as [H|[[e H]|(user & rest & stored & e & H & Hs & Hc)]].
      + discriminate H.
      + rewrite H. rewrite E'. reflexivity.
      + rewrite H. cbn [fst snd]. rewrite Hs, Hc. rewrite E'. reflexivity.
    - exists []. rewrite app_nil_r.
      destruct (Hrun []) as (r & Hr & _). rewrite app_nil_r in Hr.
      destruct (sendMockLogin sv email
                  {| world := w; sql_log := l; signed := g |})
        as [[r'|e'] s'] eqn:E'; [reflexivity|discriminate Hr]. }
  destruct E as [calls E]. rewrite E.
  destruct (sendMockLogin_run sv email (asked s calls) tok Hsign)
    as (r & H1 & H2 & H3 & H4 & H5 & H6 & H7 & _).
  exists r. repeat split; assumption.
Qed.

Lemma login_admits_anyone_when_the_lookup_fails_witness :
  let req := json_request [] (VObj [("email", VStr "nobody@example.com");
                                    ("password", VStr "x")]) in
  exists r,
    fst (login (services rejecting) req (booted true)) = Ok r
    /\ status r = 200%Z
    /\ field (json r) "success" = VBool true
    /\ field (json r) "access_token" = VStr "jwt.1"
    /\ field (field (json r) "user") "id" = VNum one
    /\ field (field (json r) "user") "email" = VStr "nobody@example.com"
    /\ signed (snd (login (services rejecting) req (booted true)))
       = [mock_login_payload (VStr "nobody@example.com")].
Proof.
  exact (login_admits_anyone_when_the_lookup_fails
           (services rejecting)
           (json_request [] (VObj [("email", VStr "nobody@example.com");
                                   ("password", VStr "x")]))
           (booted true)
           (VStr "nobody@example.com") (VStr "x") "jwt.1"
           eq_refl eq_refl eq_refl eq_refl eq_refl
           (or_intror (or_introl (ex_intro _ _ eq_refl)))
           eq_refl).
Defined.

(** X20. With the store available, [POST /login] answers an unknown
    email and a wrong password alike, for an email that converts to
    text (the handler logs it first): 401 with one and the same
    message, after one lookup, and without signing any token. *)
Theorem login_refuses_unknown_email_and_wrong_password_alike
        (sv : Services) (req : Request) (s : State)
        (email password : value) :
  get (body req) "email" = Ok email ->
  get (body req) "password" = Ok password ->
  textual email = true ->
  toBoolean email = true ->
  toBoolean password = true ->
  isDatabaseConnected (world s) && pool (world s) = true ->
  credentials_refused sv s email password ->
  fst (login sv req s) = Ok (failure 401 "Неверный email или пароль")
  /\ signed (snd (login sv req s)) = signed s
  /\ sql_log (snd (login sv req s))
     = (sql_log s ++ [SqlCall SelectUserByEmail [email]])%list.
Proof.
  intros He Hp Hx Hte Htp Hready Href.
  unfold credentials_refused in Href.
  destruct s as [w l g]. cbn [world sql_log signed] in *.
  unfold login. racc. rewrite He, Hp. rewrite (log_one email w Hx).
  unfold not_. rewrite Hte, Htp.
  cbn [negb orb fst snd world sql_log signed]. rewrite Hready.
  apply andb_prop in Hready. destruct Hready as [_ Hpool].
  unfold ask. cbn [fst snd world sql_log signed]. rewrite Hpool.
  destruct Href as [H|(user & rest & stored & H & Hs & Hc)].
  - rewrite H. repeat split.
  - rewrite H. cbn [fst snd]. rewrite Hs, Hc. repeat split.
Qed.

Lemma login_refuses_unknown_email_and_wrong_password_alike_witness :
  let req := json_request [] (VObj [("email", VStr "ann@example.com");
                                    ("password", VStr "guess")]) in
  fst (login (services one_account) req (booted true))
  = Ok (failure 401 "Неверный email или пароль")
  /\ signed (snd (login (services one_account) req (booted true))) = []
  /\ sql_log (snd (login (services one_account) req (booted true)))
     = [SqlCall SelectUserByEmail [VStr "ann@example.com"]].
Proof.
  exact (login_refuses_unknown_email_and_wrong_password_alike
           (services one_account)
           (json_request [] (VObj [("email", VStr "ann@example.com");
                                   ("password", VStr "guess")]))
           (booted true)
           (VStr "ann@example.com") (VStr "guess")
           eq_refl eq_refl eq_refl eq_refl eq_refl eq_refl
           (or_intror
              (ex_intro _ ann
                 (ex_intro _ []
                    (ex_intro _ (VStr "$2a$10$secret1")
                       (conj eq_refl (conj eq_refl eq_refl))))))).
Defined.

(** ** What the account endpoints send to the store *)

Lemma silent_pure {A} (a : A) : silent (pure a).
Proof. intros s. reflexivity. Qed.

Lemma silent_liftR {A} (o : outcome A) : silent (liftR o).
Proof. intros s. reflexivity. Qed.

Lemma silent_sign (sv : Services) (p : value) : silent (sign sv p).
Proof. intros s. reflexivity. Qed.

Lemma silent_run {A} (m : M A) : silent (run m).
Proof. intros s. reflexivity. Qed.

Lemma silent_andThen {A B} (m : R A) (k : A -> R B) :
  silent m -> (forall a, silent (k a)) -> silent (andThen m k).
Proof.
  intros Hm Hk s. unfold andThen. specialize (Hm s).
  destruct (m s) as [[a|e] s1]; cbn [snd] in *; [|exact Hm].
  now rewrite (Hk a s1).
Qed.

Lemma silent_attempt {A} (m : R A) (h : exn -> R A) :
  silent m -> (forall e, silent (h e)) -> silent (attempt m h).
Proof.
  intros Hm Hh s. unfold attempt. specialize (Hm s).
  destruct (m s) as [[a|e] s1]; cbn [snd] in *; [exact Hm|].
  now rewrite (Hh e s1).
Qed.

Ltac hush :=
  repeat first
    [ apply silent_pure | apply silent_liftR | apply silent_sign
    | apply silent_run
    | apply silent_andThen; [|intro]
    | apply silent_attempt; [|intro]
    | progress cbv zeta
    | match goal with
      | |- silent (match ?x with _ => _ end) => destruct x
      end ].

Lemma sql_log_attempt {A} (m : R A) (h : exn -> R A) (s : State) :
  (forall e, silent (h e)) ->
  sql_log (snd (attempt m h s)) = sql_log (snd (m s)).
Proof.
  intros Hh. unfold attempt. destruct (m s) as [[a|e] s1]; [reflexivity|].
  apply Hh.
Qed.

Lemma sql_log_andThen_silent {A B} (m : R A) (k : A -> R B) (s : State) :
  (forall a, silent (k a)) ->
  sql_log (snd (andThen m k s)) = sql_log (snd (m s)).
Proof.
  intros Hk. unfold andThen. destruct (m s) as [[a|e] s1]; [|reflexivity].
  apply Hk.
Qed.

Lemma sql_log_ask (sv : Services) (t : sql) (ps : list value) (s : State) :
  pool (world s) = true ->
  sql_log (snd (ask sv t ps s)) = (sql_log s ++ [SqlCall t ps])%list.
Proof. intros Hp. unfold ask. now rewrite Hp. Qed.

Lemma get_field (v : value) (name : string) (x : value) :
  get v name = Ok x -> x = field v name.
Proof. destruct v; cbn; intros [=]; auto. Qed.

Lemma silent_sendMockRegistration (sv : Services) (name email phone : value) :
  silent (sendMockRegistration sv name email phone).
Proof. unfold sendMockRegistration. hush. Qed.

Lemma silent_sendMockLogin (sv : Services) (email : value) :
  silent (sendMockLogin sv email).
Proof. unfold sendMockLogin. hush. Qed.

Lemma andThen_liftR {A B} (o : outcome A) (k : A -> R B) (s : State) :
  andThen (liftR o) k s
  = match o with Ok a => k a s | Throw e => (Throw e, s) end.
Proof. unfold andThen, liftR. destruct o; reflexivity. Qed.

Lemma andThen_run_log {B} (parts : list value) (k : unit -> R B) (w : World)
      (l : list sql_call) (g : list value) :
  andThen (run (log parts)) k {| world := w; sql_log := l; signed := g |}
  = match texts parts with
    | Ok _ => k tt {| world := w; sql_log := l; signed := g |}
    | Throw e => (Throw e, {| world := w; sql_log := l; signed := g |})
    end.
Proof.
  unfold andThen, run, log. cbn [fst snd world sql_log signed].
  destruct (texts parts); reflexivity.
Qed.

Lemma andThen_store_ready {B} (k : bool -> R B) (w : World)
      (l : list sql_call) (g : list value) :
  andThen store_ready k {| world := w; sql_log := l; signed := g |}
  = k (isDatabaseConnected w && pool w)
      {| world := w; sql_log := l; signed := g |}.
Proof. reflexivity. Qed.

(** X21. Whatever [POST /register] is sent, its storage calls are none,
    or the lookup by email alone, or the lookup followed by one
    [INSERT INTO users]; the insert is only issued after the lookup
    returned no row, and the password it stores is the text
    [bcrypt.hash] returned for the submitted one. *)
Theorem registration_inserts_only_a_new_email_with_the_hash
        (sv : Services) (req : Request) (s : State) :
  let name := field (body req) "name" in
  let email := field (body req) "email" in
  let password := field (body req) "password" in
  let phone := field (body req) "phone" in
  let lookup := SqlCall SelectUserByEmail [email] in
  let log' := sql_log (snd (register sv req s)) in
  log' = sql_log s
  \/ log' = (sql_log s ++ [lookup])%list
  \/ exists h,
      log' = (sql_log s ++ [lookup; insert_user_call name email phone h])%list
      /\ store sv (sql_log s) lookup = Ok []
      /\ bcrypt_hash sv password = Ok h.
Proof.
  cbv zeta. destruct s as [w l g]. cbn [world sql_log signed].
  remember (sql_log (snd (register sv req
                            {| world := w; sql_log := l; signed := g |})))
    as log' eqn:E.
  unfold register in E.
  rewrite sql_log_attempt in E by (intro; apply silent_pure).
  rewrite andThen_liftR in E.
  destruct (get (body req) "name") as [name|e] eqn:Hn; [|now left].
  rewrite andThen_liftR in E.
  destruct (get (body req) "email") as [email|e] eqn:He; [|now left].
  rewrite andThen_liftR in E.
  destruct (get (body req) "password") as [password|e] eqn:Hp; [|now left].
  rewrite andThen_liftR in E.
  destruct (get (body req) "phone") as [phone|e] eqn:Hph; [|now left].
  apply get_field in Hn, He, Hp, Hph. subst name email password phone.
  rewrite andThen_run_log in E.
  destruct (texts [field (body req) "name"; field (body req) "email"]);
    [|now left].
  match type of E with
  | context [if ?c then _ else _] => destruct c; [now left|]
  end.
  rewrite andThen_store_ready in E.
  destruct (isDatabaseConnected w && pool w) eqn:Hready;
    [|left; rewrite E; apply silent_sendMockRegistration].
  apply andb_prop in Hready. destruct Hready as [_ Hpool].
  rewrite sql_log_attempt in E by (intro; apply silent_sendMockRegistration).
  unfold andThen at 1 in E. unfold ask at 1 in E.
  cbn [world sql_log signed] in E. rewrite Hpool in E.
  destruct (store sv l
              (SqlCall SelectUserByEmail [field (body req) "email"]))
    as [[|row rows]|e] eqn:Hstore;
    [|right; left; exact E|right; left; exact E].
  rewrite andThen_liftR in E.
  destruct (bcrypt_hash sv (field (body req) "password")) as [h|e] eqn:Hh;
    [|right; left; exact E].
  right. right. exists h. split; [|split; reflexivity].
  rewrite sql_log_andThen_silent in E by (intro; hush).
  rewrite sql_log_ask in E by exact Hpool.
  cbn [sql_log] in E. rewrite <- app_assoc in E. exact E.
Qed.

(** X22. [POST /register] reports success for an account it did not
    store: for a name and an email that convert to text (the handler
    logs them first), when the store is available but rejects the insert, the
    answer is still 200 with [success: true], a token signed for an id
    read from the clock, and a user whose id is a later reading of the
    clock. *)
Theorem registration_reports_success_when_the_insert_is_rejected
        (sv : Services) (req : Request) (s : State)
        (name email password phone : value) (tok : string) :
  get (body req) "name" = Ok name ->
  get (body req) "email" = Ok email ->
  get (body req) "password" = Ok password ->
  get (body req) "phone" = Ok phone ->
  textual name = true ->
  textual email = true ->
  toBoolean name = true ->
  toBoolean email = true ->
  toBoolean password = true ->
  isDatabaseConnected (world s) && pool (world s) = true ->
  insert_rejected sv s name email password phone ->
  jwt_sign sv (signed s)
           (mock_registration_payload
              (clock (core sv) (ticks (world s))) email)
           (JWT_SECRET (core sv)) = Ok tok ->
  exists r,
    fst (register sv req s) = Ok r
    /\ status r = 200%Z
    /\ field (json r) "success" = VBool true
    /\ field (json r) "access_token" = VStr tok
    /\ field (field (json r) "user") "id"
       = VNum (number_of_Z (clock (core sv) (S (ticks (world s)))))
    /\ exists h,
        sql_log (snd (register sv req s))
        = (sql_log s ++ [SqlCall SelectUserByEmail [email];
                         insert_user_call name email phone h])%list.
Proof.
  intros Hn He Hp Hph Hxn Hxe Htn Hte Htp Hready
         (h & e & Hlook & Hhash & Hins) Hsign.
  destruct s as [w l g]. cbn [world sql_log signed] in *.
  unfold insert_user_call in Hins.
  unfold register. racc. rewrite Hn, He, Hp, Hph.
  rewrite (log_two name email w Hxn Hxe). unfold not_.
  rewrite Htn, Hte, Htp.
  cbn [negb orb fst snd world sql_log signed]. rewrite Hready.
  apply andb_prop in Hready. destruct Hready as [_ Hpool].
  unfold ask. cbn [fst snd world sql_log signed]. rewrite Hpool, Hlook.
  cbn [fst snd world sql_log signed]. rewrite Hhash.
  cbn [fst snd world sql_log signed]. rewrite Hpool, Hins.
  unfold sendMockRegistration, sign. racc. unfold now.
  cbn [fst snd world sql_log signed ticks].
  fold (mock_registration_payload (clock (core sv) (ticks w)) email).
  rewrite Hsign.
  eexists. split; [reflexivity|]. repeat split.
  exists h. cbn [snd sql_log]. rewrite <- app_assoc. reflexivity.
Qed.

Lemma registration_reports_success_when_the_insert_is_rejected_witness :
  let req := json_request [] (VObj [("name", VStr "Bob");
                                    ("email", VStr "bob@example.com");
                                    ("password", VStr "hunter22")]) in
  exists r,
    fst (register (services one_account) req (booted true)) = Ok r
    /\ status r = 200%Z
    /\ field (json r) "success" = VBool true
    /\ field (json r) "access_token" = VStr "jwt.1793574000000"
    /\ field (field (json r) "user") "id" = VNum (number_of_Z 1793574000001)
    /\ exists h,
        sql_log (snd (register (services one_account) req (booted true)))
        = [SqlCall SelectUserByEmail [VStr "bob@example.com"];
           insert_user_call (VStr "Bob") (VStr "bob@example.com")
                            VUndefined h].
Proof.
  exact (registration_reports_success_when_the_insert_is_rejected
           (services one_account)
           (json_request [] (VObj [("name", VStr "Bob");
                                   ("email", VStr "bob@example.com");
                                   ("password", VStr "hunter22")]))
           (booted true)
           (VStr "Bob") (VStr "bob@example.com") (VStr "hunter22") VUndefined
           "jwt.1793574000000"
           eq_refl eq_refl eq_refl eq_refl eq_refl eq_refl eq_refl eq_refl
           eq_refl eq_refl
           (ex_intro _ "$2a$10$hunter22"
              (ex_intro _ (Rejected "duplicate key value")
                 (conj eq_refl (conj eq_refl eq_refl))))
           eq_refl).
Defined.

(** X23. Whatever [POST /change-password] is sent, its storage calls
    are none, or the read of the stored password alone, or that read
    followed by one [UPDATE users SET password]; the update is only
    issued for a request with an identity, after [bcrypt.compare]
    accepted the submitted current password against the stored one,
    and it stores the text [bcrypt.hash] returned for the new
    password, under that identity. *)
Theorem password_is_replaced_only_after_the_current_one_matched
        (sv : Services) (req : Request) (s : State) :
  let userId := getUserIdFromToken (core sv) req in
  let current := field (body req) "currentPassword" in
  let new := field (body req) "newPassword" in
  let lookup := SqlCall SelectPassword [userId] in
  let log' := sql_log (snd (change_password sv req s)) in
  log' = sql_log s
  \/ log' = (sql_log s ++ [lookup])%list
  \/ exists user rest stored h,
      log' = (sql_log s
                ++ [lookup; SqlCall UpdatePassword [VStr h; userId]])%list
      /\ toBoolean userId = true
      /\ store sv (sql_log s) lookup = Ok (user :: rest)
      /\ get user "password" = Ok stored
      /\ bcrypt_compare sv current stored = Ok true
      /\ bcrypt_hash sv new = Ok h.
Proof.
  cbv zeta. destruct s as [w l g]. cbn [world sql_log signed].
  remember (sql_log (snd (change_password sv req
                            {| world := w; sql_log := l; signed := g |})))
    as log' eqn:E.
  unfold change_password in E.
  rewrite sql_log_attempt in E by (intro; apply silent_pure).
  cbv zeta in E. unfold not_ at 1 in E.
  destruct (toBoolean (getUserIdFromToken (core sv) req)) eqn:Hid;
    cbn [negb] in E; [|now left].
  rewrite andThen_liftR in E.
  destruct (get (body req) "currentPassword") as [current|e] eqn:Hc;
    [|now left].
  rewrite andThen_liftR in E.
  destruct (get (body req) "newPassword") as [new|e] eqn:Hn; [|now left].
  apply get_field in Hc, Hn. subst current new.
  match type of E with
  | context [if ?c then _ else _] => destruct c; [now left|]
  end.
  rewrite andThen_liftR in E.
  destruct (length_of (field (body req) "newPassword")) as [len|e];
    [|now left].
  rewrite andThen_liftR in E.
  destruct (below_six len) as [[|]|e]; [now left| |now left].
  rewrite andThen_store_ready in E.
  destruct (isDatabaseConnected w && pool w) eqn:Hready; [|now left].
  apply andb_prop in Hready. destruct Hready as [_ Hpool].
  rewrite sql_log_attempt in E by (intro; apply silent_pure).
  unfold andThen at 1 in E. unfold ask at 1 in E.
  cbn [world sql_log signed] in E. rewrite Hpool in E.
  destruct (store sv l
              (SqlCall SelectPassword [getUserIdFromToken (core sv) req]))
    as [[|user rest]|e] eqn:Hstore;
    [right; left; exact E| |right; left; exact E].
  rewrite andThen_liftR in E.
  destruct (get user "password") as [stored|e] eqn:Hs;
    [|right; left; exact E].
  rewrite andThen_liftR in E.
  destruct (bcrypt_compare sv (field (body req) "currentPassword") stored)
    as [[|]|e] eqn:Hcmp; cbn [negb] in E;
    [|right; left; exact E|right; left; exact E].
  rewrite andThen_liftR in E.
  destruct (bcrypt_hash sv (field (body req) "newPassword")) as [h|e] eqn:Hh;
    [|right; left; exact E].
  right. right. exists user, rest, stored, h.
  split; [|repeat split; assumption].
  rewrite sql_log_andThen_silent in E by (intro; hush).
  rewrite sql_log_ask in E by exact Hpool.
  cbn [sql_log] in E. rewrite <- app_assoc in E. exact E.
Qed.



Lemma short_is_below_six (n : nat) :
  (n < 6)%nat -> below_six (VNum (number_of_Z (Z.of_nat n))) = Ok true.
Proof.
  intros H.
  do 6 (destruct n as [|n]; [vm_compute; reflexivity|]).
  lia.
Qed.

(** X25. A new password given as text of fewer than six UTF-16 code
    units is refused with 400 by [POST /change-password] and by
    [POST /reset-password], before the store is looked at. *)
Theorem short_password_text_is_refused
        (sv : Services) (req_change req_reset : Request) (s : State)
        (current token : value) (t : string) :
  t <> "" ->
  (utf16_length t < 6)%nat ->
  toBoolean (getUserIdFromToken (core sv) req_change) = true ->
  get (body req_change) "currentPassword" = Ok current ->
  toBoolean current = true ->
  get (body req_change) "newPassword" = Ok (VStr t) ->
  get (body req_reset) "token" = Ok token ->
  toBoolean token = true ->
  get (body req_reset) "password" = Ok (VStr t) ->
  fst (change_password sv req_change s)
  = Ok (failure 400 "Новый пароль должен содержать минимум 6 символов")
  /\ sql_log (snd (change_password sv req_change s)) = sql_log s
  /\ fst (reset_password req_reset s)
     = Ok (failure 400 "Пароль должен содержать минимум 6 символов").
Proof.
  intros Ht Hshort Hid Hc Htc Hn Htok Httok Hp.
  assert (Htt : toBoolean (VStr t) = true).
  { cbn. destruct (String.eqb_spec t ""); [contradiction|reflexivity]. }
  pose proof (short_is_below_six _ Hshort) as Hsix.
  destruct s as [w l g]. cbn [world sql_log signed] in *.
  unfold change_password, reset_password. racc. unfold not_.
  rewrite Hid. cbn [negb].
  rewrite Hc, Hn, Htc, Htok, Hp, Httok, Htt. cbn [negb orb].
  unfold length_of. rewrite Hsix.
  repeat split.
Qed.

Lemma short_password_text_is_refused_witness :
  let req_change := json_request [("authorization", "Bearer good")]
                      (VObj [("currentPassword", VStr "secret1");
                             ("newPassword", VStr "abc")]) in
  let req_reset := json_request []
                     (VObj [("token", VStr "t"); ("password", VStr "abc")]) in
  fst (change_password (services one_account) req_change (booted true))
  = Ok (failure 400 "Новый пароль должен содержать минимум 6 символов")
  /\ sql_log (snd (change_password (services one_account) req_change
                                   (booted true))) = []
  /\ fst (reset_password req_reset (booted true))
     = Ok (failure 400 "Пароль должен содержать минимум 6 символов").
Proof.
  refine (short_password_text_is_refused
            (services one_account)
            (json_request [("authorization", "Bearer good")]
               (VObj [("currentPassword", VStr "secret1");
                      ("newPassword", VStr "abc")]))
            (json_request []
               (VObj [("token", VStr "t"); ("password", VStr "abc")]))
            (booted true) (VStr "secret1") (VStr "t") "abc"
            _ _ eq_refl eq_refl eq_refl eq_refl eq_refl eq_refl eq_refl).
  - discriminate.
  - vm_compute. lia.
Defined.

(** ** The administration key *)

(** X26. None of the six endpoints guarded by the administration key
    does anything for a request that does not carry it: the two order
    status updates, the two dish mutations, the availability toggle
    and the dish read all answer 401 with the same body and leave the
    state of the process as it was (no storage call, no HTTP call). *)
Theorem admin_endpoints_refuse_a_request_without_the_key
        (sv : Services) (req : Request) (s : State) :
  validateAdminApiKey (core sv) req = false ->
  let env := core sv in
  let refused := failure 401 "Неверный API ключ" in
  bot_update_status env req (world s) = (Ok refused, world s)
  /\ admin_update_status env req (world s) = (Ok refused, world s)
  /\ update_dish env req (world s) = (Ok refused, world s)
  /\ create_dish env req (world s) = (Ok refused, world s)
  /\ toggle_dish sv req s = (Ok refused, s)
  /\ get_dish sv req s = (Ok refused, s).
Proof.
  intros Hkey. cbv zeta.
  unfold bot_update_status, admin_update_status, update_dish, create_dish,
    toggle_dish, get_dish.
  rewrite Hkey. cbn [negb].
  repeat split.
  unfold validateAdminApiKey in Hkey. unfold try_catch.
  destruct (header (headers req) "x-admin-api-key") as [apiKey|];
    [|reflexivity].
  rewrite Hkey. rewrite orb_true_r. reflexivity.
Qed.

Lemma admin_endpoints_refuse_a_request_without_the_key_witness :
  let sv := services one_account in
  let req := json_request [("x-admin-api-key", "guess")]
               (VObj [("status", VStr "delivered"); ("price", VStr "1")]) in
  let refused := failure 401 "Неверный API ключ" in
  bot_update_status Demo.env req (Demo.started true)
  = (Ok refused, Demo.started true)
  /\ admin_update_status Demo.env req (Demo.started true)
     = (Ok refused, Demo.started true)
  /\ update_dish Demo.env req (Demo.started true)
     = (Ok refused, Demo.started true)
  /\ create_dish Demo.env req (Demo.started true)
     = (Ok refused, Demo.started true)
  /\ toggle_dish sv req (booted true) = (Ok refused, booted true)
  /\ get_dish sv req (booted true) = (Ok refused, booted true).
Proof.
  exact (admin_endpoints_refuse_a_request_without_the_key
           (services one_account)
           (json_request [("x-admin-api-key", "guess")]
              (VObj [("status", VStr "delivered"); ("price", VStr "1")]))
           (booted true) eq_refl).
Defined.

(** ** Mock mode, once entered *)

Lemma steady_ret {A} (a : A) : steady (ret a).
Proof. intros w. split; reflexivity. Qed.

Lemma steady_lift {A} (o : outcome A) : steady (lift o).
Proof. intros w. split; reflexivity. Qed.

Lemma steady_log (parts : list value) : steady (log parts).
Proof. intros w. split; reflexivity. Qed.

Lemma steady_read {A} (f : World -> A) : steady (read f).
Proof. intros w. split; reflexivity. Qed.

Lemma steady_now (env : Env) : steady (now env).
Proof. intros w. split; reflexivity. Qed.

Lemma steady_post (env : Env) (u : string) (d : value) (t : Z) :
  steady (post env u d t).
Proof. intros w. split; reflexivity. Qed.

Lemma steady_query (env : Env) (st : statement) (ps : list value) :
  steady (query env st ps).
Proof.
  intros w. unfold query.
  destruct (pool w) eqn:H; cbn [snd isDatabaseConnected pool]; auto.
Qed.

Lemma steady_bind {A B} (m : M A) (k : A -> M B) :
  steady m -> (forall a, steady (k a)) -> steady (bind m k).
Proof.
  intros Hm Hk w. unfold bind. specialize (Hm w).
  destruct (m w) as [[a|e] w1]; cbn [snd] in *; [|exact Hm].
  destruct (Hk a w1) as [H1 H2]. destruct Hm as [H3 H4].
  split; congruence.
Qed.

Lemma steady_try {A} (m : M A) (h : exn -> M A) :
  steady m -> (forall e, steady (h e)) -> steady (try_catch m h).
Proof.
  intros Hm Hh w. unfold try_catch. specialize (Hm w).
  destruct (m w) as [[a|e] w1]; cbn [snd] in *; [exact Hm|].
  destruct (Hh e w1) as [H1 H2]. destruct Hm as [H3 H4].
  split; congruence.
Qed.

Lemma steady_for_each {A} (f : A -> M unit) (l : list A) :
  (forall a, steady (f a)) -> steady (for_each f l).
Proof.
  intros Hf. induction l as [|a l IH]; cbn [for_each].
  - apply steady_ret.
  - apply steady_bind; [apply Hf|intros _; exact IH].
Qed.

Lemma steady_sendTelegramNotification (env : Env) (od : value) :
  steady (sendTelegramNotification env od).
Proof.
  intros w. destruct (sendTelegramNotification_world env od w) as (H1 & H2 & _).
  split; assumption.
Qed.

Ltac settle :=
  repeat first
    [ apply steady_ret | apply steady_lift | apply steady_log
    | apply steady_read
    | apply steady_now | apply steady_post | apply steady_query
    | apply steady_sendTelegramNotification
    | apply steady_for_each; intro
    | apply steady_bind; [|intro]
    | apply steady_try; [|intro]
    | progress cbv zeta
    | match goal with
      | |- steady (match ?x with _ => _ end) => destruct x
      end ].

Lemma steady_create_order (env : Env) (req : Request) :
  steady (create_order env req).
Proof.
  unfold create_order, create_order_persist, create_order_mock,
    persist_order, notify_persisted, notify_mock, insert_item.
  settle.
Qed.

Lemma steady_user_orders (env : Env) (req : Request) :
  steady (user_orders env req).
Proof. unfold user_orders. settle. Qed.

Lemma steady_bot_update_status (env : Env) (req : Request) :
  steady (bot_update_status env req).
Proof. unfold bot_update_status, notify_owner, updated_at_or_now. settle. Qed.

Lemma steady_admin_update_status (env : Env) (req : Request) :
  steady (admin_update_status env req).
Proof. unfold admin_update_status. settle. Qed.

Lemma steady_update_dish (env : Env) (req : Request) :
  steady (update_dish env req).
Proof. unfold update_dish. settle. Qed.

Lemma steady_create_dish (env : Env) (req : Request) :
  steady (create_dish env req).
Proof. unfold create_dish. settle. Qed.

Lemma steady_test_notification (env : Env) (req : Request) :
  steady (test_notification env req).
Proof. unfold test_notification. settle. Qed.

Lemma wanes_pure {A} (a : A) : wanes (pure a).
Proof. intros s. split; [reflexivity|auto]. Qed.

Lemma wanes_liftR {A} (o : outcome A) : wanes (liftR o).
Proof. intros s. split; [reflexivity|auto]. Qed.

Lemma wanes_sign (sv : Services) (p : value) : wanes (sign sv p).
Proof. intros s. split; [reflexivity|auto]. Qed.

Lemma wanes_ask (sv : Services) (t : sql) (ps : list value) :
  wanes (ask sv t ps).
Proof.
  intros s. unfold ask.
  destruct (pool (world s)) eqn:H; cbn [snd world]; auto.
Qed.

Lemma wanes_disconnect : wanes disconnect.
Proof. intros s. split; [reflexivity|]. cbn. discriminate. Qed.

Lemma wanes_run {A} (m : M A) : steady m -> wanes (run m).
Proof.
  intros Hm s. destruct (Hm (world s)) as [H1 H2]. unfold run.
  cbn [snd world]. split; [exact H2|]. now rewrite H1.
Qed.

Lemma wanes_andThen {A B} (m : R A) (k : A -> R B) :
  wanes m -> (forall a, wanes (k a)) -> wanes (andThen m k).
Proof.
  intros Hm Hk s. unfold andThen. specialize (Hm s).
  destruct (m s) as [[a|e] s1]; cbn [snd] in *; [|exact Hm].
  destruct (Hk a s1) as [H1 H2]. destruct Hm as [H3 H4].
  split; [congruence|auto].
Qed.

Lemma wanes_attempt {A} (m : R A) (h : exn -> R A) :
  wanes m -> (forall e, wanes (h e)) -> wanes (attempt m h).
Proof.
  intros Hm Hh s. unfold attempt. specialize (Hm s).
  destruct (m s) as [[a|e] s1]; cbn [snd] in *; [exact Hm|].
  destruct (Hh e s1) as [H1 H2]. destruct Hm as [H3 H4].
  split; [congruence|auto].
Qed.

Ltac ebb :=
  repeat first
    [ apply wanes_pure | apply wanes_liftR | apply wanes_sign
    | apply wanes_ask | apply wanes_disconnect
    | apply wanes_run;
      first [ apply steady_read | apply steady_now | apply steady_log
            | apply steady_create_order | apply steady_user_orders
            | apply steady_bot_update_status
            | apply steady_admin_update_status
            | apply steady_update_dish | apply steady_create_dish
            | apply steady_test_notification ]
    | apply wanes_andThen; [|intro]
    | apply wanes_attempt; [|intro]
    | progress cbv zeta
    | match goal with
      | |- wanes (match ?x with _ => _ end) => destruct x
      end ].

Lemma wanes_serve (sv : Services) (e : event) : wanes (serve sv e).
Proof.
  destruct e; unfold serve, forget, probe, register, login, change_password,
    reset_password, toggle_dish, get_dish, sendMockLogin,
    sendMockRegistration, store_ready; ebb.
Qed.

Lemma after_wanes (sv : Services) (es : list event) (s : State) :
  pool (world (after sv es s)) = pool (world s)
  /\ (isDatabaseConnected (world (after sv es s)) = true ->
      isDatabaseConnected (world s) = true).
Proof.
  unfold after. revert s. induction es as [|e es IH]; intros s; cbn [fold_left].
  - split; auto.
  - destruct (IH (snd (serve sv e s))) as [H1 H2].
    destruct (wanes_serve sv e s) as [H3 H4].
    split; [congruence|auto].
Qed.

(** X27. Mock mode is never left. Once [isDatabaseConnected] is false,
    it stays false through any sequence of liveness probes and requests
    to the endpoints, each served to its end, whatever the store, the
    HTTP client and the other collaborators answer; the pool variable
    is not assigned either. *)
Theorem mock_mode_is_never_left
        (sv : Services) (es : list event) (s : State) :
  isDatabaseConnected (world s) = false ->
  isDatabaseConnected (world (after sv es s)) = false
  /\ pool (world (after sv es s)) = pool (world s).
Proof.
  intros Hoff. destruct (after_wanes sv es s) as [H1 H2].
  split; [|exact H1].
  destruct (isDatabaseConnected (world (after sv es s))); [|reflexivity].
  rewrite H2 in Hoff by reflexivity. discriminate Hoff.
Qed.

(** X3. One rejected liveness probe puts the process into mock mode
    for good: if the store rejects the probe's query, the flag is false
    after the probe and after any sequence of probes and requests that
    follows, also when the store answers all of them. *)
Theorem a_rejected_probe_switches_to_mock_mode_for_good
        (sv : Services) (es : list event) (s : State) (e : exn) :
  store sv (sql_log s) (SqlCall Probe []) = Throw e ->
  isDatabaseConnected (world (after sv (ProbeFires :: es) s)) = false.
Proof.
  intros Hrej.
  assert (Hoff : isDatabaseConnected (world (snd (probe sv s))) = false).
  { unfold probe, attempt, andThen, ask.
    destruct (pool (world s)); [rewrite Hrej|]; reflexivity. }
  unfold after. cbn [fold_left serve]. fold (after sv es (snd (probe sv s))).
  destruct (after_wanes sv es (snd (probe sv s))) as [_ H2].
  destruct (isDatabaseConnected (world (after sv es (snd (probe sv s)))));
    [|reflexivity].
  rewrite H2 in Hoff by reflexivity. discriminate Hoff.
Qed.

Lemma mock_mode_is_never_left_witness :
  let sv := services one_account in
  let es := [PostLogin (json_request [] (VObj [("email", VStr "a@b.c");
                                               ("password", VStr "x")]));
             ProbeFires;
             PostOrders (Demo.order_request Demo.pizza);
             ProbeFires] in
  isDatabaseConnected (world (after sv es (booted false))) = false
  /\ pool (world (after sv es (booted false))) = false.
Proof.
  exact (mock_mode_is_never_left
           (services one_account)
           [PostLogin (json_request [] (VObj [("email", VStr "a@b.c");
                                              ("password", VStr "x")]));
            ProbeFires;
            PostOrders (Demo.order_request Demo.pizza);
            ProbeFires]
           (booted false) eq_refl).
Defined.

Lemma a_rejected_probe_switches_to_mock_mode_for_good_witness :
  let es := [PostOrders (Demo.order_request Demo.pizza); ProbeFires] in
  isDatabaseConnected
    (world (after (services rejecting) (ProbeFires :: es) (booted true)))
  = false.
Proof.
  exact (a_rejected_probe_switches_to_mock_mode_for_good
           (services rejecting)
           [PostOrders (Demo.order_request Demo.pizza); ProbeFires]
           (booted true) (Rejected "connect ECONNREFUSED") eq_refl).
Defined.
